(** * CandleSage: pattern encoding and idempotent persistence

    A shallow embedding of [Backup/temp.py] (CandlePatternRecognizer,
    StockDatabaseManager, StockDataDownloader) and of the composite
    detectors of [stock_api/pattern_engine.py], with the properties of
    the pattern encoder, of the two upsert paths and of the date-range
    driver.

    Conventions.  Python exceptions are values of [Exn]; a call that may
    raise returns a [Result].  Code that touches the database, the
    network or the log runs in the monad [M], a state monad over [World]
    whose results are [Result]s.  TA-Lib, the HTTP server, the CSV
    reader and the failures of the database server are not part of the
    repository: they are parameters. *)

From Stdlib Require Import ZArith QArith Lia List String Ascii DecimalString.
From stdpp Require Import base option list gmap strings.

Local Open Scope string_scope.
Local Open Scope list_scope.
Local Open Scope Z_scope.

(** ** Exceptions and results *)

Inductive Exn : Type :=
| ValueError (what : string)
| KeyError (key : string)
| IndexError
| OverflowError
| InvalidRequestError (table : string)
| ProgrammingError (table : string)
| DBAPIError (table : string)
| ConnectionError (url : string)
| ParserError.

Inductive Result (A : Type) : Type :=
| Ok (a : A)
| Raise (e : Exn).
Arguments Ok {A} a.
Arguments Raise {A} e.

Definition rbind {A B} (r : Result A) (k : A -> Result B) : Result B :=
  match r with
  | Ok a => k a
  | Raise e => Raise e
  end.

Fixpoint rmapM {A B} (f : A -> Result B) (l : list A) : Result (list B) :=
  match l with
  | [] => Ok []
  | x :: l' => rbind (f x) (fun y => rbind (rmapM f l') (fun ys => Ok (y :: ys)))
  end.

(** ** Python built-ins used by the encoder *)

Module Py.

(** [str(n)] for an integer. *)
Definition str_int (n : Z) : string := NilZero.string_of_int (Z.to_int n).

(** [''.join(l)]. *)
Definition join (l : list string) : string := fold_right String.append "" l.

(** [int(x, 2)] on a string of binary digits.  Signs, the [0b] prefix,
    underscores and surrounding blanks, which Python also accepts, do
    not occur in the strings the encoder builds and are rejected here. *)
Fixpoint int2_digits (s : string) (acc : Z) : Result Z :=
  match s with
  | EmptyString => Ok acc
  | String c s' =>
      if Ascii.eqb c "0" then int2_digits s' (2 * acc)
      else if Ascii.eqb c "1" then int2_digits s' (2 * acc + 1)
      else Raise (ValueError "invalid literal for int() with base 2")
  end.

Definition int2 (s : string) : Result Z :=
  match s with
  | EmptyString => Raise (ValueError "invalid literal for int() with base 2")
  | _ => int2_digits s 0
  end.

(** [str(l)] for a list of strings without quotes or escapes. *)
Definition repr_str (s : string) : string := ("'" ++ s ++ "'")%string.

Fixpoint sep_join (sep : string) (l : list string) : string :=
  match l with
  | [] => ""
  | [x] => x
  | x :: l' => (x ++ sep ++ sep_join sep l')%string
  end.

Definition str_list (l : list string) : string :=
  ("[" ++ sep_join ", " (map repr_str l) ++ "]")%string.

(** [s.lower()] on ASCII. *)
Definition lower_ascii (c : ascii) : ascii :=
  let n := nat_of_ascii c in
  if (Nat.leb 65 n && Nat.leb n 90)%bool then ascii_of_nat (n + 32) else c.

Fixpoint lower (s : string) : string :=
  match s with
  | EmptyString => EmptyString
  | String c s' => String (lower_ascii c) (lower s')
  end.

End Py.

(** ** CandlePatternRecognizer *)

(** The TA-Lib functions the catalog refers to. *)
Inductive TalibFn : Type :=
| CDLHAMMER | CDLINVERTEDHAMMER | CDLDRAGONFLYDOJI | CDLPIERCING
| CDLMARUBOZU | CDLSPINNINGTOP | CDLHANGINGMAN | CDLSHOOTINGSTAR
| CDLGRAVESTONEDOJI | CDLDOJI | CDLLONGLEGGEDDOJI.

(** A TA-Lib function maps the four aligned price columns to an integer
    array of the same length; the array is given by its entry at each
    row index. *)
Definition Talib : Type := TalibFn -> list Q -> list Q -> list Q -> list Q -> nat -> Z.

(** One row of the cleaned daily frame. *)
Record Bar : Type := mkBar {
  Symbol : string;
  Date : string;
  Open : Q;
  High : Q;
  Low : Q;
  Close : Q;
  Volume : Q;
  prev_close : Q;
  avg_price : Q
}.

(** One row of the frame after encoding: the bar, the twelve 0/1 pattern
    columns (as the row's [items()]), and the two derived columns. *)
Record EncodedRow : Type := mkEncodedRow {
  bar : Bar;
  flags : list (string * Z);
  pattern_value : Z;
  matched_patterns : list string
}.

Module CandlePatternRecognizer.

Definition pattern_names : list string :=
  [ "Hammer"; "InvertedHammer"; "DragonflyDoji"; "PiercingLine";
    "BullishMarubozu"; "BullishSpinningTop"; "HangingMan"; "ShootingStar";
    "GravestoneDoji"; "BearishSpinningTop"; "Doji"; "LongLeggedDoji" ].

Definition patterns : list (string * TalibFn) :=
  [ ("Hammer", CDLHAMMER);
    ("InvertedHammer", CDLINVERTEDHAMMER);
    ("DragonflyDoji", CDLDRAGONFLYDOJI);
    ("PiercingLine", CDLPIERCING);
    ("BullishMarubozu", CDLMARUBOZU);
    ("BullishSpinningTop", CDLSPINNINGTOP);
    ("HangingMan", CDLHANGINGMAN);
    ("ShootingStar", CDLSHOOTINGSTAR);
    ("GravestoneDoji", CDLGRAVESTONEDOJI);
    ("BearishSpinningTop", CDLSPINNINGTOP);
    ("Doji", CDLDOJI);
    ("LongLeggedDoji", CDLLONGLEGGEDDOJI) ].

(** [self.patterns[name]]. *)
Fixpoint dict_get {V} (d : list (string * V)) (k : string) : Result V :=
  match d with
  | [] => Raise (KeyError k)
  | (k', v) :: d' => if String.eqb k' k then Ok v else dict_get d' k
  end.

Section Encode.
Variable talib : Talib.

(** The raw detector output of catalog entry [name] on row [i]. *)
Definition detector (df : list Bar) (name : string) (i : nat) : Result Z :=
  rbind (dict_get patterns name) (fun f =>
    Ok (talib f (map Open df) (map High df) (map Low df) (map Close df) i)).

(** [(self.patterns[name](...) != 0).astype(int)]: one 0/1 column. *)
Definition flag_column (df : list Bar) (name : string) : Result (list Z) :=
  rbind (dict_get patterns name) (fun f =>
    Ok (map (fun i =>
               if Z.eqb (talib f (map Open df) (map High df)
                               (map Low df) (map Close df) i) 0
               then 0 else 1)
            (seq 0 (length df)))).

(** The row of [df[self.pattern_names]] at index [i]. *)
Definition row_items (cols : list (string * list Z)) (i : nat) : list (string * Z) :=
  map (fun nc => (fst nc, nth i (snd nc) 0)) cols.

Definition encode_row (cols : list (string * list Z)) (i : nat) (b : Bar)
  : Result EncodedRow :=
  let items := row_items cols i in
  rbind (Py.int2 (Py.join (map (fun it => Py.str_int (snd it)) items))) (fun v =>
    Ok {| bar := b;
          flags := items;
          pattern_value := v;
          matched_patterns :=
            map fst (List.filter (fun it => Z.eqb (snd it) 1) items) |}).

Definition apply_and_encode_patterns (df : list Bar) : Result (list EncodedRow) :=
  rbind (rmapM (fun name => rbind (flag_column df name) (fun col => Ok (name, col)))
               pattern_names) (fun cols =>
    rmapM (fun ib => encode_row cols (fst ib) (snd ib))
          (combine (seq 0 (length df)) df)).

End Encode.

End CandlePatternRecognizer.

(** ** Calendar dates

    [datetime] values of this program always carry the time 00:00; a
    date is represented by its proleptic Gregorian ordinal (day 1 is
    0001-01-01), with the conversions of the [datetime] module. *)

Module Calendar.

Definition MINYEAR : Z := 1.
Definition MAXYEAR : Z := 9999.
Definition MAXORD : Z := 3652059.

Definition is_leap (y : Z) : bool :=
  ((y mod 4 =? 0) && (negb (y mod 100 =? 0) || (y mod 400 =? 0)))%bool.

Definition days_before_year (y : Z) : Z :=
  let p := y - 1 in p * 365 + p / 4 - p / 100 + p / 400.

Definition days_in_month (y m : Z) : Z :=
  if m =? 2 then (if is_leap y then 29 else 28)
  else if (m =? 4) || (m =? 6) || (m =? 9) || (m =? 11) then 30
  else 31.

Definition DAYS_BEFORE_MONTH (m : Z) : Z :=
  nth (Z.to_nat m) [-1; 0; 31; 59; 90; 120; 151; 181; 212; 243; 273; 304; 334] 0.

Definition DAYS_IN_MONTH (m : Z) : Z :=
  nth (Z.to_nat m) [-1; 31; 28; 31; 30; 31; 30; 31; 31; 30; 31; 30; 31] 0.

Definition days_before_month (y m : Z) : Z :=
  DAYS_BEFORE_MONTH m + (if (2 <? m) && is_leap y then 1 else 0).

Definition ymd2ord (y m d : Z) : Z :=
  days_before_year y + days_before_month y m + d.

Definition DI400Y : Z := 146097.
Definition DI100Y : Z := 36524.
Definition DI4Y : Z := 1461.

Definition ord2ymd (ordinal : Z) : Z * Z * Z :=
  let n := ordinal - 1 in
  let n400 := n / DI400Y in
  let n := n mod DI400Y in
  let year := n400 * 400 + 1 in
  let n100 := n / DI100Y in
  let n := n mod DI100Y in
  let n4 := n / DI4Y in
  let n := n mod DI4Y in
  let n1 := n / 365 in
  let n := n mod 365 in
  let year := year + n100 * 100 + n4 * 4 + n1 in
  if (n1 =? 4) || (n100 =? 4) then (year - 1, 12, 31)
  else
    let leapyear := (n1 =? 3) && (negb (n4 =? 24) || (n100 =? 3)) in
    let month := Z.shiftr (n + 50) 5 in
    let preceding :=
      DAYS_BEFORE_MONTH month + (if (2 <? month) && leapyear then 1 else 0) in
    if n <? preceding then
      let month := month - 1 in
      let preceding :=
        preceding - (DAYS_IN_MONTH month
                     + (if (month =? 2) && leapyear then 1 else 0)) in
      (year, month, n - preceding + 1)
    else (year, month, n - preceding + 1).

(** A [datetime] at midnight. *)
Record datetime : Type := mkDatetime { toordinal : Z }.

(** [datetime(y, m, d)], which checks its fields. *)
Definition make_datetime (y m d : Z) : Result datetime :=
  if (MINYEAR <=? y) && (y <=? MAXYEAR) && (1 <=? m) && (m <=? 12)
     && (1 <=? d) && (d <=? days_in_month y m)
  then Ok (mkDatetime (ymd2ord y m d))
  else Raise (ValueError "date value out of range").

Definition weekday (dt : datetime) : Z := (toordinal dt + 6) mod 7.

(** [dt + timedelta(days=k)]. *)
Definition add_days (dt : datetime) (k : Z) : Result datetime :=
  let o := toordinal dt + k in
  if (1 <=? o) && (o <=? MAXORD) then Ok (mkDatetime o)
  else Raise OverflowError.

(** [a <= b]. *)
Definition le (a b : datetime) : bool := toordinal a <=? toordinal b.

(** Decimal digits. *)
Definition digit_of_ascii (c : ascii) : option Z :=
  let n := Z.of_nat (nat_of_ascii c) in
  if (48 <=? n) && (n <=? 57) then Some (n - 48) else None.

Definition ascii_of_digit (d : Z) : ascii := ascii_of_nat (Z.to_nat (48 + d)).

Fixpoint digits_value (s : string) (acc : Z) : option Z :=
  match s with
  | EmptyString => Some acc
  | String c s' =>
      match digit_of_ascii c with
      | Some d => digits_value s' (10 * acc + d)
      | None => None
      end
  end.

Definition pad2 (n : Z) : string :=
  String (ascii_of_digit (n / 10 mod 10)) (String (ascii_of_digit (n mod 10)) "").

Definition pad4 (n : Z) : string :=
  String (ascii_of_digit (n / 1000 mod 10))
    (String (ascii_of_digit (n / 100 mod 10)) (pad2 n)).

(** [dt.strftime("%d%m%Y")]; the year is written with four digits. *)
Definition strftime_dmY (dt : datetime) : string :=
  let '(y, m, d) := ord2ymd (toordinal dt) in
  (pad2 d ++ pad2 m ++ pad4 y)%string.

Definition bad_format (s : string) : Exn :=
  ValueError ("time data " ++ s ++ " does not match format")%string.

Definition fields_to_datetime (s : string) (sd sm sy : string) : Result datetime :=
  match digits_value sd 0, digits_value sm 0, digits_value sy 0 with
  | Some d, Some m, Some y =>
      if (1 <=? d) && (d <=? 31) && (1 <=? m) && (m <=? 12)
      then make_datetime y m d
      else Raise (bad_format s)
  | _, _, _ => Raise (bad_format s)
  end.

(** [datetime.strptime(s, "%d%m%Y")] on the eight-character form
    DDMMYYYY.  (Python also accepts one-digit days and months; the
    strings of this program are written by [strftime].) *)
Definition strptime_dmY (s : string) : Result datetime :=
  if Nat.eqb (String.length s) 8
  then fields_to_datetime s (substring 0 2 s) (substring 2 2 s) (substring 4 4 s)
  else Raise (bad_format s).

(** [datetime.strptime(s, "%d-%m-%Y")] on the ten-character form
    DD-MM-YYYY. *)
Definition strptime_d_m_Y (s : string) : Result datetime :=
  if Nat.eqb (String.length s) 10
     && String.eqb (substring 2 1 s) "-" && String.eqb (substring 5 1 s) "-"
  then fields_to_datetime s (substring 0 2 s) (substring 3 2 s) (substring 6 4 s)
  else Raise (bad_format s).

End Calendar.


(** ** The world the program runs in *)

(** A row of a destination table, as the dictionaries bound to the
    INSERT statements (the [id] column is generated by the server). *)
Module Rec.
Record t : Type := mk {
  symbol : string;
  date : Calendar.datetime;
  open : Q;
  high : Q;
  low : Q;
  close : Q;
  volume : Q;
  prev_close : Q;
  avg_price : Q;
  pattern_value : Z;
  matched_patterns : string
}.

(** The columns of the uniqueness constraint [uq_<table>]. *)
Definition key (r : t) : string * Z := (symbol r, Calendar.toordinal (date r)).

Definition key_eqb (a b : string * Z) : bool :=
  String.eqb (fst a) (fst b) && (snd a =? snd b).
End Rec.

Inductive LogRecord : Type :=
| IndexesFailed (table : string) (e : Exn)
| CreateFailed (table : string) (e : Exn)
| InsertFailed (symbol : string) (e : Exn)
| BulkInserted (n : nat) (table : string)
| BulkFailed (table : string) (e : Exn)
| ProcessFailed (date_str : string) (e : Exn).

(** What the program does to the outside, in order. *)
Inductive Event : Type :=
| HasTable (table : string)
| CreateAll (table : string)
| CreateIndexes (table : string)
| Insert (table : string) (r : Rec.t)
| BulkInsert (table : string) (rs : list Rec.t)
| HttpGet (url : string)
| LogError (r : LogRecord)
| LogInfo (r : LogRecord)
| Print (dt : Calendar.datetime).

Record World : Type := mkWorld {
  tables : gmap string (list Rec.t);
  existing_tables_cache : gset string;
  trace : list Event
}.

Record Response : Type := mkResponse {
  status_code : Z;
  content : Result string
}.

(** The collaborators outside the repository.  The database server can
    fail each kind of request: the existence check of
    [inspector.has_table], the CREATE TABLE, the CREATE INDEX
    statements, and an INSERT into a table that exists.  Whether it
    does is taken to depend on the request only (the table, and for an
    INSERT the records), not on when it is sent.  [insert_error] also
    stands for the statements the server cannot parse: [insert_data]
    pastes the table name unquoted into its SQL, so a name that is not
    a plain identifier ([stock_m&m], [stock_bajaj-auto]) is refused. *)
Record Env : Type := mkEnv {
  talib : Talib;
  has_table_error : string -> option Exn;
  create_error : string -> option Exn;
  index_error : string -> option Exn;
  insert_error : string -> list Rec.t -> option Exn;
  requests_get : string -> Result Response;
  read_and_clean : string -> Result (list Bar)
}.

(** ** The monad of effectful code *)

Definition M (A : Type) : Type := World -> Result A * World.

Definition ret {A} (a : A) : M A := fun w => (Ok a, w).

Definition bind {A B} (m : M A) (k : A -> M B) : M B :=
  fun w => match m w with
           | (Ok a, w') => k a w'
           | (Raise e, w') => (Raise e, w')
           end.

Definition raise {A} (e : Exn) : M A := fun w => (Raise e, w).

Definition lift {A} (r : Result A) : M A := fun w => (r, w).

(** [try: body except Exception as e: handler(e)]. *)
Definition try_except {A} (body : M A) (handler : Exn -> M A) : M A :=
  fun w => match body w with
           | (Ok a, w') => (Ok a, w')
           | (Raise e, w') => handler e w'
           end.

Definition emit (ev : Event) : M unit :=
  fun w => (Ok tt, {| tables := tables w;
                      existing_tables_cache := existing_tables_cache w;
                      trace := trace w ++ [ev] |}).

Notation "x <- m ;; k" := (bind m (fun x => k))
  (at level 100, m at next level, right associativity).
Notation "m ;;; k" := (bind m (fun _ => k))
  (at level 100, right associativity).

(** [for x in l: f(x)]. *)
Fixpoint for_each {A} (l : list A) (f : A -> M unit) : M unit :=
  match l with
  | [] => ret tt
  | x :: l' => f x ;;; for_each l' f
  end.

(** ** StockDatabaseManager *)

Module StockDatabaseManager.

Definition cache_add (table_name : string) : M unit :=
  fun w => (Ok tt, {| tables := tables w;
                      existing_tables_cache := {[table_name]} ∪ existing_tables_cache w;
                      trace := trace w |}).

Section WithEnv.
Variable env : Env.

(** [inspector.has_table(table_name)]: a round trip to the server,
    which can fail. *)
Definition has_table (table_name : string) : M bool :=
  emit (HasTable table_name) ;;;
  match has_table_error env table_name with
  | Some e => raise e
  | None =>
      fun w => (Ok match tables w !! table_name with
                   | Some _ => true
                   | None => false
                   end, w)
  end.

Definition check_table_exists (table_name : string) : M bool :=
  fun w =>
    if decide (table_name ∈ existing_tables_cache w) then (Ok true, w)
    else
      (exists_ <- has_table table_name ;;
       (if exists_ then cache_add table_name else ret tt) ;;;
       ret exists_) w.

Definition create_indexes (table_name : string) : M unit :=
  try_except
    (emit (CreateIndexes table_name) ;;;
     match index_error env table_name with
     | Some e => raise e
     | None => ret tt
     end)
    (fun e => emit (LogError (IndexesFailed table_name e))).

(** [Table(table_name, ...)] and [metadata.create_all]: the table is
    created empty, with its uniqueness constraint. *)
Definition create_all (table_name : string) : M unit :=
  emit (CreateAll table_name) ;;;
  match create_error env table_name with
  | Some e => raise e
  | None =>
      fun w => (Ok tt, {| tables := <[table_name := []]> (tables w);
                          existing_tables_cache := existing_tables_cache w;
                          trace := trace w |})
  end.

Definition create_table (table_name : string) : M bool :=
  b <- check_table_exists table_name ;;
  if b then ret true
  else
    try_except
      (create_all table_name ;;;
       create_indexes table_name ;;;
       cache_add table_name ;;;
       ret true)
      (fun e => emit (LogError (CreateFailed table_name e)) ;;; ret false).

(** One row under [ON CONFLICT (symbol, date) DO NOTHING]. *)
Definition insert_on_conflict_do_nothing (rows : list Rec.t) (r : Rec.t) : list Rec.t :=
  if existsb (fun r' => Rec.key_eqb (Rec.key r') (Rec.key r)) rows
  then rows
  else rows ++ [r].

(** Executing an INSERT of [rs] into [table_name] in one transaction:
    it fails on a table that does not exist, or when the server refuses
    it, and then changes nothing. *)
Definition execute_insert (table_name : string) (rs : list Rec.t) : M unit :=
  fun w =>
    match tables w !! table_name with
    | None => (Raise (ProgrammingError table_name), w)
    | Some rows =>
        match insert_error env table_name rs with
        | Some e => (Raise e, w)
        | None =>
            (Ok tt, {| tables := <[table_name :=
                                     fold_left insert_on_conflict_do_nothing rs rows]>
                                   (tables w);
                       existing_tables_cache := existing_tables_cache w;
                       trace := trace w |})
        end
    end.

(** The dictionary built from one frame row. *)
Definition record_of (symbol : string) (row : EncodedRow) : Result Rec.t :=
  rbind (Calendar.strptime_d_m_Y (Date (bar row))) (fun d =>
    Ok {| Rec.symbol := symbol;
          Rec.date := d;
          Rec.open := Open (bar row);
          Rec.high := High (bar row);
          Rec.low := Low (bar row);
          Rec.close := Close (bar row);
          Rec.volume := Volume (bar row);
          Rec.prev_close := prev_close (bar row);
          Rec.avg_price := avg_price (bar row);
          Rec.pattern_value := pattern_value row;
          Rec.matched_patterns := Py.str_list (matched_patterns row) |}).

(** [data.iloc[0]]. *)
Definition iloc0 (data : list EncodedRow) : Result EncodedRow :=
  match data with
  | [] => Raise IndexError
  | row :: _ => Ok row
  end.

Definition insert_data (symbol : string) (data : list EncodedRow) : M bool :=
  let table_name := ("stock_" ++ Py.lower symbol)%string in
  create_table table_name ;;;
  try_except
    (row <- lift (iloc0 data) ;;
     insert_data <- lift (record_of symbol row) ;;
     emit (Insert table_name insert_data) ;;;
     execute_insert table_name [insert_data] ;;;
     ret true)
    (fun e => emit (LogError (InsertFailed symbol e)) ;;; ret false).

(** [df[pattern_cols].any(axis=1)] on one row. *)
Definition any_pattern (row : EncodedRow) : bool :=
  existsb (fun it => negb (snd it =? 0)) (flags row).

Definition bulk_insert_common (df : list EncodedRow) : M unit :=
  let table_name := "common_stock_data" in
  create_table table_name ;;;
  let df_patterns := List.filter any_pattern df in
  match df_patterns with
  | [] => ret tt
  | _ =>
      records <- lift (rmapM (fun row => record_of (Symbol (bar row)) row) df_patterns) ;;
      try_except
        (emit (BulkInsert table_name records) ;;;
         execute_insert table_name records ;;;
         emit (LogInfo (BulkInserted (length records) table_name)))
        (fun e => emit (LogError (BulkFailed table_name e)))
  end.

End WithEnv.

End StockDatabaseManager.

(** ** StockDataDownloader *)

Module StockDataDownloader.

Definition is_weekend (date_str : string) : Result bool :=
  rbind (Calendar.strptime_dmY date_str) (fun dt => Ok (5 <=? Calendar.weekday dt)).

Definition url_of (date_str : string) : string :=
  ("https://nsearchives.nseindia.com/products/content/sec_bhavdata_full_"
     ++ date_str ++ ".csv")%string.

(** [df.groupby("Symbol")]: the distinct symbols in increasing order,
    each with its rows in frame order. *)
Fixpoint insert_key (k : string) (l : list string) : list string :=
  match l with
  | [] => [k]
  | k' :: l' =>
      match String.compare k k' with
      | Lt => k :: l
      | Eq => l
      | Gt => k' :: insert_key k l'
      end
  end.

Definition group_keys (df : list EncodedRow) : list string :=
  fold_right insert_key [] (map (fun r => Symbol (bar r)) df).

Definition groupby_Symbol (df : list EncodedRow) : list (string * list EncodedRow) :=
  map (fun k => (k, List.filter (fun r => String.eqb (Symbol (bar r)) k) df))
      (group_keys df).

Section WithEnv.
Variable env : Env.

Definition download_csv (date_str : string) : M (option string) :=
  try_except
    (emit (HttpGet (url_of date_str)) ;;;
     response <- lift (requests_get env (url_of date_str)) ;;
     if status_code response =? 200
     then body <- lift (content response) ;; ret (Some body)
     else ret None)
    (fun _ => ret None).

Definition process_single_date (date_str : string) : M unit :=
  weekend <- lift (is_weekend date_str) ;;
  if weekend then ret tt
  else
    csv_file <- download_csv date_str ;;
    match csv_file with
    | None => ret tt
    | Some csv =>
        try_except
          (df <- lift (read_and_clean env csv) ;;
           df <- lift (CandlePatternRecognizer.apply_and_encode_patterns (talib env) df) ;;
           StockDatabaseManager.bulk_insert_common env df ;;;
           for_each (groupby_Symbol df)
             (fun sg => StockDatabaseManager.insert_data env (fst sg) (snd sg) ;;; ret tt))
          (fun e => emit (LogError (ProcessFailed date_str e)))
    end.

(** The [while current <= end] loop; [None] when [fuel] iterations
    did not reach the end of the range. *)
Fixpoint date_loop (fuel : nat) (end_ current : Calendar.datetime)
  : World -> option (Result unit * World) :=
  fun w =>
    if Calendar.le current end_ then
      match fuel with
      | O => None
      | S fuel' =>
          match (emit (Print current) ;;;
                 process_single_date (Calendar.strftime_dmY current) ;;;
                 lift (Calendar.add_days current 1)) w with
          | (Ok next, w') => date_loop fuel' end_ next w'
          | (Raise e, w') => Some (Raise e, w')
          end
      end
    else Some (Ok tt, w).

Definition process_date_range (fuel : nat) (start_date end_date : string)
  : World -> option (Result unit * World) :=
  fun w =>
    match Calendar.strptime_dmY start_date with
    | Raise e => Some (Raise e, w)
    | Ok start =>
        match Calendar.strptime_dmY end_date with
        | Raise e => Some (Raise e, w)
        | Ok end_ => date_loop fuel end_ start w
        end
    end.

End WithEnv.

End StockDataDownloader.

(** ** PatternEngine (stock_api/pattern_engine.py) *)

Module PatternEngine.

Definition Qgtb (a b : Q) : bool := negb (Qle_bool a b).
Definition Qltb (a b : Q) : bool := negb (Qle_bool b a).

Definition b2z (b : bool) : Z := if b then 1 else 0.

Section Detect.
Variable talib : Talib.

(** The elementwise [&] of an integer array and a boolean array. *)
Definition BullishMarubozu (o h l c : list Q) (i : nat) : Z :=
  Z.land (talib CDLMARUBOZU o h l c i) (b2z (Qgtb (nth i c 0%Q) (nth i o 0%Q))).

Definition BearishMarubozu (o h l c : list Q) (i : nat) : Z :=
  Z.land (talib CDLMARUBOZU o h l c i) (b2z (Qltb (nth i c 0%Q) (nth i o 0%Q))).

Definition patterns : list (Z * (string * (list Q -> list Q -> list Q -> list Q -> nat -> Z))) :=
  [ (1, ("Hammer", talib CDLHAMMER));
    (2, ("Inverted Hammer", talib CDLINVERTEDHAMMER));
    (3, ("Hanging Man", talib CDLHANGINGMAN));
    (4, ("Shooting Star", talib CDLSHOOTINGSTAR));
    (5, ("Doji", talib CDLDOJI));
    (6, ("Bullish Marubozu", BullishMarubozu));
    (7, ("Bearish Marubozu", BearishMarubozu)) ].

End Detect.

End PatternEngine.

(** ** Vocabulary of the statements *)

(** The value of a list of bits, most significant first. *)
Definition bits_step (acc : Z) (b : bool) : Z := 2 * acc + Z.b2z b.
Definition bits_value (bits : list bool) : Z := fold_left bits_step bits 0.

(** The TA-Lib function [f] is non-zero on row [i] of [df]. *)
Definition fired (talib : Talib) (df : list Bar) (f : TalibFn) (i : nat) : bool :=
  negb (talib f (map Open df) (map High df) (map Low df) (map Close df) i =? 0).

(** The catalog with the outcome of each entry on row [i]. *)
Definition catalog_fired (talib : Talib) (df : list Bar) (i : nat) : list (string * bool) :=
  map (fun nf => (fst nf, fired talib df (snd nf) i)) CandlePatternRecognizer.patterns.

(** The encoded row in closed form. *)
Definition encoded_row (talib : Talib) (df : list Bar) (i : nat) (b : Bar) : EncodedRow :=
  {| bar := b;
     flags := map (fun nb => (fst nb, Z.b2z (snd nb))) (catalog_fired talib df i);
     pattern_value := bits_value (map snd (catalog_fired talib df i));
     matched_patterns := map fst (List.filter snd (catalog_fired talib df i)) |}.

(** ** Closed forms of the database operations *)

Definition add_events (w : World) (evs : list Event) : World :=
  {| tables := tables w;
     existing_tables_cache := existing_tables_cache w;
     trace := trace w ++ evs |}.

Definition index_events (env : Env) (t : string) : list Event :=
  CreateIndexes t ::
  match index_error env t with
  | Some e => [LogError (IndexesFailed t e)]
  | None => []
  end.

(** The exception of the existence check of [t] in [w], if it raises:
    a cached name is not checked. *)
Definition check_error (env : Env) (t : string) (w : World) : option Exn :=
  if decide (t ∈ existing_tables_cache w) then None else has_table_error env t.

(** What an operation that starts with [create_table t] does when the
    existence check raises. *)
Definition check_failed {A} (t : string) (e : Exn) (w : World) : Result A * World :=
  (Raise e, add_events w [HasTable t]).

(** An operation that starts with [create_table t]: the outcome [k]
    when the existence check answers, its exception otherwise. *)
Definition guarded {A} (env : Env) (t : string) (w : World) (k : Result A * World)
  : Result A * World :=
  match check_error env t w with
  | Some e => check_failed t e w
  | None => k
  end.

(** [create_table] when the existence check answers. *)
Definition create_table_spec (env : Env) (t : string) (w : World) : bool * World :=
  if decide (t ∈ existing_tables_cache w) then (true, w)
  else
    match tables w !! t with
    | Some _ =>
        (true, {| tables := tables w;
                  existing_tables_cache := {[t]} ∪ existing_tables_cache w;
                  trace := trace w ++ [HasTable t] |})
    | None =>
        match create_error env t with
        | Some e =>
            (false, add_events w [HasTable t; CreateAll t; LogError (CreateFailed t e)])
        | None =>
            (true, {| tables := <[t := []]> (tables w);
                      existing_tables_cache := {[t]} ∪ existing_tables_cache w;
                      trace := trace w ++ HasTable t :: CreateAll t :: index_events env t |})
        end
    end.

Definition stock_table (symbol : string) : string := ("stock_" ++ Py.lower symbol)%string.

Definition insert_data_spec (env : Env) (symbol : string) (data : list EncodedRow) (w : World)
  : bool * World :=
  let t := stock_table symbol in
  let w1 := snd (create_table_spec env t w) in
  match rbind (StockDatabaseManager.iloc0 data) (StockDatabaseManager.record_of symbol) with
  | Raise e => (false, add_events w1 [LogError (InsertFailed symbol e)])
  | Ok r =>
      match tables w1 !! t with
      | None =>
          (false, add_events w1 [Insert t r; LogError (InsertFailed symbol (ProgrammingError t))])
      | Some rows =>
          match insert_error env t [r] with
          | Some e => (false, add_events w1 [Insert t r; LogError (InsertFailed symbol e)])
          | None =>
              (true, {| tables := <[t := StockDatabaseManager.insert_on_conflict_do_nothing rows r]>
                                    (tables w1);
                        existing_tables_cache := existing_tables_cache w1;
                        trace := trace w1 ++ [Insert t r] |})
          end
      end
  end.

Definition common_table : string := "common_stock_data".

Definition bulk_insert_common_spec (env : Env) (df : list EncodedRow) (w : World)
  : Result unit * World :=
  let t := common_table in
  let w1 := snd (create_table_spec env t w) in
  match List.filter StockDatabaseManager.any_pattern df with
  | [] => (Ok tt, w1)
  | df_patterns =>
      match rmapM (fun row => StockDatabaseManager.record_of (Symbol (bar row)) row)
                  df_patterns with
      | Raise e => (Raise e, w1)
      | Ok records =>
          match tables w1 !! t with
          | None =>
              (Ok tt, add_events w1 [BulkInsert t records;
                                     LogError (BulkFailed t (ProgrammingError t))])
          | Some rows =>
              match insert_error env t records with
              | Some e =>
                  (Ok tt, add_events w1 [BulkInsert t records; LogError (BulkFailed t e)])
              | None =>
                  (Ok tt,
                   {| tables := <[t := fold_left StockDatabaseManager.insert_on_conflict_do_nothing
                                                 records rows]> (tables w1);
                      existing_tables_cache := existing_tables_cache w1;
                      trace := trace w1 ++ [BulkInsert t records;
                                            LogInfo (BulkInserted (length records) t)] |})
              end
          end
      end
  end.

(** ** Tables and their uniqueness constraint *)

Definition has_key (rows : list Rec.t) (k : string * Z) : bool :=
  existsb (fun r' => Rec.key_eqb (Rec.key r') k) rows.

(** At most one row per (symbol, date). *)
Definition unique_rows (rows : list Rec.t) : Prop := NoDup (map Rec.key rows).

Definition world_unique (w : World) : Prop :=
  forall t rows, tables w !! t = Some rows -> unique_rows rows.


(** The empty database of a fresh process, and the states the two write
    operations lead to from it. *)
Definition init_world : World :=
  {| tables := ∅; existing_tables_cache := ∅; trace := [] |}.

Inductive reachable (env : Env) : World -> Prop :=
| reach_init : reachable env init_world
| reach_insert_data (w : World) (symbol : string) (data : list EncodedRow) :
    reachable env w ->
    reachable env (snd (StockDatabaseManager.insert_data env symbol data w))
| reach_bulk_insert_common (w : World) (df : list EncodedRow) :
    reachable env w ->
    reachable env (snd (StockDatabaseManager.bulk_insert_common env df w)).

(** ** The statements the code departs from *)

Definition is_write_event (ev : Event) : bool :=
  match ev with
  | Insert _ _ | BulkInsert _ _ => true
  | _ => false
  end.

(** "No INSERT is issued by a call whose [create_table] reported failure." *)
Definition insert_gated_on_create : Prop :=
  forall (env : Env) (symbol : string) (data : list EncodedRow) (w : World) (evs : list Event),
    fst (StockDatabaseManager.create_table env (stock_table symbol) w) = Ok false ->
    trace (snd (StockDatabaseManager.insert_data env symbol data w)) = trace w ++ evs ->
    forallb (fun ev => negb (is_write_event ev)) evs = true.

(** "A batch without matched patterns touches nothing." *)
Definition empty_batch_touches_nothing : Prop :=
  forall (env : Env) (df : list EncodedRow) (w : World),
    Forall (fun row => StockDatabaseManager.any_pattern row = false) df ->
    StockDatabaseManager.bulk_insert_common env df w = (Ok tt, w).

(** ** Re-running a write *)

(** The effect of an INSERT of [rs] on the tables. *)
Definition write_rows (t : string) (rs : list Rec.t) (T : gmap string (list Rec.t))
  : gmap string (list Rec.t) :=
  match T !! t with
  | None => T
  | Some rows =>
      <[t := fold_left StockDatabaseManager.insert_on_conflict_do_nothing rs rows]> T
  end.

(** [create_table t] leaves the tables of [w] alone. *)
Definition settled_table (env : Env) (w : World) (t : string) : Prop :=
  is_Some (tables w !! t) \/ t ∈ existing_tables_cache w \/ is_Some (create_error env t).


Definition raises {A} (m : M A) (w : World) : bool :=
  match fst (m w) with
  | Ok _ => false
  | Raise _ => true
  end.


(** A computation that is [create_table t] followed by an INSERT of
    [rs] into [t], as far as tables and cache go. *)
Definition writes {A} (env : Env) (t : string) (rs : list Rec.t) (m : M A) : Prop :=
  forall w,
    tables (snd (m w)) = write_rows t rs (tables (snd (create_table_spec env t w))) /\
    existing_tables_cache (snd (m w))
    = existing_tables_cache (snd (create_table_spec env t w)).

(** The records of the INSERT the two operations get executed: none
    when the rows do not convert or the server refuses the statement. *)
Definition accepted (env : Env) (t : string) (rs : list Rec.t) : list Rec.t :=
  match insert_error env t rs with
  | Some _ => []
  | None => rs
  end.

Definition insert_data_records (env : Env) (symbol : string) (data : list EncodedRow)
  : list Rec.t :=
  match rbind (StockDatabaseManager.iloc0 data) (StockDatabaseManager.record_of symbol) with
  | Ok r => accepted env (stock_table symbol) [r]
  | Raise _ => []
  end.

Definition bulk_records (env : Env) (df : list EncodedRow) : list Rec.t :=
  match rmapM (fun row => StockDatabaseManager.record_of (Symbol (bar row)) row)
              (List.filter StockDatabaseManager.any_pattern df) with
  | Ok records => accepted env common_table records
  | Raise _ => []
  end.

(** The exception of an INSERT of [rs] into [t] sent in [w], if it
    fails. *)
Definition insert_failure (env : Env) (t : string) (rs : list Rec.t) (w : World)
  : option Exn :=
  match tables w !! t with
  | None => Some (ProgrammingError t)
  | Some _ => insert_error env t rs
  end.

(** The two operations when the existence check answers. *)
Definition insert_data_answered (env : Env) (symbol : string) (data : list EncodedRow)
  : M bool :=
  fun w => (Ok (fst (insert_data_spec env symbol data w)),
            snd (insert_data_spec env symbol data w)).

Definition bulk_insert_common_answered (env : Env) (df : list EncodedRow) : M unit :=
  bulk_insert_common_spec env df.


(** The two writes of one day, as [process_single_date] runs them. *)
Definition persist (env : Env) (df : list EncodedRow) : M unit :=
  StockDatabaseManager.bulk_insert_common env df ;;;
  for_each (StockDataDownloader.groupby_Symbol df)
    (fun sg => StockDatabaseManager.insert_data env (fst sg) (snd sg) ;;; ret tt).

(** ** Closed form of one day *)

(** What [download_csv] returns: the body of a 200 response that
    decodes, nothing otherwise. *)
Definition fetched (env : Env) (date_str : string) : option string :=
  match requests_get env (StockDataDownloader.url_of date_str) with
  | Ok response =>
      if status_code response =? 200
      then match content response with
           | Ok body => Some body
           | Raise _ => None
           end
      else None
  | Raise _ => None
  end.

(** The encoded frame of a downloaded file. *)
Definition day_frame (env : Env) (csv : string) : Result (list EncodedRow) :=
  rbind (read_and_clean env csv)
        (CandlePatternRecognizer.apply_and_encode_patterns (talib env)).

Definition process_single_date_spec (env : Env) (date_str : string) (w : World)
  : Result unit * World :=
  match StockDataDownloader.is_weekend date_str with
  | Raise e => (Raise e, w)
  | Ok true => (Ok tt, w)
  | Ok false =>
      let wa := add_events w [HttpGet (StockDataDownloader.url_of date_str)] in
      match fetched env date_str with
      | None => (Ok tt, wa)
      | Some csv =>
          match day_frame env csv with
          | Raise e => (Ok tt, add_events wa [LogError (ProcessFailed date_str e)])
          | Ok df =>
              match persist env df wa with
              | (Ok _, w') => (Ok tt, w')
              | (Raise e, w') => (Ok tt, add_events w' [LogError (ProcessFailed date_str e)])
              end
          end
      end
  end.

(** ** Checking the calendar over one 400-year cycle *)

(** Day [r] of the first cycle converts to a valid date of the years
    1 to 400 and back. *)
Definition cycle_ok (r : Z) : bool :=
  let '(y, m, d) := Calendar.ord2ymd r in
  (1 <=? y) && (y <=? 400) && (1 <=? m) && (m <=? 12)
  && (1 <=? d) && (d <=? Calendar.days_in_month y m)
  && (Calendar.ymd2ord y m d =? r)
  && implb (r <=? 145731) (y <=? 399).

Definition check_cycle (n : Z) (k : positive) : Z * bool :=
  Pos.iter (fun st => (fst st + 1, snd st && cycle_ok (fst st))) (n, true) k.

(** The first day of the year 1000: from here on years have four digits. *)
Definition ORD_Y1000 : Z := 364878.

(** ** The days of a range *)

(** The world after the loop body for day [n]. *)
Definition day_world (env : Env) (n : Z) (w : World) : World :=
  snd (StockDataDownloader.process_single_date env
         (Calendar.strftime_dmY (Calendar.mkDatetime n))
         (add_events w [Print (Calendar.mkDatetime n)])).

(** The world after [k] consecutive days from day [n]. *)
Fixpoint run_days (env : Env) (k : nat) (n : Z) (w : World) : World :=
  match k with
  | O => w
  | S k' => run_days env k' (n + 1) (day_world env n w)
  end.

(** [w'] has the trace of [w] and possibly more. *)
Definition extends (w w' : World) : Prop := exists evs, trace w' = trace w ++ evs.

(** "A fetch that raises is logged with the date." *)
Definition fetch_failure_logged : Prop :=
  forall (env : Env) (date_str : string) (e : Exn) (w : World),
    StockDataDownloader.is_weekend date_str = Ok false ->
    requests_get env (StockDataDownloader.url_of date_str) = Raise e ->
    exists e', In (LogError (ProcessFailed date_str e'))
                  (trace (snd (StockDataDownloader.process_single_date env date_str w))).

(** ** Re-running in a new process *)

(** The cache names only tables that exist. *)
Definition consistent (w : World) : Prop :=
  forall t, t ∈ existing_tables_cache w -> is_Some (tables w !! t).

(** Two worlds with the same database, whatever their caches and traces. *)
Definition same_db (w w' : World) : Prop :=
  tables w = tables w' /\ consistent w /\ consistent w'.


(** ** Sample inputs *)

Module Samples.

(** A bullish bar (close above open) and a bearish one. *)
Definition abc_bar : Bar :=
  {| Symbol := "ABC"; Date := "01-01-2025";
     Open := 10; High := 12; Low := 9; Close := 11;
     Volume := 1000; prev_close := 10; avg_price := 21 # 2 |}.

Definition xyz_bar : Bar :=
  {| Symbol := "XYZ"; Date := "01-01-2025";
     Open := 51 # 5; High := 12; Low := 8; Close := 10;
     Volume := 500; prev_close := 10; avg_price := 10 |}.

(** Detector tables standing in for TA-Lib: one on which only
    CDLHAMMER answers (100 on every row), one on which only
    CDLSPINNINGTOP answers (-100, a black candle), one silent. *)
Definition talib_hammer : Talib :=
  fun f _ _ _ _ _ => match f with CDLHAMMER => 100 | _ => 0 end.

Definition talib_spinning : Talib :=
  fun f _ _ _ _ _ => match f with CDLSPINNINGTOP => -100 | _ => 0 end.

Definition talib_silent : Talib := fun _ _ _ _ _ _ => 0.

(** Encoded rows: ABC with Hammer matched, ABC and XYZ with nothing
    matched, and a second ABC row for the same day. *)
Definition abc_row : EncodedRow := encoded_row talib_hammer [abc_bar] 0 abc_bar.
Definition abc_plain_row : EncodedRow := encoded_row talib_silent [abc_bar] 0 abc_bar.
Definition xyz_plain_row : EncodedRow := encoded_row talib_silent [xyz_bar] 0 xyz_bar.


(** The record of [abc_row]; 1 January 2025 is day 739252. *)
Definition abc_rec : Rec.t :=
  {| Rec.symbol := "ABC"; Rec.date := Calendar.mkDatetime 739252;
     Rec.open := 10; Rec.high := 12; Rec.low := 9; Rec.close := 11;
     Rec.volume := 1000; Rec.prev_close := 10; Rec.avg_price := 21 # 2;
     Rec.pattern_value := 2048; Rec.matched_patterns := "['Hammer']" |}.

Definition response_ok : Response := {| status_code := 200; content := Ok "csv" |}.

(** A healthy environment; one whose server refuses every CREATE
    TABLE; one without network. *)
Definition env_ok : Env :=
  {| talib := talib_hammer;
     has_table_error := fun _ => None;
     create_error := fun _ => None;
     index_error := fun _ => None;
     insert_error := fun _ _ => None;
     requests_get := fun _ => Ok response_ok;
     read_and_clean := fun _ => Ok [abc_bar] |}.

Definition env_no_ddl : Env :=
  {| talib := talib_hammer;
     has_table_error := fun _ => None;
     create_error := fun t => Some (ProgrammingError t);
     index_error := fun _ => None;
     insert_error := fun _ _ => None;
     requests_get := fun _ => Ok response_ok;
     read_and_clean := fun _ => Ok [abc_bar] |}.

Definition env_offline : Env :=
  {| talib := talib_hammer;
     has_table_error := fun _ => None;
     create_error := fun _ => None;
     index_error := fun _ => None;
     insert_error := fun _ _ => None;
     requests_get := fun url => Raise (ConnectionError url);
     read_and_clean := fun _ => Ok [abc_bar] |}.

(** A server that cannot be reached for the existence check, and one
    that takes the SQL of [insert_data] as PostgreSQL does: the
    unquoted name [stock_m&m] is a syntax error. *)
Definition env_no_check : Env :=
  {| talib := talib_hammer;
     has_table_error := fun t => Some (DBAPIError t);
     create_error := fun _ => None;
     index_error := fun _ => None;
     insert_error := fun _ _ => None;
     requests_get := fun _ => Ok response_ok;
     read_and_clean := fun _ => Ok [abc_bar] |}.

Definition env_raw_sql : Env :=
  {| talib := talib_hammer;
     has_table_error := fun _ => None;
     create_error := fun _ => None;
     index_error := fun _ => None;
     insert_error := fun t _ => if String.eqb t "stock_m&m"
                                then Some (ProgrammingError t) else None;
     requests_get := fun _ => Ok response_ok;
     read_and_clean := fun _ => Ok [abc_bar] |}.

(** The database after ABC's row of 1 January 2025 was stored. *)
Definition world_abc : World :=
  snd (StockDatabaseManager.insert_data env_ok "ABC" [abc_row] init_world).

End Samples.

(** ** Reading a stored pattern_value *)

(** The catalog names whose bit is set in [pv], in catalog order. *)
Definition decode_pattern_value (pv : Z) : list string :=
  map snd (List.filter (fun kn => Z.testbit pv (Z.of_nat (11 - fst kn)))
                       (combine (seq 0 12) CandlePatternRecognizer.pattern_names)).

(** ** Tables that only grow *)

(** Every table of [w] is still there in [w'], its rows in place, with
    possibly more rows after them. *)
Definition grows (w w' : World) : Prop :=
  forall t rows, tables w !! t = Some rows ->
                 exists added, tables w' !! t = Some (rows ++ added).

(** ** Date strings the model reads exactly as Python does

    [strptime] also accepts one-digit and blank-padded days and months,
    and decimal digits outside ASCII, all of which the model of
    [Calendar] rejects.  A string of ASCII characters without a blank
    whose length rules the shorter forms out is read by both alike. *)

Definition no_blank (s : string) : bool :=
  negb (existsb (Ascii.eqb " ") (list_ascii_of_string s)).

(** Every byte is below 128: the text has no character outside ASCII. *)
Definition is_ascii (s : string) : bool :=
  forallb (fun c => Nat.ltb (nat_of_ascii c) 128) (list_ascii_of_string s).

(** For the format [%d%m%Y]: the shorter forms have 6 or 7 characters. *)
Definition dmY_exact (s : string) : bool :=
  is_ascii s && no_blank s
  && negb (Nat.leb 6 (String.length s) && Nat.leb (String.length s) 7).

(** For the format [%d-%m-%Y]: the shorter forms have 8 or 9 characters. *)
Definition d_m_Y_exact (s : string) : bool :=
  is_ascii s && no_blank s
  && negb (Nat.leb 8 (String.length s) && Nat.leb (String.length s) 9).

(** More sample inputs. *)
Module MoreSamples.

(** A server that creates tables but refuses every CREATE INDEX. *)
Definition env_no_index : Env :=
  {| talib := Samples.talib_hammer;
     has_table_error := fun _ => None;
     create_error := fun _ => None;
     index_error := fun t => Some (ProgrammingError t);
     insert_error := fun _ _ => None;
     requests_get := fun _ => Ok Samples.response_ok;
     read_and_clean := fun _ => Ok [Samples.abc_bar] |}.

(** A server that answers 404. *)
Definition env_not_found : Env :=
  {| talib := Samples.talib_hammer;
     has_table_error := fun _ => None;
     create_error := fun _ => None;
     index_error := fun _ => None;
     insert_error := fun _ _ => None;
     requests_get := fun _ => Ok {| status_code := 404; content := Ok EmptyString |};
     read_and_clean := fun _ => Ok [Samples.abc_bar] |}.

(** ABC's bar with a date that is not DD-MM-YYYY. *)
Definition abc_bad_date_bar : Bar :=
  {| Symbol := "ABC"; Date := "2025-01-01";
     Open := 10; High := 12; Low := 9; Close := 11;
     Volume := 1000; prev_close := 10; avg_price := 21 # 2 |}.
Definition abc_bad_date_row : EncodedRow :=
  encoded_row Samples.talib_hammer [abc_bad_date_bar] 0 abc_bad_date_bar.

(** The database after a day on which only ABC's Hammer row reached
    the common table. *)
Definition world_common : World :=
  snd (StockDatabaseManager.bulk_insert_common Samples.env_ok [Samples.abc_row] init_world).

End MoreSamples.

(** ** What the driver does, day by day *)



(** The requests and prints, as opposed to database and log events. *)
Definition is_driver_event (ev : Event) : bool :=
  match ev with
  | HttpGet _ | Print _ => true
  | _ => false
  end.

(** One day of the loop: its print, and its request unless a weekend. *)
Definition day_driver_events (n : Z) : list Event :=
  Print (Calendar.mkDatetime n) ::
  if 5 <=? Calendar.weekday (Calendar.mkDatetime n) then []
  else [HttpGet (StockDataDownloader.url_of
                   (Calendar.strftime_dmY (Calendar.mkDatetime n)))].

Fixpoint days_from (k : nat) (n : Z) : list Z :=
  match k with
  | O => []
  | S k' => n :: days_from k' (n + 1)
  end.

(** A computation that adds neither a request nor a print. *)
Definition quiet {A} (m : M A) : Prop :=
  forall w, exists evs,
    trace (snd (m w)) = trace w ++ evs /\ List.filter is_driver_event evs = [].

(** ** get_engine (Backup/temp.py) *)

(** Exceptions of the parts below, which the database manager never
    meets. *)
Inductive PyError : Type :=
| AttributeError (type_name attr : string)
| PoolError (what : string)
| OperationalError (what : string).

Inductive Outcome (A : Type) : Type :=
| Returned (a : A)
| Raised (e : PyError).
Arguments Returned {A} a.
Arguments Raised {A} e.

Module GetEngine.

(** [s.replace(old, new, 1)]: the leftmost occurrence only. *)
Fixpoint replace_first (old new s : string) : string :=
  if String.prefix old s
  then (new ++ substring (String.length old) (String.length s - String.length old) s)%string
  else match s with
       | EmptyString => EmptyString
       | String c s' => String c (replace_first old new s')
       end.

(** The URL [get_engine] passes to [create_engine], given what
    [os.getenv('DATABASE_URL')] returned ([None] when the variable is
    not set). *)
Definition engine_url (db_url : option string) : Outcome string :=
  match db_url with
  | None => Raised (AttributeError "NoneType" "startswith")
  | Some u =>
      if String.prefix "postgres://" u
      then Returned (replace_first "postgres://" "postgresql://" u)
      else Returned u
  end.

End GetEngine.

(** ** PatternEngine.detect_patterns *)

Module PatternEngineDetect.

(** [ohlc_data] is a dictionary of columns; the result maps each
    pattern id to the output array of its function. *)
Definition detect_patterns (talib : Talib) (ohlc_data : list (string * list Q))
  : Result (list (Z * (nat -> Z))) :=
  rmapM (fun entry =>
           rbind (CandlePatternRecognizer.dict_get ohlc_data "open") (fun o =>
           rbind (CandlePatternRecognizer.dict_get ohlc_data "high") (fun h =>
           rbind (CandlePatternRecognizer.dict_get ohlc_data "low") (fun l =>
           rbind (CandlePatternRecognizer.dict_get ohlc_data "close") (fun c =>
             Ok (fst entry, snd (snd entry) o h l c))))))
        (PatternEngine.patterns talib).

End PatternEngineDetect.

(** ** database.py and its callers *)

Module Database.

(** A [ThreadedConnectionPool], known by the sizes it was built with. *)
Record Pool : Type := mkPool { minconn : Z; maxconn : Z }.

Definition Conn : Type := nat.

Inductive PoolEvent : Type :=
| PoolCreated (min_conn max_conn : Z)
| GetConn (c : Conn)
| PutConn (c : Conn).

(** [DBPool._instance] and what has happened to the pool. *)
Record DbWorld : Type := mkDbWorld {
  instance : option Pool;
  pool_trace : list PoolEvent
}.

Definition D (A : Type) : Type := DbWorld -> Outcome A * DbWorld.

Definition dret {A} (a : A) : D A := fun w => (Returned a, w).

Definition dbind {A B} (m : D A) (k : A -> D B) : D B :=
  fun w => match m w with
           | (Returned a, w') => k a w'
           | (Raised e, w') => (Raised e, w')
           end.

Definition draise {A} (e : PyError) : D A := fun w => (Raised e, w).

(** [try: body finally: final]: [final] always runs; if it raises, its
    exception is the one that leaves. *)
Definition try_finally {A} (body : D A) (final : D unit) : D A :=
  fun w => match body w with
           | (r, w') =>
               match final w' with
               | (Returned _, w'') => (r, w'')
               | (Raised e, w'') => (Raised e, w'')
               end
           end.

Definition pool_emit (ev : PoolEvent) : D unit :=
  fun w => (Returned tt, {| instance := instance w; pool_trace := pool_trace w ++ [ev] |}).

Section WithPool.
(** psycopg2: whether building a pool with these sizes fails, and what
    [getconn] and [putconn] answer after a given history. *)
Variable connect_error : Z -> Z -> option PyError.
Variable getconn : list PoolEvent -> Outcome Conn.
Variable putconn_error : list PoolEvent -> Conn -> option PyError.


(** [DBPool(min_conn, max_conn)]. *)
Definition DBPool_init (min_conn max_conn : Z) : D unit :=
  fun w =>
    match instance w with
    | Some _ => (Returned tt, w)
    | None =>
        match connect_error min_conn max_conn with
        | Some e => (Raised e, w)
        | None =>
            (Returned tt,
             {| instance := Some (mkPool min_conn max_conn);
                pool_trace := pool_trace w ++ [PoolCreated min_conn max_conn] |})
        end
    end.

(** [DBPool.get_connection()]. *)
Definition get_connection : D Conn :=
  dbind (fun w => match instance w with
                  | Some _ => (Returned tt, w)
                  | None => DBPool_init 2 10 w
                  end)
        (fun _ w =>
           match instance w with
           | None => (Raised (AttributeError "NoneType" "getconn"), w)
           | Some _ =>
               match getconn (pool_trace w) with
               | Returned c =>
                   (Returned c,
                    {| instance := instance w; pool_trace := pool_trace w ++ [GetConn c] |})
               | Raised e => (Raised e, w)
               end
           end).

(** [DBPool.return_connection(conn)]. *)
Definition return_connection (conn : Conn) : D unit :=
  fun w =>
    match instance w with
    | None => (Raised (AttributeError "NoneType" "putconn"), w)
    | Some _ =>
        match putconn_error (pool_trace w) conn with
        | Some e => (Raised e, w)
        | None => pool_emit (PutConn conn) w
        end
    end.

(** [with get_db_connection() as conn: body(conn)]: the generator runs
    to its [yield] on entry and through its [finally] on exit. *)
Definition with_db_connection {A} (body : Conn -> D A) : D A :=
  dbind get_connection (fun conn =>
    try_finally (body conn) (return_connection conn)).

(** What a name can be bound to in the loaders. *)
Inductive PyValue : Type :=
| GeneratorContextManager
| Connection (c : Conn).

(** [get_db_connection()], a call of the function decorated with
    [@contextmanager]: it builds the manager; the generator has not
    started, so the pool is not asked for anything. *)
Definition get_db_connection : D PyValue := dret GeneratorContextManager.

(** [conn.<attr>]: a connection has the method; the manager object has
    [__enter__] and [__exit__] only. *)
Definition getattr (conn : PyValue) (attr : string) : D Conn :=
  match conn with
  | Connection c => dret c
  | GeneratorContextManager => draise (AttributeError "_GeneratorContextManager" attr)
  end.

(** The shape [load_companies], [load_prices] and
    [save_patterns_to_db] share:
    [conn = get_db_connection(); try: with conn.cursor() as cur: ...;
    conn.commit() finally: conn.close()].  What happens on a cursor, and
    what commit and close do to a connection, are parameters. *)
Definition use_connection (cursor_block commit close : Conn -> D unit) : D unit :=
  dbind get_db_connection (fun conn =>
    try_finally
      (dbind (getattr conn "cursor") (fun c =>
       dbind (cursor_block c) (fun _ =>
       dbind (getattr conn "commit") commit)))
      (dbind (getattr conn "close") close)).

End WithPool.

End Database.

(** ** Vocabulary for the API package *)

(** The first of the four columns [detect_patterns] reads that
    [ohlc_data] does not have. *)
Definition first_missing {V} (ohlc_data : list (string * V)) : option string :=
  List.find (fun k => match CandlePatternRecognizer.dict_get ohlc_data k with
                      | Ok _ => false
                      | Raise _ => true
                      end)
            ["open"; "high"; "low"; "close"].

(** The calls a client can make on [DBPool], and a run of them in which
    every exception is caught by the caller. *)
Inductive PoolCall : Type :=
| CallDBPool (min_conn max_conn : Z)
| CallGetConnection
| CallReturnConnection (c : Database.Conn).

Definition is_PoolCreated (ev : Database.PoolEvent) : bool :=
  match ev with
  | Database.PoolCreated _ _ => true
  | _ => false
  end.

(** The pools built in a history. *)
Definition pools_built (tr : list Database.PoolEvent) : list Database.PoolEvent :=
  List.filter is_PoolCreated tr.

(** The interpreter before [DBPool] is first used. *)
Definition fresh_pool : Database.DbWorld :=
  {| Database.instance := None; Database.pool_trace := [] |}.

Section PoolCalls.
Variable connect_error : Z -> Z -> option PyError.
Variable getconn : list Database.PoolEvent -> Outcome Database.Conn.
Variable putconn_error : list Database.PoolEvent -> Database.Conn -> option PyError.

Definition pool_call (op : PoolCall) (w : Database.DbWorld) : Database.DbWorld :=
  match op with
  | CallDBPool min_conn max_conn => snd (Database.DBPool_init connect_error min_conn max_conn w)
  | CallGetConnection => snd (Database.get_connection connect_error getconn w)
  | CallReturnConnection c => snd (Database.return_connection putconn_error c w)
  end.

Definition pool_calls (ops : list PoolCall) (w : Database.DbWorld) : Database.DbWorld :=
  fold_left (fun w op => pool_call op w) ops w.

End PoolCalls.

Module ApiSamples.

(** A server that accepts every connection; connections are numbered by
    the length of the history. *)
Definition connect_ok : Z -> Z -> option PyError := fun _ _ => None.
Definition getconn_ok : list Database.PoolEvent -> Outcome Database.Conn :=
  fun tr => Returned (length tr).
Definition putconn_ok : list Database.PoolEvent -> Database.Conn -> option PyError :=
  fun _ _ => None.

(** A body of a [with] block that fails. *)
Definition body_fails : Database.Conn -> Database.D unit :=
  fun _ => Database.draise (OperationalError "server closed the connection").

(** TA-Lib finding a Marubozu on every row, and one rising candle. *)
Definition talib_marubozu : Talib :=
  fun f _ _ _ _ _ => match f with CDLMARUBOZU => 100 | _ => 0 end.
Definition ohlc_rising : list (string * list Q) :=
  [ ("open", [10%Q]); ("high", [12%Q]); ("low", [10%Q]); ("close", [12%Q]) ].

End ApiSamples.

(** * Properties *)

(** ** Results and lists *)

Lemma rmapM_ok {A B} (f : A -> Result B) (g : A -> B) (l : list A) :
  (forall x, In x l -> f x = Ok (g x)) -> rmapM f l = Ok (map g l).
Proof.
  induction l as [|x l IH]; intros H; simpl; [reflexivity|].
  rewrite (H x (or_introl eq_refl)). simpl.
  rewrite IH by (intros y Hy; apply H; right; exact Hy).
  reflexivity.
Qed.

Lemma nth_map_seq {B} (g : nat -> B) (n i : nat) (d : B) :
  (i < n)%nat -> nth i (map g (seq 0 n)) d = g i.
Proof.
  intros Hi.
  rewrite (nth_indep _ d (g 0%nat)) by (rewrite length_map, length_seq; exact Hi).
  rewrite (map_nth g (seq 0 n) 0%nat i), seq_nth by exact Hi.
  reflexivity.
Qed.

Lemma In_combine_seq {A} (l : list A) (i : nat) (x : A) :
  In (i, x) (combine (seq 0 (length l)) l) -> (i < length l)%nat /\ l !! i = Some x.
Proof.
  assert (G : forall (l : list A) s, In (i, x) (combine (seq s (length l)) l) ->
              (s <= i < s + length l)%nat /\ l !! (i - s)%nat = Some x).
  { clear l. induction l as [|a l IH]; intros s H; simpl in H; [contradiction|].
    destruct H as [H|H].
    - inversion H; subst. split; [simpl; lia|]. replace (i - i)%nat with 0%nat by lia.
      reflexivity.
    - apply IH in H. destruct H as [Hr Hl]. split; [simpl; lia|].
      replace (i - s)%nat with (S (i - S s)) by lia. exact Hl. }
  intros H. apply G in H. destruct H as [Hr Hl].
  replace (i - 0)%nat with i in Hl by lia. split; [lia | exact Hl].
Qed.

Lemma lookup_map_combine_seq {A B} (g : nat -> A -> B) (l : list A) (i : nat) :
  map (fun ib => g (fst ib) (snd ib)) (combine (seq 0 (length l)) l) !! i
  = option_map (g i) (l !! i).
Proof.
  assert (G : forall (l : list A) s i,
              map (fun ib => g (fst ib) (snd ib)) (combine (seq s (length l)) l) !! i
              = option_map (g (s + i)%nat) (l !! i)).
  { clear l i. induction l as [|a l IH]; intros s i.
    - destruct i; reflexivity.
    - destruct i as [|i]; simpl.
      + do 2 f_equal. lia.
      + rewrite IH. replace (S s + i)%nat with (s + S i)%nat by lia. reflexivity. }
  apply G.
Qed.

(** ** The encoder *)

Module EncoderFacts.
Import CandlePatternRecognizer.

Lemma int2_digits_bits (bits : list bool) (acc : Z) :
  Py.int2_digits (Py.join (map (fun b => Py.str_int (Z.b2z b)) bits)) acc
  = Ok (fold_left bits_step bits acc).
Proof.
  revert acc. induction bits as [|b bits IH]; intros acc; [reflexivity|].
  destruct b; simpl; rewrite IH; unfold bits_step; simpl Z.b2z; f_equal; f_equal; lia.
Qed.

Lemma int2_bits (bits : list bool) :
  bits <> [] ->
  Py.int2 (Py.join (map (fun b => Py.str_int (Z.b2z b)) bits)) = Ok (bits_value bits).
Proof.
  intros Hne. unfold Py.int2, bits_value.
  rewrite <- (int2_digits_bits bits 0).
  destruct bits as [|b bits]; [congruence|]. destruct b; reflexivity.
Qed.

Lemma fold_bits_high (bits : list bool) (acc j : Z) :
  0 <= j ->
  Z.testbit (fold_left bits_step bits acc) (Z.of_nat (length bits) + j) = Z.testbit acc j.
Proof.
  revert acc j. induction bits as [|b bits IH]; intros acc j Hj.
  - simpl. reflexivity.
  - cbn [fold_left length].
    replace (Z.of_nat (S (length bits)) + j) with (Z.of_nat (length bits) + Z.succ j) by lia.
    rewrite IH by lia. unfold bits_step. apply Z.testbit_succ_r. exact Hj.
Qed.

Lemma fold_bits_low (bits : list bool) (acc : Z) (k : nat) (b : bool) :
  bits !! k = Some b ->
  Z.testbit (fold_left bits_step bits acc) (Z.of_nat (length bits - 1 - k)) = b.
Proof.
  revert acc k. induction bits as [|b0 bits IH]; intros acc k Hk.
  - destruct k; discriminate.
  - cbn [fold_left length]. destruct k as [|k]; simpl in Hk.
    + inversion Hk; subst.
      replace (Z.of_nat (S (length bits) - 1 - 0)) with (Z.of_nat (length bits) + 0) by lia.
      rewrite fold_bits_high by lia. unfold bits_step. apply Z.testbit_0_r.
    + replace (S (length bits) - 1 - S k)%nat with (length bits - 1 - k)%nat by lia.
      apply IH. exact Hk.
Qed.

Lemma fold_bits_bound (bits : list bool) (acc : Z) :
  0 <= acc ->
  0 <= fold_left bits_step bits acc < (acc + 1) * 2 ^ Z.of_nat (length bits).
Proof.
  revert acc. induction bits as [|b bits IH]; intros acc Hacc.
  - simpl. lia.
  - cbn [fold_left length].
    assert (Hb : 0 <= Z.b2z b <= 1) by (destruct b; simpl; lia).
    specialize (IH (bits_step acc b)). unfold bits_step in *.
    rewrite Nat2Z.inj_succ, Z.pow_succ_r by lia.
    assert (0 < 2 ^ Z.of_nat (length bits)) by (apply Z.pow_pos_nonneg; lia).
    split; [apply IH; lia|].
    eapply Z.lt_le_trans; [apply IH; lia|]. nia.
Qed.

End EncoderFacts.

Module EncoderProps.
Import CandlePatternRecognizer EncoderFacts.

Lemma flag_b2z (x : Z) : (if x =? 0 then 0 else 1) = Z.b2z (negb (x =? 0)).
Proof. destruct (x =? 0); reflexivity. Qed.

Lemma b2z_eqb_1 (b : bool) : (Z.b2z b =? 1) = b.
Proof. destruct b; reflexivity. Qed.

Lemma filter_flags (l : list (string * bool)) :
  map fst (List.filter (fun it => snd it =? 1) (map (fun nb => (fst nb, Z.b2z (snd nb))) l))
  = map fst (List.filter snd l).
Proof.
  induction l as [|[n b] l IH]; [reflexivity|].
  cbn [map List.filter fst snd]. rewrite b2z_eqb_1. destruct b; cbn [map fst]; rewrite IH; reflexivity.
Qed.

Lemma flag_columns (talib : Talib) (df : list Bar) :
  rmapM (fun name => rbind (flag_column talib df name) (fun col => Ok (name, col)))
        pattern_names
  = Ok (map (fun nf => (fst nf,
                        map (fun i => if talib (snd nf) (map Open df) (map High df)
                                                (map Low df) (map Close df) i =? 0
                                      then 0 else 1)
                            (seq 0 (length df))))
            patterns).
Proof. reflexivity. Qed.

Lemma encode_row_closed (talib : Talib) (df : list Bar) (i : nat) (b : Bar) :
  (i < length df)%nat ->
  encode_row
    (map (fun nf => (fst nf,
                     map (fun i => if talib (snd nf) (map Open df) (map High df)
                                             (map Low df) (map Close df) i =? 0
                                   then 0 else 1)
                         (seq 0 (length df))))
         patterns) i b
  = Ok (encoded_row talib df i b).
Proof.
  intros Hi. unfold encode_row, row_items, encoded_row.
  assert (Hitems :
    map (fun nc : string * list Z => (fst nc, nth i (snd nc) 0))
        (map (fun nf => (fst nf,
                     map (fun i => if talib (snd nf) (map Open df) (map High df)
                                             (map Low df) (map Close df) i =? 0
                                   then 0 else 1)
                         (seq 0 (length df))))
         patterns)
    = map (fun nb => (fst nb, Z.b2z (snd nb))) (catalog_fired talib df i)).
  { unfold catalog_fired. rewrite !map_map. apply map_ext. intros [n f].
    cbn [fst snd]. rewrite nth_map_seq by exact Hi. rewrite flag_b2z. reflexivity. }
  rewrite Hitems. rewrite map_map. cbn [snd].
  rewrite <- (map_map snd (fun b => Py.str_int (Z.b2z b))).
  rewrite int2_bits by (unfold catalog_fired, patterns; discriminate).
  cbn [rbind]. rewrite filter_flags. reflexivity.
Qed.

Lemma apply_and_encode_closed (talib : Talib) (df : list Bar) :
  apply_and_encode_patterns talib df
  = Ok (map (fun ib => encoded_row talib df (fst ib) (snd ib))
            (combine (seq 0 (length df)) df)).
Proof.
  unfold apply_and_encode_patterns. rewrite flag_columns. cbn [rbind].
  apply rmapM_ok. intros [i b] Hin. apply In_combine_seq in Hin.
  apply encode_row_closed. apply Hin.
Qed.

End EncoderProps.

Module EncoderClaims.
Import CandlePatternRecognizer EncoderFacts EncoderProps.

Lemma detector_patterns (talib : Talib) (df : list Bar) (i : nat) (name : string) (f : TalibFn) :
  In (name, f) patterns ->
  detector talib df name i
  = Ok (talib f (map Open df) (map High df) (map Low df) (map Close df) i).
Proof.
  intros H. unfold patterns in H. cbn [In] in H.
  repeat (destruct H as [H|H]; [inversion H; subst; reflexivity|]).
  contradiction.
Qed.

Lemma encoded_lookup (talib : Talib) (df : list Bar) (i : nat) (b : Bar) :
  df !! i = Some b ->
  map (fun ib => encoded_row talib df (fst ib) (snd ib)) (combine (seq 0 (length df)) df) !! i
  = Some (encoded_row talib df i b).
Proof. intros H. rewrite lookup_map_combine_seq, H. reflexivity. Qed.

Lemma catalog_bit (talib : Talib) (df : list Bar) (i k : nat) (b : bool) :
  map snd (catalog_fired talib df i) !! k = Some b ->
  Z.testbit (fold_left bits_step (map snd (catalog_fired talib df i)) 0)
            (Z.of_nat (11 - k)) = b.
Proof. intros H. exact (fold_bits_low _ 0 k b H). Qed.

(** C1. For every row of the input frame, [apply_and_encode_patterns]
    returns, and the row's [pattern_value] is the twelve-bit integer
    whose bit for catalog entry [k] (bit [11 - k]: the first entry is
    the most significant) is 1 exactly when that entry's detector is
    non-zero on the row.  When only Hammer fires, [pattern_value] is
    [2^11] and [matched_patterns] is [["Hammer"]]. *)
Theorem pattern_value_bitmask (talib : Talib) (df : list Bar) (i : nat) (b : Bar)
  (Hi : df !! i = Some b) :
  exists rows row,
    apply_and_encode_patterns talib df = Ok rows /\
    rows !! i = Some row /\
    bar row = b /\
    0 <= pattern_value row < 2 ^ 12 /\
    (forall (k : nat) (name : string),
        pattern_names !! k = Some name ->
        exists v, detector talib df name i = Ok v /\
                  Z.testbit (pattern_value row) (Z.of_nat (11 - k)) = negb (v =? 0)) /\
    ((forall name, In name pattern_names ->
         exists v, detector talib df name i = Ok v /\ (v <> 0 <-> name = "Hammer")) ->
     pattern_value row = 2 ^ 11 /\ matched_patterns row = ["Hammer"]).
Proof.
  exists (map (fun ib => encoded_row talib df (fst ib) (snd ib))
              (combine (seq 0 (length df)) df)), (encoded_row talib df i b).
  split; [apply apply_and_encode_closed|].
  split; [apply encoded_lookup; exact Hi|].
  split; [reflexivity|].
  split.
  { cbn [pattern_value encoded_row]. unfold bits_value.
    pose proof (fold_bits_bound (map snd (catalog_fired talib df i)) 0 ltac:(lia)) as Hb.
    exact Hb. }
  split.
  { intros k name Hk. cbn [pattern_value encoded_row]. unfold bits_value.
    do 12 (destruct k as [|k];
           [ inversion Hk; subst; eexists; split; [reflexivity|];
             apply (catalog_bit talib df i); reflexivity |]).
    discriminate. }
  intros Honly.
  assert (Hf : catalog_fired talib df i
               = map (fun nf => (fst nf, String.eqb (fst nf) "Hammer")) patterns).
  { unfold catalog_fired. apply map_ext_in. intros [name f] Hin. cbn [fst snd]. f_equal.
    destruct (Honly name) as (v & Hv & Hiff).
    { apply (in_map fst) in Hin. exact Hin. }
    rewrite (detector_patterns talib df i name f Hin) in Hv. injection Hv as Hv.
    unfold fired. rewrite Hv.
    destruct (String.eqb_spec name "Hammer") as [He|He].
    - destruct (Z.eqb_spec v 0) as [H0|H0]; [|reflexivity].
      exfalso. apply (proj2 Hiff He H0).
    - destruct (Z.eqb_spec v 0) as [H0|H0]; [reflexivity|].
      exfalso. apply He, Hiff, H0. }
  cbn [pattern_value matched_patterns encoded_row]. rewrite Hf. split; reflexivity.
Qed.

Lemma pattern_value_bitmask_witness :
  [Samples.abc_bar] !! 0%nat = Some Samples.abc_bar /\
  exists rows row,
    apply_and_encode_patterns Samples.talib_hammer [Samples.abc_bar] = Ok rows /\
    rows !! 0%nat = Some row /\
    bar row = Samples.abc_bar /\
    0 <= pattern_value row < 2 ^ 12 /\
    (forall (k : nat) (name : string),
        pattern_names !! k = Some name ->
        exists v, detector Samples.talib_hammer [Samples.abc_bar] name 0 = Ok v /\
                  Z.testbit (pattern_value row) (Z.of_nat (11 - k)) = negb (v =? 0)) /\
    ((forall name, In name pattern_names ->
         exists v, detector Samples.talib_hammer [Samples.abc_bar] name 0 = Ok v
                   /\ (v <> 0 <-> name = "Hammer")) ->
     pattern_value row = 2 ^ 11 /\ matched_patterns row = ["Hammer"]).
Proof.
  split; [reflexivity|].
  apply (pattern_value_bitmask Samples.talib_hammer [Samples.abc_bar] 0 Samples.abc_bar).
  reflexivity.
Defined.

Lemma In_matched (name : string) (l : list (string * bool)) :
  In name (map fst (List.filter snd l)) <-> In (name, true) l.
Proof.
  induction l as [|[n b] l IH]; [reflexivity|].
  cbn [List.filter snd]. destruct b; cbn [map In fst]; rewrite IH; split.
  - intros [->|H]; [left; reflexivity | right; exact H].
  - intros [H|H]; [left; congruence | right; exact H].
  - intros H; right; exact H.
  - intros [H|H]; [discriminate | exact H].
Qed.

Lemma bullish_spinning_matched (talib : Talib) (df : list Bar) (i : nat) :
  In ("BullishSpinningTop", true) (catalog_fired talib df i)
  <-> fired talib df CDLSPINNINGTOP i = true.
Proof.
  unfold catalog_fired, patterns. cbn [map In fst snd]. split.
  - intros H. repeat (destruct H as [H|H]; [inversion H; subst; auto|]). contradiction.
  - intros H. rewrite H. do 5 right. left. reflexivity.
Qed.

Lemma bearish_spinning_matched (talib : Talib) (df : list Bar) (i : nat) :
  In ("BearishSpinningTop", true) (catalog_fired talib df i)
  <-> fired talib df CDLSPINNINGTOP i = true.
Proof.
  unfold catalog_fired, patterns. cbn [map In fst snd]. split.
  - intros H. repeat (destruct H as [H|H]; [inversion H; subst; auto|]). contradiction.
  - intros H. rewrite H. do 9 right. left. reflexivity.
Qed.

(** The row of the specification's example, Hammer alone answering. *)
Example hammer_only_abc :
  apply_and_encode_patterns Samples.talib_hammer [Samples.abc_bar]
  = Ok [ {| bar := Samples.abc_bar;
            flags := [("Hammer", 1); ("InvertedHammer", 0); ("DragonflyDoji", 0);
                      ("PiercingLine", 0); ("BullishMarubozu", 0);
                      ("BullishSpinningTop", 0); ("HangingMan", 0); ("ShootingStar", 0);
                      ("GravestoneDoji", 0); ("BearishSpinningTop", 0); ("Doji", 0);
                      ("LongLeggedDoji", 0)];
            pattern_value := 2048;
            matched_patterns := ["Hammer"] |} ].
Proof. reflexivity. Qed.

(** C10. BullishSpinningTop and BearishSpinningTop are the same
    detector, [talib.CDLSPINNINGTOP]: on every row their outputs are
    equal, their two bits of [pattern_value] (bits 6 and 2) are equal,
    and [matched_patterns] holds both names or neither. *)
Theorem spinning_top_pair_identical (talib : Talib) (df : list Bar) (i : nat) (b : Bar)
  (Hi : df !! i = Some b) :
  dict_get patterns "BullishSpinningTop" = Ok CDLSPINNINGTOP /\
  dict_get patterns "BearishSpinningTop" = Ok CDLSPINNINGTOP /\
  detector talib df "BullishSpinningTop" i = detector talib df "BearishSpinningTop" i /\
  exists rows row,
    apply_and_encode_patterns talib df = Ok rows /\
    rows !! i = Some row /\
    Z.testbit (pattern_value row) 6 = Z.testbit (pattern_value row) 2 /\
    (In "BullishSpinningTop" (matched_patterns row)
     <-> In "BearishSpinningTop" (matched_patterns row)).
Proof.
  do 3 (split; [reflexivity|]).
  exists (map (fun ib => encoded_row talib df (fst ib) (snd ib))
              (combine (seq 0 (length df)) df)), (encoded_row talib df i b).
  split; [apply apply_and_encode_closed|].
  split; [apply encoded_lookup; exact Hi|].
  split.
  - cbn [pattern_value encoded_row]. unfold bits_value.
    pose proof (catalog_bit talib df i 5 (fired talib df CDLSPINNINGTOP i) eq_refl) as H5.
    pose proof (catalog_bit talib df i 9 (fired talib df CDLSPINNINGTOP i) eq_refl) as H9.
    change (Z.of_nat (11 - 5)) with 6 in H5. change (Z.of_nat (11 - 9)) with 2 in H9.
    rewrite H5, H9. reflexivity.
  - cbn [matched_patterns encoded_row]. rewrite !In_matched.
    rewrite bullish_spinning_matched, bearish_spinning_matched. reflexivity.
Qed.

Lemma spinning_top_pair_identical_witness :
  [Samples.xyz_bar] !! 0%nat = Some Samples.xyz_bar /\
  detector Samples.talib_spinning [Samples.xyz_bar] "BullishSpinningTop" 0
  = detector Samples.talib_spinning [Samples.xyz_bar] "BearishSpinningTop" 0.
Proof.
  split; [reflexivity|].
  apply (spinning_top_pair_identical Samples.talib_spinning [Samples.xyz_bar] 0
           Samples.xyz_bar).
  reflexivity.
Defined.

(** Whenever CDLSPINNINGTOP is non-zero on a row, both names are
    matched, whatever the order of close and open. *)
Lemma spinning_top_both_matched (talib : Talib) (df : list Bar) (i : nat) (b : Bar) :
  df !! i = Some b ->
  fired talib df CDLSPINNINGTOP i = true ->
  exists rows row,
    apply_and_encode_patterns talib df = Ok rows /\
    rows !! i = Some row /\
    In "BullishSpinningTop" (matched_patterns row) /\
    In "BearishSpinningTop" (matched_patterns row).
Proof.
  intros Hi Hf.
  exists (map (fun ib => encoded_row talib df (fst ib) (snd ib))
              (combine (seq 0 (length df)) df)), (encoded_row talib df i b).
  split; [apply apply_and_encode_closed|].
  split; [apply encoded_lookup; exact Hi|].
  cbn [matched_patterns encoded_row]. rewrite !In_matched.
  rewrite bullish_spinning_matched, bearish_spinning_matched. split; exact Hf.
Qed.

(** C4 (the code departs from it). On a black candle (close below
    open) on which CDLSPINNINGTOP answers, the catalog of
    [CandlePatternRecognizer] reports BullishSpinningTop, and reports
    it together with BearishSpinningTop. *)
Theorem bullish_spinning_top_on_black_candle :
  (Close Samples.xyz_bar < Open Samples.xyz_bar)%Q /\
  exists row,
    apply_and_encode_patterns Samples.talib_spinning [Samples.xyz_bar] = Ok [row] /\
    bar row = Samples.xyz_bar /\
    pattern_value row = 68 /\
    matched_patterns row = ["BullishSpinningTop"; "BearishSpinningTop"].
Proof.
  split; [reflexivity|].
  eexists. split; [reflexivity|]. repeat split.
Qed.

(** The sibling catalog of [PatternEngine] does discriminate: its
    bullish variant is non-zero only when close is above open, its
    bearish variant only when close is below open. *)
Lemma land_b2z_nonzero (x : Z) (c : bool) :
  Z.land x (PatternEngine.b2z c) <> 0 -> c = true.
Proof.
  destruct c; [reflexivity|]. simpl. rewrite Z.land_0_r. congruence.
Qed.

Lemma pattern_engine_marubozu_split (talib : Talib) (o h l c : list Q) (i : nat) :
  (PatternEngine.BullishMarubozu talib o h l c i <> 0 -> (nth i o 0 < nth i c 0)%Q) /\
  (PatternEngine.BearishMarubozu talib o h l c i <> 0 -> (nth i c 0 < nth i o 0)%Q).
Proof.
  unfold PatternEngine.BullishMarubozu, PatternEngine.BearishMarubozu,
    PatternEngine.Qgtb, PatternEngine.Qltb.
  split; intros H; apply land_b2z_nonzero in H; apply negb_true_iff in H;
    apply Qnot_le_lt; intros Hle; apply Qle_bool_iff in Hle; congruence.
Qed.

(** With TA-Lib's outputs -100, 0 and 100 the elementwise [&] with a
    boolean is 0 in every case, since 100 is even: the two variants of
    [PatternEngine] stay silent. *)
Lemma pattern_engine_marubozu_silent (x : Z) (c : bool) :
  x = -100 \/ x = 0 \/ x = 100 -> Z.land x (PatternEngine.b2z c) = 0.
Proof. intros [-> | [-> | ->]]; destruct c; reflexivity. Qed.

(** On an encoded row, the filter of [bulk_insert_common] keeps the row
    exactly when [matched_patterns] is not empty. *)
Lemma any_pattern_matched (talib : Talib) (df : list Bar) (i : nat) (b : Bar) :
  StockDatabaseManager.any_pattern (encoded_row talib df i b) = false
  <-> matched_patterns (encoded_row talib df i b) = [].
Proof.
  unfold StockDatabaseManager.any_pattern. cbn [flags matched_patterns encoded_row].
  induction (catalog_fired talib df i) as [|[n f] l IH]; [split; reflexivity|].
  cbn [map existsb List.filter fst snd]. destruct f; cbn [Z.b2z Z.eqb negb orb map].
  - split; discriminate.
  - exact IH.
Qed.

End EncoderClaims.

(** ** The database manager *)

Module StoreFacts.
Import StockDatabaseManager.

Lemma app_events (l : list Event) (a : Event) (evs : list Event) :
  (l ++ [a]) ++ evs = l ++ a :: evs.
Proof. rewrite <- app_assoc. reflexivity. Qed.

(** The three operations in closed form: the exception of the
    existence check, or what the operation does when the check
    answers. *)
Lemma create_table_closed (env : Env) (t : string) (w : World) :
  create_table env t w
  = guarded env t w (Ok (fst (create_table_spec env t w)), snd (create_table_spec env t w)).
Proof.
  unfold guarded, check_error, create_table, create_table_spec, bind, check_table_exists.
  destruct (decide (t ∈ existing_tables_cache w)) as [Hc|Hc]; [reflexivity|].
  unfold has_table, bind, emit. cbn [tables existing_tables_cache trace].
  destruct (has_table_error env t) as [e|]; [reflexivity|].
  cbn [tables existing_tables_cache trace].
  destruct (tables w !! t) as [rows|] eqn:Ht.
  - reflexivity.
  - unfold ret, try_except, create_all, bind, emit. cbn [tables existing_tables_cache trace].
    destruct (create_error env t) as [e|] eqn:He.
    + unfold raise, add_events. cbn. rewrite !app_events. reflexivity.
    + unfold create_indexes, try_except, bind, emit, index_events.
      cbn [tables existing_tables_cache trace].
      destruct (index_error env t) as [e|] eqn:Hi; unfold raise, ret, cache_add; cbn;
        rewrite !app_events; reflexivity.
Qed.

Lemma insert_data_closed (env : Env) (symbol : string) (data : list EncodedRow) (w : World) :
  insert_data env symbol data w
  = guarded env (stock_table symbol) w (insert_data_answered env symbol data w).
Proof.
  unfold insert_data_answered, insert_data, insert_data_spec. fold (stock_table symbol).
  unfold bind at 1. rewrite create_table_closed. unfold guarded.
  destruct (check_error env (stock_table symbol) w); [reflexivity|].
  set (w1 := snd (create_table_spec env (stock_table symbol) w)).
  unfold try_except, bind, lift.
  destruct (iloc0 data) as [row|e]; [|reflexivity]. cbn [rbind].
  destruct (record_of symbol row) as [r|e]; [|reflexivity].
  unfold emit, execute_insert. cbn [tables existing_tables_cache trace].
  destruct (tables w1 !! stock_table symbol) as [rows|]; cbn.
  - destruct (insert_error env (stock_table symbol) [r]); cbn; [|reflexivity].
    unfold add_events. cbn. rewrite app_events. reflexivity.
  - unfold add_events. cbn. rewrite app_events. reflexivity.
Qed.

Lemma bulk_insert_common_closed (env : Env) (df : list EncodedRow) (w : World) :
  bulk_insert_common env df w
  = guarded env common_table w (bulk_insert_common_answered env df w).
Proof.
  unfold bulk_insert_common_answered, bulk_insert_common, bulk_insert_common_spec. fold common_table.
  unfold bind at 1. rewrite create_table_closed. unfold guarded.
  destruct (check_error env common_table w); [reflexivity|].
  set (w1 := snd (create_table_spec env common_table w)).
  destruct (List.filter any_pattern df) as [|row rows']; [reflexivity|].
  unfold bind, lift.
  destruct (rmapM _ (row :: rows')) as [records|e]; [|reflexivity].
  unfold try_except, bind, emit, execute_insert. cbn [tables existing_tables_cache trace].
  destruct (tables w1 !! common_table) as [rows|]; cbn.
  - destruct (insert_error env common_table records); cbn.
    + unfold add_events. cbn. rewrite app_events. reflexivity.
    + rewrite app_events. reflexivity.
  - unfold add_events. cbn. rewrite app_events. reflexivity.
Qed.

(** A server whose existence checks answer. *)
Lemma check_answers (env : Env) (t : string) (w : World) :
  t ∈ existing_tables_cache w \/ has_table_error env t = None ->
  check_error env t w = None.
Proof.
  unfold check_error. intros [H|H]; destruct (decide _); auto. contradiction.
Qed.

Lemma guarded_answers {A} (env : Env) (t : string) (w : World) (k : Result A * World) :
  check_error env t w = None -> guarded env t w k = k.
Proof. unfold guarded. intros ->. reflexivity. Qed.

Lemma guarded_failed {A} (env : Env) (t : string) (w : World) (k : Result A * World) (e : Exn) :
  check_error env t w = Some e -> guarded env t w k = check_failed t e w.
Proof. unfold guarded. intros ->. reflexivity. Qed.


Lemma insert_data_answers (env : Env) (symbol : string) (data : list EncodedRow) (w : World) :
  check_error env (stock_table symbol) w = None ->
  insert_data env symbol data w
  = (Ok (fst (insert_data_spec env symbol data w)), snd (insert_data_spec env symbol data w)).
Proof. intros H. rewrite insert_data_closed, guarded_answers by exact H. reflexivity. Qed.

Lemma bulk_insert_common_answers (env : Env) (df : list EncodedRow) (w : World) :
  check_error env common_table w = None ->
  bulk_insert_common env df w = bulk_insert_common_spec env df w.
Proof. intros H. rewrite bulk_insert_common_closed, guarded_answers by exact H. reflexivity. Qed.

Lemma create_table_answers (env : Env) (t : string) (w : World) :
  check_error env t w = None ->
  create_table env t w
  = (Ok (fst (create_table_spec env t w)), snd (create_table_spec env t w)).
Proof. intros H. rewrite create_table_closed, guarded_answers by exact H. reflexivity. Qed.

Lemma create_table_returned (env : Env) (t : string) (w w1 : World) (b : bool) :
  create_table env t w = (Ok b, w1) ->
  check_error env t w = None /\ w1 = snd (create_table_spec env t w).
Proof.
  rewrite create_table_closed. unfold guarded, check_failed.
  destruct (check_error env t w); [discriminate|].
  intros H. inversion H. split; reflexivity.
Qed.

(** A call that returned had its check answered. *)
Lemma guarded_returned {A} (env : Env) (t : string) (w : World) (k : Result A * World) (a : A) :
  fst (guarded env t w k) = Ok a -> check_error env t w = None.
Proof. unfold guarded. destruct (check_error env t w); [discriminate | reflexivity]. Qed.

(** Whatever the check does, the world afterwards is that of the
    failed check or that of the operation. *)
Lemma guarded_world {A} (env : Env) (t : string) (w : World) (k : Result A * World)
  (P : World -> Prop) :
  P (add_events w [HasTable t]) -> P (snd k) -> P (snd (guarded env t w k)).
Proof. unfold guarded. destruct (check_error env t w); auto. Qed.

End StoreFacts.

Module UniquenessFacts.
Import StockDatabaseManager StoreFacts.

Lemma key_eqb_eq (a b : string * Z) : Rec.key_eqb a b = true <-> a = b.
Proof.
  destruct a as [s1 z1], b as [s2 z2]. unfold Rec.key_eqb. cbn [fst snd].
  rewrite andb_true_iff, String.eqb_eq, Z.eqb_eq. split.
  - intros [-> ->]. reflexivity.
  - intros H. inversion H. split; reflexivity.
Qed.

Lemma has_key_In (rows : list Rec.t) (k : string * Z) :
  has_key rows k = true <-> In k (map Rec.key rows).
Proof.
  unfold has_key. rewrite existsb_exists, in_map_iff. split.
  - intros (r & Hr & He). apply key_eqb_eq in He. exists r. split; assumption.
  - intros (r & He & Hr). exists r. split; [exact Hr|]. apply key_eqb_eq. exact He.
Qed.

Lemma insert_keeps_unique (rows : list Rec.t) (r : Rec.t) :
  unique_rows rows -> unique_rows (insert_on_conflict_do_nothing rows r).
Proof.
  intros Hu. unfold insert_on_conflict_do_nothing. fold (has_key rows (Rec.key r)).
  destruct (has_key rows (Rec.key r)) eqn:Hk; [exact Hu|].
  unfold unique_rows. rewrite map_app. cbn [map].
  apply NoDup_app. split; [exact Hu|]. split.
  - intros k Hin Hin'. apply list_elem_of_In in Hin, Hin'. destruct Hin' as [<-|[]].
    apply has_key_In in Hin. congruence.
  - apply NoDup_singleton.
Qed.

Lemma bulk_keeps_unique (rs rows : list Rec.t) :
  unique_rows rows -> unique_rows (fold_left insert_on_conflict_do_nothing rs rows).
Proof.
  revert rows. induction rs as [|r rs IH]; intros rows Hu; [exact Hu|].
  cbn [fold_left]. apply IH, insert_keeps_unique, Hu.
Qed.

Lemma world_unique_set (w : World) (t : string) (rows : list Rec.t) (T : gmap string (list Rec.t)) :
  (forall t' rows', T !! t' = Some rows' -> unique_rows rows') ->
  unique_rows rows ->
  forall t' rows', <[t := rows]> T !! t' = Some rows' -> unique_rows rows'.
Proof.
  intros HT Hu t' rows' H. destruct (decide (t = t')) as [->|Hne].
  - rewrite lookup_insert_eq in H. inversion H; subst. exact Hu.
  - rewrite lookup_insert_ne in H by exact Hne. eapply HT, H.
Qed.

Lemma add_events_unique (w : World) (evs : list Event) :
  world_unique w -> world_unique (add_events w evs).
Proof. intros H. exact H. Qed.

Lemma create_table_keeps_unique (env : Env) (t : string) (w : World) :
  world_unique w -> world_unique (snd (create_table_spec env t w)).
Proof.
  intros Hu. unfold create_table_spec.
  destruct (decide (t ∈ existing_tables_cache w)); [exact Hu|].
  destruct (tables w !! t) eqn:Ht; [exact Hu|].
  destruct (create_error env t); [exact Hu|].
  unfold world_unique. cbn [snd tables].
  apply (world_unique_set w); [exact Hu | apply NoDup_nil_2].
Qed.

Lemma insert_data_keeps_unique (env : Env) (symbol : string) (data : list EncodedRow) (w : World) :
  world_unique w -> world_unique (snd (insert_data env symbol data w)).
Proof.
  intros Hu. rewrite insert_data_closed. apply guarded_world; [exact Hu|].
  unfold insert_data_answered. cbn [snd]. unfold insert_data_spec.
  pose proof (create_table_keeps_unique env (stock_table symbol) w Hu) as Hu1.
  set (w1 := snd (create_table_spec env (stock_table symbol) w)) in *.
  destruct (rbind (iloc0 data) (record_of symbol)) as [r|e]; [|exact Hu1].
  destruct (tables w1 !! stock_table symbol) as [rows|] eqn:Ht; [|exact Hu1].
  destruct (insert_error env (stock_table symbol) [r]); [exact Hu1|].
  unfold world_unique. cbn [snd tables].
  apply (world_unique_set w1); [exact Hu1|].
  apply insert_keeps_unique. eapply Hu1, Ht.
Qed.

Lemma bulk_insert_common_keeps_unique (env : Env) (df : list EncodedRow) (w : World) :
  world_unique w -> world_unique (snd (bulk_insert_common env df w)).
Proof.
  intros Hu. rewrite bulk_insert_common_closed. apply guarded_world; [exact Hu|].
  unfold bulk_insert_common_answered, bulk_insert_common_spec.
  pose proof (create_table_keeps_unique env common_table w Hu) as Hu1.
  set (w1 := snd (create_table_spec env common_table w)) in *.
  destruct (List.filter any_pattern df) as [|row rows']; [exact Hu1|].
  destruct (rmapM _ (row :: rows')) as [records|e]; [|exact Hu1].
  destruct (tables w1 !! common_table) as [rows|] eqn:Ht; [|exact Hu1].
  destruct (insert_error env common_table records); [exact Hu1|].
  unfold world_unique. cbn [snd tables].
  apply (world_unique_set w1); [exact Hu1|].
  apply bulk_keeps_unique. eapply Hu1, Ht.
Qed.

End UniquenessFacts.

Module UniquenessClaim.
Import StockDatabaseManager UniquenessFacts.

(** C3. Every destination table holds at most one row per
    (symbol, date): in every state reached from the empty database by
    any sequence of [insert_data] and [bulk_insert_common] calls, and
    each of the two operations preserves this from any state in which
    it holds. *)
Theorem uniqueness_invariant (env : Env) :
  (forall w, reachable env w -> world_unique w) /\
  (forall w symbol data,
      world_unique w -> world_unique (snd (insert_data env symbol data w))) /\
  (forall w df,
      world_unique w -> world_unique (snd (bulk_insert_common env df w))).
Proof.
  split; [|split].
  - intros w Hr. induction Hr as [|w symbol data Hr IH|w df Hr IH].
    + intros t rows H. cbn in H. rewrite lookup_empty in H. discriminate.
    + apply insert_data_keeps_unique, IH.
    + apply bulk_insert_common_keeps_unique, IH.
  - intros w symbol data. apply insert_data_keeps_unique.
  - intros w df. apply bulk_insert_common_keeps_unique.
Qed.

End UniquenessClaim.

Example sample_abc_rec :
  StockDatabaseManager.record_of "ABC" Samples.abc_row = Ok Samples.abc_rec.
Proof. vm_compute. reflexivity. Qed.

Example sample_world_abc :
  tables Samples.world_abc = {[ "stock_abc" := [Samples.abc_rec] ]}
  /\ trace Samples.world_abc
     = [HasTable "stock_abc"; CreateAll "stock_abc"; CreateIndexes "stock_abc";
        Insert "stock_abc" Samples.abc_rec].
Proof. vm_compute. split; reflexivity. Qed.

Module WriteClaims.
Import StockDatabaseManager StoreFacts UniquenessFacts.

Lemma create_table_spec_false (env : Env) (t : string) (w : World) :
  fst (create_table_spec env t w) = false ->
  exists e, create_error env t = Some e /\
            (t ∉ existing_tables_cache w) /\ tables w !! t = None /\
            snd (create_table_spec env t w)
            = add_events w [HasTable t; CreateAll t; LogError (CreateFailed t e)].
Proof.
  unfold create_table_spec.
  destruct (decide (t ∈ existing_tables_cache w)) as [Hc|Hc]; [discriminate|].
  destruct (tables w !! t) eqn:Ht; [discriminate|].
  destruct (create_error env t) as [e|] eqn:He; [|discriminate].
  intros _. exists e. repeat split; assumption.
Qed.

Lemma create_table_false (env : Env) (t : string) (w : World) :
  fst (create_table env t w) = Ok false ->
  check_error env t w = None /\ fst (create_table_spec env t w) = false.
Proof.
  rewrite create_table_closed. intros H. pose proof (guarded_returned _ _ _ _ _ H) as Hc.
  split; [exact Hc|]. rewrite guarded_answers in H by exact Hc. cbn [fst] in H. congruence.
Qed.

(** The events [create_table] adds are table accesses and its own
    log records, never an INSERT. *)
Lemma create_table_trace (env : Env) (t : string) (w : World) :
  exists evs, trace (snd (create_table_spec env t w)) = trace w ++ evs /\
              forallb (fun ev => negb (is_write_event ev)) evs = true.
Proof.
  unfold create_table_spec.
  destruct (decide (t ∈ existing_tables_cache w)).
  { exists []. split; [symmetry; apply app_nil_r | reflexivity]. }
  destruct (tables w !! t).
  { eexists. split; reflexivity. }
  destruct (create_error env t).
  { eexists. split; reflexivity. }
  unfold index_events. destruct (index_error env t); eexists; split; reflexivity.
Qed.







(** The statement "no INSERT after a failed [create_table]" fails:
    with a server that refuses CREATE TABLE, [create_table] reports
    failure for ABC's table and [insert_data] still sends the INSERT. *)
Lemma insert_not_gated_on_create : ~ insert_gated_on_create.
Proof.
  intros H.
  specialize (H Samples.env_no_ddl "ABC" [Samples.abc_row] init_world
                [HasTable "stock_abc"; CreateAll "stock_abc";
                 LogError (CreateFailed "stock_abc" (ProgrammingError "stock_abc"));
                 Insert "stock_abc" Samples.abc_rec;
                 LogError (InsertFailed "ABC" (ProgrammingError "stock_abc"))]).
  assert (Hf : forallb (fun ev => negb (is_write_event ev))
                 [HasTable "stock_abc"; CreateAll "stock_abc";
                  LogError (CreateFailed "stock_abc" (ProgrammingError "stock_abc"));
                  Insert "stock_abc" Samples.abc_rec;
                  LogError (InsertFailed "ABC" (ProgrammingError "stock_abc"))] = false)
    by reflexivity.
  rewrite H in Hf; [discriminate | vm_compute; reflexivity | vm_compute; reflexivity].
Qed.

(** C5 (amended). Both write operations ignore what [create_table]
    returns.  When it reports failure, [insert_data] (given a first
    row that converts) and [bulk_insert_common] (given a batch with a
    matched pattern whose rows convert) still send their INSERT; the
    INSERT fails on the missing table, the failure is logged, no table
    changes, and [insert_data] returns False. *)
Theorem insert_attempted_after_failed_create (env : Env) (w : World) :
  (forall symbol data row r,
      fst (create_table env (stock_table symbol) w) = Ok false ->
      iloc0 data = Ok row ->
      record_of symbol row = Ok r ->
      exists e w',
        create_error env (stock_table symbol) = Some e /\
        insert_data env symbol data w = (Ok false, w') /\
        tables w' = tables w /\
        trace w' = trace w ++
          [HasTable (stock_table symbol); CreateAll (stock_table symbol);
           LogError (CreateFailed (stock_table symbol) e);
           Insert (stock_table symbol) r;
           LogError (InsertFailed symbol (ProgrammingError (stock_table symbol)))]) /\
  (forall df records,
      fst (create_table env common_table w) = Ok false ->
      List.filter any_pattern df <> [] ->
      rmapM (fun row => record_of (Symbol (bar row)) row) (List.filter any_pattern df)
      = Ok records ->
      exists e w',
        create_error env common_table = Some e /\
        bulk_insert_common env df w = (Ok tt, w') /\
        tables w' = tables w /\
        trace w' = trace w ++
          [HasTable common_table; CreateAll common_table;
           LogError (CreateFailed common_table e);
           BulkInsert common_table records;
           LogError (BulkFailed common_table (ProgrammingError common_table))]).
Proof.
  split.
  - intros symbol data row r Hfail Hrow Hrec.
    apply create_table_false in Hfail. destruct Hfail as [Hcheck Hfail].
    apply create_table_spec_false in Hfail.
    destruct Hfail as (e & He & Hc & Ht & Hw1).
    exists e. eexists. split; [exact He|].
    rewrite insert_data_answers by exact Hcheck. unfold insert_data_spec.
    rewrite Hrow. cbn [rbind]. rewrite Hrec, Hw1. cbn [tables add_events].
    rewrite Ht. cbn [fst snd].
    split; [reflexivity|]. cbn [tables trace add_events]. split; [reflexivity|].
    rewrite <- app_assoc. reflexivity.
  - intros df records Hfail Hne Hrec.
    apply create_table_false in Hfail. destruct Hfail as [Hcheck Hfail].
    apply create_table_spec_false in Hfail.
    destruct Hfail as (e & He & Hc & Ht & Hw1).
    exists e. eexists. split; [exact He|].
    rewrite bulk_insert_common_answers by exact Hcheck.
    unfold bulk_insert_common_spec.
    destruct (List.filter any_pattern df) as [|row rows'] eqn:Hf; [congruence|].
    rewrite Hrec, Hw1. cbn [tables add_events]. rewrite Ht.
    split; [reflexivity|]. cbn [tables trace add_events]. split; [reflexivity|].
    rewrite <- app_assoc. reflexivity.
Qed.

Lemma insert_attempted_after_failed_create_witness :
  fst (create_table Samples.env_no_ddl (stock_table "ABC") init_world) = Ok false /\
  iloc0 [Samples.abc_row] = Ok Samples.abc_row /\
  record_of "ABC" Samples.abc_row = Ok Samples.abc_rec /\
  exists e w',
    create_error Samples.env_no_ddl (stock_table "ABC") = Some e /\
    insert_data Samples.env_no_ddl "ABC" [Samples.abc_row] init_world = (Ok false, w') /\
    tables w' = tables init_world /\
    trace w' = trace init_world ++
      [HasTable (stock_table "ABC"); CreateAll (stock_table "ABC");
       LogError (CreateFailed (stock_table "ABC") e);
       Insert (stock_table "ABC") Samples.abc_rec;
       LogError (InsertFailed "ABC" (ProgrammingError (stock_table "ABC")))].
Proof.
  split; [vm_compute; reflexivity|].
  split; [reflexivity|].
  split; [vm_compute; reflexivity|].
  apply (proj1 (insert_attempted_after_failed_create Samples.env_no_ddl init_world)
           "ABC" [Samples.abc_row] Samples.abc_row Samples.abc_rec);
    vm_compute; reflexivity.
Defined.

(** The statement "a batch without matched patterns touches nothing"
    fails: on a fresh database the empty batch checks for the common
    table and creates it. *)
Lemma empty_batch_creates_table : ~ empty_batch_touches_nothing.
Proof.
  intros H. specialize (H Samples.env_ok [] init_world (List.Forall_nil _)).
  apply (f_equal (fun rw => trace (snd rw))) in H. vm_compute in H. discriminate.
Qed.

Lemma filter_none {A} (f : A -> bool) (l : list A) :
  Forall (fun x => f x = false) l -> List.filter f l = [].
Proof.
  induction 1 as [|x l Hx _ IH]; [reflexivity|]. cbn [List.filter]. rewrite Hx. exact IH.
Qed.

(** C8 (amended). On a batch in which no row has a matched pattern,
    [bulk_insert_common] does what [create_table "common_stock_data"]
    does and nothing more: it sends no INSERT and changes no row of an
    existing table; the existence check, the creation of the table and
    the log record of a failed creation still happen, unless the table
    is in the cache, in which case nothing is touched.  It raises
    exactly when the existence check raises (the check is outside every
    [try]), and then nothing but the check has happened; otherwise it
    returns. *)
Theorem bulk_insert_common_empty_batch (env : Env) (df : list EncodedRow) (w : World)
  (Hnone : Forall (fun row => any_pattern row = false) df) :
  exists r w' evs,
    create_table env common_table w = (r, w') /\
    bulk_insert_common env df w = (rbind r (fun _ => Ok tt), w') /\
    trace w' = trace w ++ evs /\
    forallb (fun ev => negb (is_write_event ev)) evs = true /\
    (forall t rows, tables w !! t = Some rows -> tables w' !! t = Some rows) /\
    (common_table ∈ existing_tables_cache w -> r = Ok true /\ w' = w) /\
    (forall e, r = Raise e <->
               (common_table ∉ existing_tables_cache w) /\
               has_table_error env common_table = Some e) /\
    (forall e, r = Raise e -> tables w' = tables w /\ evs = [HasTable common_table]).
Proof.
  rewrite create_table_closed, bulk_insert_common_closed.
  unfold guarded, check_error, check_failed, bulk_insert_common_answered,
    bulk_insert_common_spec.
  rewrite (filter_none _ _ Hnone).
  destruct (decide (common_table ∈ existing_tables_cache w)) as [Hc|Hc].
  - exists (Ok true), w, []. unfold create_table_spec.
    destruct (decide (common_table ∈ existing_tables_cache w)) as [_|Hn]; [|contradiction].
    split; [reflexivity|]. split; [reflexivity|].
    split; [symmetry; apply app_nil_r|]. split; [reflexivity|]. split; [auto|].
    split; [auto|]. split; [|discriminate].
    intros e. split; [discriminate | intros [H _]; contradiction].
  - destruct (has_table_error env common_table) as [e0|] eqn:Hcheck.
    + exists (Raise e0), (add_events w [HasTable common_table]), [HasTable common_table].
      split; [reflexivity|]. split; [reflexivity|]. split; [reflexivity|].
      split; [reflexivity|]. split; [auto|]. split; [contradiction|]. split.
      * intros e. split; [intros H; inversion H; auto | intros [_ H]; congruence].
      * intros e _. split; reflexivity.
    + destruct (create_table_trace env common_table w) as (evs & Htr & Hev).
      exists (Ok (fst (create_table_spec env common_table w))),
             (snd (create_table_spec env common_table w)), evs.
      split; [reflexivity|]. split; [reflexivity|]. split; [exact Htr|].
      split; [exact Hev|]. split.
      * intros t rows Ht. unfold create_table_spec.
        destruct (decide (common_table ∈ existing_tables_cache w)); [exact Ht|].
        destruct (tables w !! common_table) eqn:Hct; [exact Ht|].
        destruct (create_error env common_table); [exact Ht|].
        cbn [snd tables]. rewrite lookup_insert_ne by congruence. exact Ht.
      * split; [contradiction|]. split; [|discriminate].
        intros e. split; [discriminate | intros [_ H]; discriminate].
Qed.

Lemma bulk_insert_common_empty_batch_witness :
  Forall (fun row => any_pattern row = false) [Samples.abc_plain_row; Samples.xyz_plain_row] /\
  exists w',
    bulk_insert_common Samples.env_ok [Samples.abc_plain_row; Samples.xyz_plain_row]
      init_world = (Ok tt, w') /\
    tables w' = {[ common_table := [] ]} /\
    bulk_insert_common Samples.env_no_check [Samples.abc_plain_row; Samples.xyz_plain_row]
      init_world
    = (Raise (DBAPIError common_table), add_events init_world [HasTable common_table]).
Proof.
  assert (H : Forall (fun row => any_pattern row = false)
                [Samples.abc_plain_row; Samples.xyz_plain_row])
    by (repeat constructor).
  split; [exact H|].
  destruct (bulk_insert_common_empty_batch Samples.env_ok
              [Samples.abc_plain_row; Samples.xyz_plain_row] init_world H)
    as (r & w' & evs & H1 & H2 & _).
  assert (Hr : r = Ok true /\ tables w' = {[ common_table := [] ]}).
  { vm_compute in H1. inversion H1; subst. split; reflexivity. }
  destruct Hr as [-> Ht]. exists w'. split; [exact H2|]. split; [exact Ht|].
  vm_compute. reflexivity.
Defined.

End WriteClaims.

(** ** Re-running the writes *)

Module RerunFacts.
Import StockDatabaseManager StoreFacts UniquenessFacts.

Local Abbreviation ins := insert_on_conflict_do_nothing.




Lemma has_key_app (rows : list Rec.t) (r : Rec.t) (k : string * Z) :
  has_key (rows ++ [r]) k = has_key rows k || Rec.key_eqb (Rec.key r) k.
Proof. unfold has_key. rewrite existsb_app. cbn. rewrite orb_false_r. reflexivity. Qed.











Lemma create_noop (env : Env) (t : string) (w : World) :
  settled_table env w t -> tables (snd (create_table_spec env t w)) = tables w.
Proof.
  intros Hs. unfold create_table_spec.
  destruct (decide (t ∈ existing_tables_cache w)) as [Hc|Hc]; [reflexivity|].
  destruct (tables w !! t) eqn:Ht; [reflexivity|].
  destruct (create_error env t) as [e|] eqn:He; [reflexivity|].
  destruct Hs as [[rows Hs]|[Hs|[e Hs]]]; [congruence | contradiction | congruence].
Qed.

(** [write_rows]. *)
Lemma write_rows_nil (t : string) (T : gmap string (list Rec.t)) : write_rows t [] T = T.
Proof.
  unfold write_rows. destruct (T !! t) eqn:Ht; [|reflexivity].
  cbn [fold_left]. apply insert_id, Ht.
Qed.




End RerunFacts.

Module RerunProps.
Import StockDatabaseManager StoreFacts UniquenessFacts RerunFacts.

Lemma insert_data_answered_writes (env : Env) (symbol : string) (data : list EncodedRow) :
  writes env (stock_table symbol) (insert_data_records env symbol data)
         (insert_data_answered env symbol data).
Proof.
  intros w. unfold insert_data_answered. cbn [snd].
  unfold insert_data_spec, insert_data_records, accepted.
  set (w1 := snd (create_table_spec env (stock_table symbol) w)).
  destruct (rbind (iloc0 data) (record_of symbol)) as [r|e].
  - unfold write_rows. destruct (tables w1 !! stock_table symbol) eqn:Ht.
    + destruct (insert_error env (stock_table symbol) [r]); cbn [snd tables add_events].
      * cbn [fold_left]. rewrite insert_id by exact Ht. split; reflexivity.
      * split; reflexivity.
    + split; reflexivity.
  - rewrite write_rows_nil. split; reflexivity.
Qed.

Lemma bulk_insert_common_answered_writes (env : Env) (df : list EncodedRow) :
  writes env common_table (bulk_records env df) (bulk_insert_common_answered env df).
Proof.
  intros w. unfold bulk_insert_common_answered, bulk_insert_common_spec, bulk_records, accepted.
  set (w1 := snd (create_table_spec env common_table w)).
  destruct (List.filter any_pattern df) as [|row rows'].
  { cbn [rmapM]. destruct (insert_error env common_table []);
      rewrite write_rows_nil; split; reflexivity. }
  destruct (rmapM _ (row :: rows')) as [records|e].
  - unfold write_rows. destruct (tables w1 !! common_table) eqn:Ht.
    + destruct (insert_error env common_table records); cbn [snd tables add_events].
      * cbn [fold_left]. rewrite insert_id by exact Ht. split; reflexivity.
      * split; reflexivity.
    + split; reflexivity.
  - rewrite write_rows_nil. split; reflexivity.
Qed.








Lemma seq_world {A B} (m : M A) (k : M B) (w : World) :
  snd ((m ;;; k) w) = if raises m w then snd (m w) else snd (k (snd (m w))).
Proof. unfold bind, raises. destruct (m w) as [[a|e] w']; reflexivity. Qed.







End RerunProps.

(** ** One day *)

Module DayFacts.
Import StockDatabaseManager StockDataDownloader StoreFacts RerunFacts RerunProps.

Lemma download_csv_closed (env : Env) (date_str : string) (w : World) :
  download_csv env date_str w
  = (Ok (fetched env date_str), add_events w [HttpGet (url_of date_str)]).
Proof.
  unfold download_csv, fetched, try_except, bind, emit, lift, add_events.
  cbn [tables existing_tables_cache trace].
  destruct (requests_get env (url_of date_str)) as [response|e]; [|reflexivity].
  destruct (status_code response =? 200); [|reflexivity].
  destruct (content response) as [body|e]; reflexivity.
Qed.

Lemma process_single_date_closed (env : Env) (date_str : string) (w : World) :
  process_single_date env date_str w = process_single_date_spec env date_str w.
Proof.
  unfold process_single_date, process_single_date_spec.
  unfold bind at 1. unfold lift at 1.
  destruct (is_weekend date_str) as [[|]|e]; [reflexivity | | reflexivity].
  unfold bind at 1. rewrite download_csv_closed.
  destruct (fetched env date_str) as [csv|]; [|reflexivity].
  unfold try_except, day_frame.
  unfold bind at 1. unfold lift at 1.
  destruct (read_and_clean env csv) as [df0|e]; [|reflexivity]. cbn [rbind].
  unfold bind at 1. unfold lift at 1.
  destruct (CandlePatternRecognizer.apply_and_encode_patterns (talib env) df0) as [df|e];
    [|reflexivity].
  fold (persist env df).
  destruct (persist env df _) as [[[]|e] w']; reflexivity.
Qed.


End DayFacts.

(** ** The cache does not matter *)

Module BlindFacts.
Import StockDatabaseManager StockDataDownloader StoreFacts RerunFacts RerunProps DayFacts.

Lemma consistent_add_events (w : World) (evs : list Event) :
  consistent w -> consistent (add_events w evs).
Proof. intros H. exact H. Qed.

Lemma same_db_add_events (w w' : World) (evs evs' : list Event) :
  same_db w w' -> same_db (add_events w evs) (add_events w' evs').
Proof. intros H. exact H. Qed.

Lemma create_table_consistent (env : Env) (t : string) (w : World) :
  consistent w -> consistent (snd (create_table_spec env t w)).
Proof.
  intros Hc. unfold create_table_spec.
  destruct (decide (t ∈ existing_tables_cache w)); [exact Hc|].
  destruct (tables w !! t) eqn:Ht.
  - intros t' Ht'. cbn [snd tables existing_tables_cache] in *.
    apply elem_of_union in Ht'. destruct Ht' as [Ht'|Ht']; [|apply Hc, Ht'].
    apply elem_of_singleton in Ht'. subst t'. rewrite Ht. eauto.
  - destruct (create_error env t); [exact Hc|].
    intros t' Ht'. cbn [snd tables existing_tables_cache] in *.
    destruct (decide (t = t')) as [<-|Hne]; [rewrite lookup_insert_eq; eauto|].
    rewrite lookup_insert_ne by exact Hne. apply Hc.
    apply elem_of_union in Ht'. destruct Ht' as [Ht'|Ht']; [|exact Ht'].
    apply elem_of_singleton in Ht'. congruence.
Qed.

Lemma create_table_tables (env : Env) (t : string) (w : World) :
  consistent w ->
  tables (snd (create_table_spec env t w))
  = match tables w !! t with
    | Some _ => tables w
    | None => match create_error env t with
              | Some _ => tables w
              | None => <[t := []]> (tables w)
              end
    end.
Proof.
  intros Hc. unfold create_table_spec.
  destruct (decide (t ∈ existing_tables_cache w)) as [Hin|Hin].
  - destruct (Hc t Hin) as [rows ->]. reflexivity.
  - destruct (tables w !! t); [reflexivity|]. destruct (create_error env t); reflexivity.
Qed.

Lemma write_rows_is_Some (t t' : string) (rs : list Rec.t) (T : gmap string (list Rec.t)) :
  is_Some (T !! t') -> is_Some (write_rows t rs T !! t').
Proof.
  intros H. unfold write_rows. destruct (T !! t) eqn:Ht; [|exact H].
  destruct (decide (t = t')) as [<-|Hne]; [rewrite lookup_insert_eq; eauto|].
  rewrite lookup_insert_ne by exact Hne. exact H.
Qed.








Lemma init_world_consistent : consistent init_world.
Proof. intros t Ht. cbn in Ht. set_solver. Qed.

Lemma writes_consistent {A} (env : Env) (t : string) (rs : list Rec.t) (m : M A) (w : World) :
  writes env t rs m -> consistent w -> consistent (snd (m w)).
Proof.
  intros Hm Hc. destruct (Hm w) as [H1 H2].
  intros t' Ht'. rewrite H2 in Ht'. rewrite H1.
  apply write_rows_is_Some, (create_table_consistent env t w Hc), Ht'.
Qed.

(** Every state the write operations reach from the empty database has
    a cache that names only existing tables. *)
Lemma reachable_consistent (env : Env) (w : World) : reachable env w -> consistent w.
Proof.
  induction 1 as [|w symbol data _ IH|w df _ IH].
  - apply init_world_consistent.
  - rewrite insert_data_closed. apply guarded_world; [exact IH|].
    eapply writes_consistent; [apply insert_data_answered_writes | exact IH].
  - rewrite bulk_insert_common_closed. apply guarded_world; [exact IH|].
    eapply writes_consistent; [apply bulk_insert_common_answered_writes | exact IH].
Qed.

End BlindFacts.

Module IdempotenceClaim.
Import StockDatabaseManager StockDataDownloader StoreFacts UniquenessFacts RerunFacts
  RerunProps DayFacts BlindFacts.

Local Abbreviation ins := insert_on_conflict_do_nothing.


Lemma create_table_existing (env : Env) (t : string) (rows : list Rec.t) (w : World) :
  tables w !! t = Some rows ->
  tables (snd (create_table_spec env t w)) = tables w.
Proof. intros Ht. apply create_noop. left. eauto. Qed.



End IdempotenceClaim.

(** ** The calendar *)

Module CalendarFacts.
Import Calendar.

Lemma check_cycle_sound (n : Z) (k : positive) :
  snd (check_cycle n k) = true ->
  forall r, n <= r < n + Z.pos k -> cycle_ok r = true.
Proof.
  unfold check_cycle.
  assert (G : forall k,
             fst (Pos.iter (fun st => (fst st + 1, snd st && cycle_ok (fst st))) (n, true) k)
             = n + Z.pos k /\
             (snd (Pos.iter (fun st => (fst st + 1, snd st && cycle_ok (fst st))) (n, true) k)
              = true -> forall r, n <= r < n + Z.pos k -> cycle_ok r = true)).
  { clear k. induction k as [|k IH] using Pos.peano_ind.
    - cbn. split; [reflexivity|]. intros H r Hr. replace r with n by lia. exact H.
    - rewrite Pos.iter_succ. destruct IH as [IH1 IH2]. cbn [fst snd]. split; [lia|].
      intros H r Hr. apply andb_true_iff in H. destruct H as [H1 H2].
      destruct (Z.eq_dec r (n + Z.pos k)) as [->|Hne].
      + rewrite IH1 in H2. exact H2.
      + apply IH2; [exact H1 | lia]. }
  apply G.
Qed.

Lemma cycle_checked : snd (check_cycle 1 146097) = true.
Proof. vm_compute. reflexivity. Qed.

Lemma cycle_ok_all (r : Z) : 1 <= r <= 146097 -> cycle_ok r = true.
Proof. intros Hr. apply (check_cycle_sound 1 146097 cycle_checked). lia. Qed.

Lemma is_leap_shift (y q : Z) : is_leap (y + 400 * q) = is_leap y.
Proof.
  unfold is_leap.
  replace (y + 400 * q) with (y + (100 * q) * 4) at 1 by lia.
  replace (y + 400 * q) with (y + (4 * q) * 100) at 1 by lia.
  replace (y + 400 * q) with (y + q * 400) by lia.
  rewrite !Z_mod_plus_full. reflexivity.
Qed.

Lemma days_in_month_shift (y m q : Z) : days_in_month (y + 400 * q) m = days_in_month y m.
Proof. unfold days_in_month. rewrite is_leap_shift. reflexivity. Qed.

Lemma days_before_year_shift (y q : Z) :
  days_before_year (y + 400 * q) = days_before_year y + 146097 * q.
Proof.
  unfold days_before_year. cbv zeta.
  replace (y + 400 * q - 1) with (y - 1 + (100 * q) * 4) at 2 by lia.
  replace (y + 400 * q - 1) with (y - 1 + (4 * q) * 100) at 2 by lia.
  replace (y + 400 * q - 1) with (y - 1 + q * 400) at 2 by lia.
  rewrite !Z.div_add by lia. lia.
Qed.

Lemma ymd2ord_shift (y m d q : Z) :
  ymd2ord (y + 400 * q) m d = ymd2ord y m d + 146097 * q.
Proof.
  unfold ymd2ord, days_before_month.
  rewrite days_before_year_shift, is_leap_shift. lia.
Qed.

Lemma ord2ymd_shift (r q : Z) :
  1 <= r <= 146097 -> 0 <= q ->
  ord2ymd (r + 146097 * q)
  = (fst (fst (ord2ymd r)) + 400 * q, snd (fst (ord2ymd r)), snd (ord2ymd r)).
Proof.
  intros Hr Hq. unfold ord2ymd. cbv zeta. unfold DI400Y.
  replace (r + 146097 * q - 1) with (r - 1 + q * 146097) by lia.
  rewrite Z.div_add, Z_mod_plus_full by lia.
  rewrite (Z.div_small (r - 1) 146097), (Z.mod_small (r - 1) 146097) by lia.
  set (n100 := (r - 1) / DI100Y).
  set (n4 := ((r - 1) mod DI100Y) / DI4Y).
  set (n1 := (((r - 1) mod DI100Y) mod DI4Y) / 365).
  set (n := (((r - 1) mod DI100Y) mod DI4Y) mod 365).
  destruct ((n1 =? 4) || (n100 =? 4)); cbn [fst snd]; [f_equal; f_equal; lia|].
  set (leapyear := (n1 =? 3) && (negb (n4 =? 24) || (n100 =? 3))).
  set (month := Z.shiftr (n + 50) 5).
  destruct (n <? _); cbn [fst snd]; f_equal; f_equal; lia.
Qed.

(** Every ordinal of the [datetime] range converts to a valid date and
    back. *)
Lemma ord2ymd_valid (n : Z) :
  1 <= n <= MAXORD ->
  exists y m d,
    ord2ymd n = (y, m, d) /\
    1 <= y <= 9999 /\ 1 <= m <= 12 /\ 1 <= d <= days_in_month y m /\
    ymd2ord y m d = n.
Proof.
  unfold MAXORD. intros Hn.
  set (q := (n - 1) / 146097). set (r := (n - 1) mod 146097 + 1).
  assert (Hdm : n - 1 = 146097 * q + (n - 1) mod 146097) by (apply Z.div_mod; lia).
  assert (Hm : 0 <= (n - 1) mod 146097 < 146097) by (apply Z.mod_pos_bound; lia).
  assert (Hq : 0 <= q <= 24).
  { split; [apply Z.div_pos; lia|].
    assert ((n - 1) / 146097 < 25) by (apply Z.div_lt_upper_bound; lia). lia. }
  assert (Hr : 1 <= r <= 146097) by (unfold r; lia).
  assert (Hn' : n = r + 146097 * q) by (unfold r; lia).
  pose proof (cycle_ok_all r Hr) as Hok. unfold cycle_ok in Hok.
  rewrite Hn', (ord2ymd_shift r q Hr) by lia.
  destruct (ord2ymd r) as [[y m] d]. cbn [fst snd].
  repeat (apply andb_true_iff in Hok; destruct Hok as [Hok ?]).
  exists (y + 400 * q), m, d. split; [reflexivity|].
  rewrite days_in_month_shift, ymd2ord_shift.
  assert (Hy : q = 24 -> y <= 399).
  { intros H24. destruct (r <=? 145731) eqn:Hle.
    - cbn in H. lia.
    - apply Z.leb_gt in Hle. lia. }
  lia.
Qed.

Lemma digit_roundtrip (k : Z) : 0 <= k <= 9 -> digit_of_ascii (ascii_of_digit k) = Some k.
Proof.
  intros Hk.
  assert (H : k = 0 \/ k = 1 \/ k = 2 \/ k = 3 \/ k = 4 \/ k = 5 \/ k = 6 \/ k = 7
              \/ k = 8 \/ k = 9) by lia.
  repeat (destruct H as [->|H]; [reflexivity|]). subst k. reflexivity.
Qed.

Lemma digits_pad2 (n : Z) : 0 <= n < 100 -> digits_value (pad2 n) 0 = Some n.
Proof.
  intros Hn. unfold pad2. cbn [digits_value].
  rewrite !digit_roundtrip by (pose proof (Z.mod_pos_bound (n / 10) 10);
                               pose proof (Z.mod_pos_bound n 10); lia).
  f_equal. rewrite (Z.mod_small (n / 10) 10).
  - pose proof (Z.div_mod n 10). lia.
  - split; [apply Z.div_pos; lia | apply Z.div_lt_upper_bound; lia].
Qed.

Lemma digits_pad4 (n : Z) : 0 <= n < 10000 -> digits_value (pad4 n) 0 = Some n.
Proof.
  intros Hn. unfold pad4, pad2. cbn [digits_value].
  rewrite !digit_roundtrip by (pose proof (Z.mod_pos_bound (n / 1000) 10);
                               pose proof (Z.mod_pos_bound (n / 100) 10);
                               pose proof (Z.mod_pos_bound (n / 10) 10);
                               pose proof (Z.mod_pos_bound n 10); lia).
  f_equal. Z.div_mod_to_equations. lia.
Qed.

Lemma strptime_formatted (d m y : Z) :
  strptime_dmY (pad2 d ++ pad2 m ++ pad4 y)
  = fields_to_datetime (pad2 d ++ pad2 m ++ pad4 y) (pad2 d) (pad2 m) (pad4 y).
Proof. reflexivity. Qed.

Lemma days_in_month_le_31 (y m : Z) : days_in_month y m <= 31.
Proof.
  unfold days_in_month. destruct (m =? 2); [destruct (is_leap y); lia|].
  destruct ((m =? 4) || (m =? 6) || (m =? 9) || (m =? 11)); lia.
Qed.

Ltac leb_true :=
  repeat match goal with
         | |- context [?a <=? ?b] => rewrite (proj2 (Z.leb_le a b)) by lia
         end.

(** What [strftime] writes, [strptime] reads back. *)
Lemma strptime_strftime (n : Z) :
  1 <= n <= MAXORD ->
  strptime_dmY (strftime_dmY (mkDatetime n)) = Ok (mkDatetime n).
Proof.
  intros Hn. destruct (ord2ymd_valid n Hn) as (y & m & d & Hymd & Hy & Hm & Hd & Hord).
  unfold strftime_dmY. cbn [toordinal]. rewrite Hymd, strptime_formatted.
  pose proof (days_in_month_le_31 y m) as H31.
  unfold fields_to_datetime.
  rewrite (digits_pad2 d), (digits_pad2 m), (digits_pad4 y) by lia.
  leb_true. cbn [andb]. unfold make_datetime, MINYEAR, MAXYEAR.
  leb_true. cbn [andb]. rewrite Hord. reflexivity.
Qed.

Lemma is_weekend_strftime (n : Z) :
  1 <= n <= MAXORD ->
  StockDataDownloader.is_weekend (strftime_dmY (mkDatetime n))
  = Ok (5 <=? weekday (mkDatetime n)).
Proof.
  intros Hn. unfold StockDataDownloader.is_weekend. rewrite strptime_strftime by exact Hn.
  reflexivity.
Qed.

End CalendarFacts.

(** ** The date-range driver *)

Module DriverFacts.
Import Calendar StockDatabaseManager StockDataDownloader StoreFacts RerunProps DayFacts
  CalendarFacts.

Lemma process_single_date_returns (env : Env) (date_str : string) (b : bool) (w : World) :
  is_weekend date_str = Ok b ->
  fst (process_single_date env date_str w) = Ok tt.
Proof.
  intros Hw. rewrite process_single_date_closed. unfold process_single_date_spec.
  rewrite Hw. destruct b; [reflexivity|].
  destruct (fetched env date_str) as [csv|]; [|reflexivity].
  destruct (day_frame env csv) as [df|e]; [|reflexivity].
  destruct (persist env df _) as [[[]|e] w']; reflexivity.
Qed.

Lemma date_loop_step (env : Env) (fuel : nat) (e n : Z) (w : World) :
  1 <= n -> n <= e -> e < MAXORD ->
  date_loop env (S fuel) (mkDatetime e) (mkDatetime n) w
  = date_loop env fuel (mkDatetime e) (mkDatetime (n + 1)) (day_world env n w).
Proof.
  intros H1 Hle He. cbn [date_loop]. unfold le. cbn [toordinal].
  rewrite (proj2 (Z.leb_le n e) Hle).
  unfold bind at 1. unfold emit at 1.
  fold (add_events w [Print (mkDatetime n)]).
  unfold bind at 1.
  pose proof (process_single_date_returns env (strftime_dmY (mkDatetime n))
                (5 <=? weekday (mkDatetime n)) (add_events w [Print (mkDatetime n)])
                (is_weekend_strftime n ltac:(lia))) as Hr.
  unfold day_world.
  destruct (process_single_date env _ _) as [r w']. cbn [fst snd] in *. subst r.
  unfold lift, add_days. cbn [toordinal]. unfold MAXORD in *.
  rewrite (proj2 (Z.leb_le 1 (n + 1))), (proj2 (Z.leb_le (n + 1) 3652059)) by lia.
  reflexivity.
Qed.

Lemma date_loop_runs (env : Env) (e : Z) (k : nat) :
  e < MAXORD ->
  forall (fuel : nat) (n : Z) (w : World),
    1 <= n -> k = Z.to_nat (e - n + 1) -> (k <= fuel)%nat ->
    date_loop env fuel (mkDatetime e) (mkDatetime n) w = Some (Ok tt, run_days env k n w).
Proof.
  intros He. induction k as [|k IH]; intros fuel n w H1 Hk Hf.
  - assert (e < n) by lia. destruct fuel; cbn [date_loop run_days]; unfold le; cbn [toordinal];
      rewrite (proj2 (Z.leb_gt n e)) by lia; reflexivity.
  - destruct fuel as [|fuel]; [lia|].
    rewrite date_loop_step by lia. cbn [run_days]. apply IH; lia.
Qed.

(** Traces only grow. *)
Lemma extends_refl (w : World) : extends w w.
Proof. exists []. symmetry. apply app_nil_r. Qed.

Lemma extends_trans (w1 w2 w3 : World) : extends w1 w2 -> extends w2 w3 -> extends w1 w3.
Proof.
  intros [e1 H1] [e2 H2]. exists (e1 ++ e2). rewrite H2, H1, app_assoc. reflexivity.
Qed.

Lemma extends_add (w : World) (evs : list Event) : extends w (add_events w evs).
Proof. exists evs. reflexivity. Qed.

Lemma create_table_extends (env : Env) (t : string) (w : World) :
  extends w (snd (create_table_spec env t w)).
Proof.
  unfold create_table_spec.
  destruct (decide (t ∈ existing_tables_cache w)); [apply extends_refl|].
  destruct (tables w !! t); [eexists; reflexivity|].
  destruct (create_error env t); eexists; reflexivity.
Qed.

Lemma insert_data_extends (env : Env) (symbol : string) (data : list EncodedRow) (w : World) :
  extends w (snd (insert_data env symbol data w)).
Proof.
  rewrite insert_data_closed. apply guarded_world; [apply extends_add|].
  unfold insert_data_answered. cbn [snd]. unfold insert_data_spec.
  eapply extends_trans; [apply (create_table_extends env (stock_table symbol))|].
  destruct (rbind (iloc0 data) (record_of symbol)) as [r|e]; [|apply extends_add].
  destruct (tables _ !! stock_table symbol); [|apply extends_add].
  destruct (insert_error env (stock_table symbol) [r]);
    [apply extends_add | eexists; reflexivity].
Qed.

Lemma bulk_insert_common_extends (env : Env) (df : list EncodedRow) (w : World) :
  extends w (snd (bulk_insert_common env df w)).
Proof.
  rewrite bulk_insert_common_closed. apply guarded_world; [apply extends_add|].
  unfold bulk_insert_common_answered, bulk_insert_common_spec.
  eapply extends_trans; [apply (create_table_extends env common_table)|].
  destruct (List.filter any_pattern df); [apply extends_refl|].
  destruct (rmapM _ _) as [records|e0]; [|apply extends_refl].
  destruct (tables _ !! common_table); [|apply extends_add].
  destruct (insert_error env common_table records);
    [apply extends_add | eexists; reflexivity].
Qed.

Lemma seq_extends {A B} (m : M A) (k : M B) :
  (forall w, extends w (snd (m w))) -> (forall w, extends w (snd (k w))) ->
  forall w, extends w (snd ((m ;;; k) w)).
Proof.
  intros Hm Hk w. rewrite seq_world. destruct (raises m w); [apply Hm|].
  eapply extends_trans; [apply Hm | apply Hk].
Qed.

Lemma persist_extends (env : Env) (df : list EncodedRow) (w : World) :
  extends w (snd (persist env df w)).
Proof.
  revert w. unfold persist. apply seq_extends; [apply bulk_insert_common_extends|].
  induction (groupby_Symbol df) as [|sg l IH]; cbn [for_each].
  - intros w. apply extends_refl.
  - apply seq_extends; [|exact IH].
    apply seq_extends; [apply insert_data_extends | intros w; apply extends_refl].
Qed.

Lemma process_single_date_extends (env : Env) (date_str : string) (w : World) :
  extends w (snd (process_single_date env date_str w)).
Proof.
  rewrite process_single_date_closed. unfold process_single_date_spec.
  destruct (is_weekend date_str) as [[|]|e]; [apply extends_refl | | apply extends_refl].
  destruct (fetched env date_str) as [csv|]; [|apply extends_add].
  destruct (day_frame env csv) as [df|e].
  - pose proof (persist_extends env df (add_events w [HttpGet (url_of date_str)])) as Hp.
    destruct (persist env df _) as [[[]|e] w']; cbn [snd] in *.
    + eapply extends_trans; [apply extends_add | exact Hp].
    + eapply extends_trans; [apply extends_add|].
      eapply extends_trans; [exact Hp | apply extends_add].
  - eapply extends_trans; apply extends_add.
Qed.

Lemma day_world_prints (env : Env) (n : Z) (w : World) :
  extends w (day_world env n w) /\ In (Print (mkDatetime n)) (trace (day_world env n w)).
Proof.
  unfold day_world.
  pose proof (process_single_date_extends env (strftime_dmY (mkDatetime n))
                (add_events w [Print (mkDatetime n)])) as [evs Hevs].
  split.
  - eapply extends_trans; [apply extends_add | exists evs; exact Hevs].
  - rewrite Hevs. cbn [trace add_events]. apply in_or_app. left. apply in_or_app.
    right. left. reflexivity.
Qed.

Lemma run_days_extends (env : Env) (k : nat) (n : Z) (w : World) :
  extends w (run_days env k n w).
Proof.
  revert n w. induction k as [|k IH]; intros n w; cbn [run_days]; [apply extends_refl|].
  eapply extends_trans; [apply day_world_prints | apply IH].
Qed.

Lemma run_days_prints (env : Env) (k : nat) (n d : Z) (w : World) :
  n <= d < n + Z.of_nat k -> In (Print (mkDatetime d)) (trace (run_days env k n w)).
Proof.
  revert n w. induction k as [|k IH]; intros n w Hd; [lia|]. cbn [run_days].
  destruct (Z.eq_dec d n) as [->|Hne].
  - destruct (run_days_extends env k (n + 1) (day_world env n w)) as [evs ->].
    apply in_or_app. left. apply day_world_prints.
  - apply IH. lia.
Qed.

End DriverFacts.

Module DriverClaims.
Import Calendar StockDatabaseManager StockDataDownloader StoreFacts RerunProps DayFacts
  CalendarFacts DriverFacts.

Example saturday_4_january_2025 :
  strptime_dmY "04012025" = Ok (mkDatetime 739255) /\ weekday (mkDatetime 739255) = 5.
Proof. split; vm_compute; reflexivity. Qed.

(** The statement "a fetch that raises is logged with the date" fails:
    without network, Friday 3 January 2025 leaves the request in the
    trace and no log record. *)
Lemma fetch_failure_not_logged : ~ fetch_failure_logged.
Proof.
  intros H.
  destruct (H Samples.env_offline "03012025"
              (ConnectionError (url_of "03012025")) init_world) as [e' He'].
  - vm_compute. reflexivity.
  - reflexivity.
  - vm_compute in He'. destruct He' as [He'|[]]. discriminate.
Qed.

(** C6 (amended). No exception of a day leaves [process_single_date],
    for any date string that parses, and [process_date_range], on a
    range that starts in the year 1000 or later and ends before
    31 December 9999, goes through every day whatever happened on
    earlier days.  An exception of reading, cleaning or encoding the
    file, or one that escapes the two writes (such as that of a failing
    existence check), is logged with the date.  An exception of the
    fetch is swallowed by [download_csv] and leaves no log record.  A
    first row that does not convert and a failed INSERT are caught
    inside [insert_data], logged with the symbol and answered False; a
    failed bulk INSERT is caught inside [bulk_insert_common] and logged
    with the table name; neither reaches the handler of the day. *)
Theorem day_failures_contained (env : Env) (w : World) :
  (forall date_str dt,
      strptime_dmY date_str = Ok dt ->
      exists w', process_single_date env date_str w = (Ok tt, w') /\ extends w w') /\
  (forall date_str csv e,
      is_weekend date_str = Ok false ->
      fetched env date_str = Some csv ->
      day_frame env csv = Raise e ->
      process_single_date env date_str w
      = (Ok tt, add_events (add_events w [HttpGet (url_of date_str)])
                           [LogError (ProcessFailed date_str e)])) /\
  (forall date_str csv df e w',
      is_weekend date_str = Ok false ->
      fetched env date_str = Some csv ->
      day_frame env csv = Ok df ->
      persist env df (add_events w [HttpGet (url_of date_str)]) = (Raise e, w') ->
      process_single_date env date_str w
      = (Ok tt, add_events w' [LogError (ProcessFailed date_str e)])) /\
  (forall date_str csv df e,
      is_weekend date_str = Ok false ->
      fetched env date_str = Some csv ->
      day_frame env csv = Ok df ->
      (common_table ∉ existing_tables_cache w) ->
      has_table_error env common_table = Some e ->
      process_single_date env date_str w
      = (Ok tt, add_events w [HttpGet (url_of date_str); HasTable common_table;
                              LogError (ProcessFailed date_str e)])) /\
  (forall date_str e,
      is_weekend date_str = Ok false ->
      requests_get env (url_of date_str) = Raise e ->
      process_single_date env date_str w
      = (Ok tt, add_events w [HttpGet (url_of date_str)])) /\
  (forall symbol data b w1 e,
      create_table env (stock_table symbol) w = (Ok b, w1) ->
      rbind (iloc0 data) (record_of symbol) = Raise e ->
      insert_data env symbol data w
      = (Ok false, add_events w1 [LogError (InsertFailed symbol e)])) /\
  (forall symbol data r b w1 e,
      create_table env (stock_table symbol) w = (Ok b, w1) ->
      rbind (iloc0 data) (record_of symbol) = Ok r ->
      insert_failure env (stock_table symbol) [r] w1 = Some e ->
      insert_data env symbol data w
      = (Ok false, add_events w1 [Insert (stock_table symbol) r;
                                  LogError (InsertFailed symbol e)])) /\
  (forall df records b w1 e,
      create_table env common_table w = (Ok b, w1) ->
      List.filter any_pattern df <> [] ->
      rmapM (fun row => record_of (Symbol (bar row)) row) (List.filter any_pattern df)
      = Ok records ->
      insert_failure env common_table records w1 = Some e ->
      bulk_insert_common env df w
      = (Ok tt, add_events w1 [BulkInsert common_table records;
                               LogError (BulkFailed common_table e)])) /\
  (forall fuel start_date end_date start end_,
      strptime_dmY start_date = Ok start ->
      strptime_dmY end_date = Ok end_ ->
      ORD_Y1000 <= toordinal start ->
      toordinal end_ < MAXORD ->
      (Z.to_nat (toordinal end_ - toordinal start + 1) <= fuel)%nat ->
      process_date_range env fuel start_date end_date w
      = Some (Ok tt, run_days env (Z.to_nat (toordinal end_ - toordinal start + 1))
                              (toordinal start) w) /\
      forall d, toordinal start <= d <= toordinal end_ ->
                In (Print (mkDatetime d))
                   (trace (run_days env (Z.to_nat (toordinal end_ - toordinal start + 1))
                                    (toordinal start) w))).
Proof.
  split; [|split; [|split; [|split; [|split; [|split; [|split; [|split]]]]]]].
  - intros date_str dt Hdt.
    assert (Hw : is_weekend date_str = Ok (5 <=? weekday dt))
      by (unfold is_weekend; rewrite Hdt; reflexivity).
    pose proof (process_single_date_returns env date_str _ w Hw) as Hr.
    pose proof (process_single_date_extends env date_str w) as He.
    destruct (process_single_date env date_str w) as [r w']. cbn [fst snd] in *. subst r.
    exists w'. split; [reflexivity | exact He].
  - intros date_str csv e Hw Hf Hd.
    rewrite process_single_date_closed. unfold process_single_date_spec.
    rewrite Hw, Hf, Hd. reflexivity.
  - intros date_str csv df e w' Hw Hf Hd Hp.
    rewrite process_single_date_closed. unfold process_single_date_spec.
    rewrite Hw, Hf, Hd. cbv zeta. rewrite Hp. reflexivity.
  - intros date_str csv df e Hw Hf Hd Hc He.
    rewrite process_single_date_closed. unfold process_single_date_spec.
    rewrite Hw, Hf, Hd. cbv zeta. unfold persist. unfold bind at 1.
    rewrite bulk_insert_common_closed.
    rewrite (guarded_failed env common_table _ _ e).
    + unfold check_failed, add_events. cbn [tables existing_tables_cache trace].
      rewrite <- !app_assoc. reflexivity.
    + unfold check_error. cbn [existing_tables_cache add_events].
      destruct (decide _); [contradiction | exact He].
  - intros date_str e Hw Hg.
    rewrite process_single_date_closed. unfold process_single_date_spec, fetched.
    rewrite Hw, Hg. reflexivity.
  - intros symbol data b w1 e Hcreate Hrec.
    apply create_table_returned in Hcreate. destruct Hcreate as [Hcheck ->].
    rewrite insert_data_answers by exact Hcheck. unfold insert_data_spec.
    rewrite Hrec. reflexivity.
  - intros symbol data r b w1 e Hcreate Hrec Hfail.
    apply create_table_returned in Hcreate. destruct Hcreate as [Hcheck ->].
    rewrite insert_data_answers by exact Hcheck. unfold insert_data_spec.
    rewrite Hrec. cbv zeta. unfold insert_failure in Hfail.
    destruct (tables _ !! stock_table symbol).
    + rewrite Hfail. reflexivity.
    + inversion Hfail. reflexivity.
  - intros df records b w1 e Hcreate Hne Hrec Hfail.
    apply create_table_returned in Hcreate. destruct Hcreate as [Hcheck ->].
    rewrite bulk_insert_common_answers by exact Hcheck. unfold bulk_insert_common_spec.
    destruct (List.filter any_pattern df) as [|row rows'] eqn:Hfilter; [congruence|].
    rewrite Hrec. cbv zeta. unfold insert_failure in Hfail.
    destruct (tables _ !! common_table).
    + rewrite Hfail. reflexivity.
    + inversion Hfail. reflexivity.
  - intros fuel start_date end_date [s] [e] Hs He Hlo Hhi Hfuel. cbn [toordinal] in *.
    unfold ORD_Y1000 in Hlo. split.
    + unfold process_date_range. rewrite Hs, He.
      apply date_loop_runs; [exact Hhi | lia | reflexivity | exact Hfuel].
    + intros d Hd. apply run_days_prints. lia.
Qed.

(** Friday 3 to Monday 6 January 2025 without network: four days, every
    one of them reached. *)
Lemma day_failures_contained_witness :
  strptime_dmY "03012025" = Ok (mkDatetime 739254) /\
  strptime_dmY "06012025" = Ok (mkDatetime 739257) /\
  process_date_range Samples.env_offline 4 "03012025" "06012025" init_world
  = Some (Ok tt, run_days Samples.env_offline 4 739254 init_world).
Proof.
  assert (H1 : strptime_dmY "03012025" = Ok (mkDatetime 739254)) by (vm_compute; reflexivity).
  assert (H2 : strptime_dmY "06012025" = Ok (mkDatetime 739257)) by (vm_compute; reflexivity).
  split; [exact H1|]. split; [exact H2|].
  refine (proj1 (proj2 (proj2 (proj2 (proj2 (proj2 (proj2 (proj2 (proj2
            (day_failures_contained Samples.env_offline init_world))))))))
            4%nat "03012025" "06012025" (mkDatetime 739254) (mkDatetime 739257)
            H1 H2 _ _ _)).
  - vm_compute. discriminate.
  - reflexivity.
  - vm_compute. lia.
Defined.

(** C9. For a date that is a Saturday or a Sunday, [is_weekend] answers
    true and [process_single_date] returns at once, the world as it
    was: no request is sent and no table is touched.  In a date range,
    such a day adds only its [print] to the trace before the loop moves
    on to the next day. *)
Theorem weekend_skipped (env : Env) (date_str : string) (dt : datetime) (w : World)
  (Hparse : strptime_dmY date_str = Ok dt)
  (Hweekend : weekday dt = 5 \/ weekday dt = 6) :
  is_weekend date_str = Ok true /\
  process_single_date env date_str w = (Ok tt, w) /\
  (forall fuel end_,
      ORD_Y1000 <= toordinal dt ->
      toordinal dt <= toordinal end_ ->
      toordinal end_ < MAXORD ->
      day_world env (toordinal dt) w = add_events w [Print dt] /\
      date_loop env (S fuel) end_ dt w
      = date_loop env fuel end_ (mkDatetime (toordinal dt + 1)) (add_events w [Print dt])).
Proof.
  assert (Hw : forall s d, strptime_dmY s = Ok d ->
                 weekday d = 5 \/ weekday d = 6 -> is_weekend s = Ok true).
  { intros s d Hs Hd. unfold is_weekend. rewrite Hs. cbn [rbind].
    rewrite (proj2 (Z.leb_le 5 (weekday d))) by lia. reflexivity. }
  assert (Hp : forall s d w0, strptime_dmY s = Ok d ->
                 weekday d = 5 \/ weekday d = 6 ->
                 process_single_date env s w0 = (Ok tt, w0)).
  { intros s d w0 Hs Hd. rewrite process_single_date_closed.
    unfold process_single_date_spec. rewrite (Hw s d Hs Hd). reflexivity. }
  split; [exact (Hw _ _ Hparse Hweekend)|].
  split; [exact (Hp _ _ _ Hparse Hweekend)|].
  intros fuel [e] Hlo Hle Hhi. destruct dt as [n]. cbn [toordinal] in *.
  unfold ORD_Y1000 in Hlo.
  assert (Hday : day_world env n w = add_events w [Print (mkDatetime n)]).
  { unfold day_world. rewrite (Hp _ (mkDatetime n)); [reflexivity | | exact Hweekend].
    apply strptime_strftime. lia. }
  split; [exact Hday|].
  rewrite date_loop_step by lia. rewrite Hday. reflexivity.
Qed.

(** Saturday 4 January 2025. *)
Lemma weekend_skipped_witness :
  strptime_dmY "04012025" = Ok (mkDatetime 739255) /\
  (weekday (mkDatetime 739255) = 5 \/ weekday (mkDatetime 739255) = 6) /\
  process_single_date Samples.env_ok "04012025" init_world = (Ok tt, init_world).
Proof.
  assert (H1 : strptime_dmY "04012025" = Ok (mkDatetime 739255)) by (vm_compute; reflexivity).
  assert (H2 : weekday (mkDatetime 739255) = 5 \/ weekday (mkDatetime 739255) = 6)
    by (left; vm_compute; reflexivity).
  split; [exact H1|]. split; [exact H2|].
  exact (proj1 (proj2 (weekend_skipped Samples.env_ok "04012025" (mkDatetime 739255)
                         init_world H1 H2))).
Defined.

End DriverClaims.

(** ** More on the encoder *)

Module DecodeProps.
Import CandlePatternRecognizer EncoderFacts EncoderProps EncoderClaims.

Lemma filter_sublist {A B} (f : A -> bool) (g : A -> B) (l : list A) :
  sublist (map g (List.filter f l)) (map g l).
Proof.
  induction l as [|x l IH]; cbn [List.filter map]; [constructor|].
  destruct (f x); cbn [map]; [apply sublist_skip | apply sublist_cons]; exact IH.
Qed.

Lemma catalog_names (talib : Talib) (df : list Bar) (i : nat) :
  map fst (catalog_fired talib df i) = pattern_names.
Proof. reflexivity. Qed.

Lemma pattern_names_NoDup : NoDup pattern_names.
Proof. apply (bool_decide_unpack _). vm_compute. exact I. Qed.

Lemma name_in_catalog (name : string) :
  In name pattern_names -> exists f, In (name, f) patterns.
Proof.
  unfold pattern_names, patterns. cbn [In]. intros H.
  repeat (destruct H as [<-|H]; [eexists; eauto 15|]). contradiction.
Qed.

(** X1. On every row [matched_patterns] holds exactly the catalog names
    whose detector is non-zero there, each once and in catalog order,
    and the twelve 0/1 columns are named by the catalog in order. *)
Theorem matched_patterns_exact (talib : Talib) (df : list Bar) (i : nat) (b : Bar)
  (Hi : df !! i = Some b) :
  exists rows row,
    apply_and_encode_patterns talib df = Ok rows /\
    rows !! i = Some row /\
    (forall name,
        In name (matched_patterns row)
        <-> In name pattern_names /\
            exists v, detector talib df name i = Ok v /\ v <> 0) /\
    sublist (matched_patterns row) pattern_names /\
    NoDup (matched_patterns row) /\
    map fst (flags row) = pattern_names.
Proof.
  exists (map (fun ib => encoded_row talib df (fst ib) (snd ib))
              (combine (seq 0 (length df)) df)), (encoded_row talib df i b).
  split; [apply apply_and_encode_closed|].
  split; [apply encoded_lookup; exact Hi|].
  cbn [matched_patterns flags encoded_row].
  assert (Hsub : sublist (map fst (List.filter snd (catalog_fired talib df i))) pattern_names).
  { rewrite <- (catalog_names talib df i). apply filter_sublist. }
  split; [|split; [exact Hsub|split]].
  - intros name. rewrite In_matched. unfold catalog_fired. rewrite in_map_iff. split.
    + intros ([n f] & Heq & Hin). cbn [fst snd] in Heq. inversion Heq; subst n.
      split; [apply (in_map fst) in Hin; exact Hin|].
      eexists. split; [apply (detector_patterns talib df i name f Hin)|].
      unfold fired in H1. apply negb_true_iff, Z.eqb_neq in H1. exact H1.
    + intros (Hn & v & Hv & Hne). destruct (name_in_catalog name Hn) as [f Hf].
      rewrite (detector_patterns talib df i name f Hf) in Hv. injection Hv as Hv.
      exists (name, f). split; [|exact Hf]. cbn [fst snd]. f_equal.
      unfold fired. rewrite Hv. apply negb_true_iff, Z.eqb_neq, Hne.
  - exact (sublist_NoDup _ _ pattern_names_NoDup Hsub).
  - rewrite map_map. reflexivity.
Qed.

Lemma matched_patterns_exact_witness :
  [Samples.abc_bar] !! 0%nat = Some Samples.abc_bar /\
  exists rows row,
    apply_and_encode_patterns Samples.talib_hammer [Samples.abc_bar] = Ok rows /\
    rows !! 0%nat = Some row /\
    (forall name,
        In name (matched_patterns row)
        <-> In name pattern_names /\
            exists v, detector Samples.talib_hammer [Samples.abc_bar] name 0 = Ok v /\ v <> 0) /\
    sublist (matched_patterns row) pattern_names /\
    NoDup (matched_patterns row) /\
    map fst (flags row) = pattern_names.
Proof.
  split; [reflexivity|].
  exact (matched_patterns_exact Samples.talib_hammer [Samples.abc_bar] 0 Samples.abc_bar
           eq_refl).
Defined.

Lemma filter_map_comm {A B} (f : B -> bool) (g : A -> B) (l : list A) :
  List.filter f (map g l) = map g (List.filter (fun x => f (g x)) l).
Proof.
  induction l as [|x l IH]; [reflexivity|]. cbn [map List.filter].
  destruct (f (g x)); cbn [map]; rewrite IH; reflexivity.
Qed.

Lemma fold_bits_zero (bits : list bool) (acc : Z) :
  0 <= acc ->
  (fold_left bits_step bits acc = 0 <-> acc = 0 /\ Forall (fun b => b = false) bits).
Proof.
  revert acc. induction bits as [|b bits IH]; intros acc Hacc; cbn [fold_left].
  - split; [intros ->; split; [reflexivity | constructor] | intros [-> _]; reflexivity].
  - assert (Hb : 0 <= Z.b2z b <= 1) by (destruct b; simpl; lia).
    unfold bits_step at 2. rewrite IH by lia. split.
    + intros [H0 Hall]. assert (acc = 0 /\ b = false) as [-> ->] by (destruct b; simpl in *; lia).
      split; [reflexivity | constructor; [reflexivity | exact Hall]].
    + intros [-> Hall]. inversion Hall; subst. split; [reflexivity | assumption].
Qed.

Lemma matched_nil (l : list (string * bool)) :
  map fst (List.filter snd l) = [] <-> Forall (fun b => b = false) (map snd l).
Proof.
  induction l as [|[n b] l IH]; cbn [List.filter map snd].
  - split; [constructor | reflexivity].
  - destruct b; cbn [map].
    + split; [discriminate | intros H; inversion H; discriminate].
    + rewrite IH. split; [intros H; constructor; [reflexivity | exact H]
                         | intros H; inversion H; assumption].
Qed.

Lemma decode_catalog_bits (talib : Talib) (df : list Bar) (i : nat) :
  decode_pattern_value (bits_value (map snd (catalog_fired talib df i)))
  = map fst (List.filter snd (catalog_fired talib df i)).
Proof.
  set (pv := bits_value (map snd (catalog_fired talib df i))).
  set (Z3 := combine (seq 0 12) (catalog_fired talib df i)).
  assert (H1 : combine (seq 0 12) pattern_names = map (fun x => (fst x, fst (snd x))) Z3)
    by reflexivity.
  assert (H2 : catalog_fired talib df i = map snd Z3) by reflexivity.
  unfold decode_pattern_value. rewrite H1, H2, !filter_map_comm, !map_map. cbn [fst snd].
  f_equal. apply filter_ext_in. intros [k [n f]] Hin. cbn [fst snd].
  unfold pv, bits_value. apply catalog_bit.
  unfold Z3, catalog_fired, patterns in Hin. cbn [map combine seq In] in Hin.
  repeat (destruct Hin as [Hin|Hin]; [inversion Hin; subst; reflexivity|]).
  contradiction.
Qed.

(** X2. The stored integer can be read back: the catalog names at the
    set bits of [pattern_value] are [matched_patterns], and
    [pattern_value] is 0 exactly when no pattern matched. *)
Theorem pattern_value_decodes (talib : Talib) (df : list Bar) (i : nat) (b : Bar)
  (Hi : df !! i = Some b) :
  exists rows row,
    apply_and_encode_patterns talib df = Ok rows /\
    rows !! i = Some row /\
    decode_pattern_value (pattern_value row) = matched_patterns row /\
    (pattern_value row = 0 <-> matched_patterns row = []).
Proof.
  exists (map (fun ib => encoded_row talib df (fst ib) (snd ib))
              (combine (seq 0 (length df)) df)), (encoded_row talib df i b).
  split; [apply apply_and_encode_closed|].
  split; [apply encoded_lookup; exact Hi|].
  cbn [pattern_value matched_patterns encoded_row].
  split; [apply decode_catalog_bits|].
  rewrite matched_nil. unfold bits_value. rewrite fold_bits_zero by lia.
  split; [intros [_ H]; exact H | intros H; split; [reflexivity | exact H]].
Qed.

Lemma pattern_value_decodes_witness :
  [Samples.abc_bar] !! 0%nat = Some Samples.abc_bar /\
  exists rows row,
    apply_and_encode_patterns Samples.talib_hammer [Samples.abc_bar] = Ok rows /\
    rows !! 0%nat = Some row /\
    decode_pattern_value (pattern_value row) = matched_patterns row /\
    (pattern_value row = 0 <-> matched_patterns row = []).
Proof.
  split; [reflexivity|].
  exact (pattern_value_decodes Samples.talib_hammer [Samples.abc_bar] 0 Samples.abc_bar
           eq_refl).
Defined.

End DecodeProps.

(** ** More on the database manager *)

Module StoreProps.
Import StockDatabaseManager StoreFacts UniquenessFacts RerunFacts RerunProps BlindFacts.

Local Abbreviation ins := insert_on_conflict_do_nothing.

(** X4. From a state whose cache names only existing tables,
    [create_table] raises exactly when the existence check does (the
    name is not cached and the server fails the check), and then only
    the check has happened.  Otherwise its answer says whether the
    table exists afterwards: after True it exists and its name is
    cached; after False it does not, tables and cache are as they were
    and the creation error is logged.  In every case the cache still
    names only existing tables and every table that existed keeps its
    rows. *)
Theorem create_table_reports_existence (env : Env) (t : string) (w : World)
  (Hc : consistent w) :
  exists r w',
    create_table env t w = (r, w') /\
    consistent w' /\
    (forall t' rows, tables w !! t' = Some rows -> tables w' !! t' = Some rows) /\
    (forall e, r = Raise e <->
               (t ∉ existing_tables_cache w) /\ has_table_error env t = Some e) /\
    (forall e, r = Raise e -> w' = add_events w [HasTable t]) /\
    (r = Ok true -> is_Some (tables w' !! t) /\ t ∈ existing_tables_cache w') /\
    (r = Ok false ->
       tables w' !! t = None /\
       tables w' = tables w /\ existing_tables_cache w' = existing_tables_cache w /\
       exists e, create_error env t = Some e /\
                 In (LogError (CreateFailed t e)) (trace w')).
Proof.
  rewrite create_table_closed. unfold guarded, check_error, check_failed.
  destruct (decide (t ∈ existing_tables_cache w)) as [Hin|Hin].
  - unfold create_table_spec.
    destruct (decide (t ∈ existing_tables_cache w)) as [_|Hn]; [|contradiction].
    cbn [fst snd]. do 2 eexists. split; [reflexivity|]. split; [exact Hc|].
    split; [auto|]. split; [intros e; split; [discriminate | intros [H _]; contradiction]|].
    split; [discriminate|]. split; [|discriminate].
    intros _. split; [apply Hc, Hin | exact Hin].
  - destruct (has_table_error env t) as [e0|] eqn:Hcheck.
    + do 2 eexists. split; [reflexivity|]. split; [exact Hc|]. split; [auto|].
      split; [intros e; split; [intros H; inversion H; auto | intros [_ H]; congruence]|].
      split; [reflexivity|]. split; discriminate.
    + do 2 eexists. split; [reflexivity|].
      split; [apply create_table_consistent, Hc|].
      unfold create_table_spec.
      destruct (decide (t ∈ existing_tables_cache w)) as [Hy|_]; [contradiction|].
      destruct (tables w !! t) as [rows|] eqn:Ht; cbn [fst snd tables existing_tables_cache].
      * split; [auto|].
        split; [intros e; split; [discriminate | intros [_ H]; discriminate]|].
        split; [discriminate|]. split; [|discriminate].
        intros _. split; [rewrite Ht; eauto | set_solver].
      * destruct (create_error env t) as [e|] eqn:He;
          cbn [fst snd tables existing_tables_cache trace add_events].
        -- split; [auto|].
           split; [intros e'; split; [discriminate | intros [_ H]; discriminate]|].
           split; [discriminate|]. split; [discriminate|].
           intros _. split; [exact Ht|]. split; [reflexivity|]. split; [reflexivity|].
           exists e. split; [reflexivity|]. apply in_or_app. right. cbn. auto.
        -- split; [intros t' rows Hr; rewrite lookup_insert_ne; [exact Hr | congruence]|].
           split; [intros e'; split; [discriminate | intros [_ H]; discriminate]|].
           split; [discriminate|]. split; [|discriminate].
           intros _. split; [rewrite lookup_insert_eq; eauto | set_solver].
Qed.

(** A server that refuses CREATE TABLE, and one that cannot be reached
    for the check. *)
Lemma create_table_reports_existence_witness :
  consistent init_world /\
  create_table Samples.env_no_ddl "stock_abc" init_world
  = (Ok false, add_events init_world
                 [HasTable "stock_abc"; CreateAll "stock_abc";
                  LogError (CreateFailed "stock_abc" (ProgrammingError "stock_abc"))]) /\
  exists w',
    create_table Samples.env_no_check "stock_abc" init_world
    = (Raise (DBAPIError "stock_abc"), w') /\
    w' = add_events init_world [HasTable "stock_abc"].
Proof.
  split; [apply init_world_consistent|]. split; [reflexivity|].
  destruct (create_table_reports_existence Samples.env_no_check "stock_abc" init_world
              init_world_consistent) as (r & w' & H1 & _ & _ & _ & H2 & _).
  assert (Hr : r = Raise (DBAPIError "stock_abc")).
  { vm_compute in H1. inversion H1. reflexivity. }
  subst r. exists w'. split; [exact H1 | exact (H2 _ eq_refl)].
Defined.

(** X5. A failure of the index DDL is logged and nothing more: when
    the existence check has found the table absent and the CREATE
    succeeded, the table has been created, [create_table] answers True
    and caches the name. *)
Theorem index_failure_is_not_fatal (env : Env) (t : string) (e : Exn) (w : World)
  (Hcache : t ∉ existing_tables_cache w)
  (Hcheck : has_table_error env t = None)
  (Habsent : tables w !! t = None)
  (Hcreate : create_error env t = None)
  (Hindex : index_error env t = Some e) :
  exists w',
    create_table env t w = (Ok true, w') /\
    tables w' = <[t := []]> (tables w) /\
    t ∈ existing_tables_cache w' /\
    trace w' = trace w ++ [HasTable t; CreateAll t; CreateIndexes t;
                           LogError (IndexesFailed t e)].
Proof.
  rewrite create_table_answers by (apply check_answers; right; exact Hcheck).
  unfold create_table_spec.
  destruct (decide (t ∈ existing_tables_cache w)); [contradiction|].
  rewrite Habsent, Hcreate. unfold index_events. rewrite Hindex. cbn [fst snd].
  eexists. split; [reflexivity|]. cbn [tables existing_tables_cache trace].
  split; [reflexivity|]. split; [set_solver | reflexivity].
Qed.

Lemma index_failure_is_not_fatal_witness :
  exists w',
    create_table MoreSamples.env_no_index "stock_abc" init_world = (Ok true, w') /\
    tables w' = <["stock_abc" := []]> (tables init_world) /\
    "stock_abc" ∈ existing_tables_cache w' /\
    trace w' = trace init_world ++
      [HasTable "stock_abc"; CreateAll "stock_abc"; CreateIndexes "stock_abc";
       LogError (IndexesFailed "stock_abc" (ProgrammingError "stock_abc"))].
Proof.
  apply (index_failure_is_not_fatal MoreSamples.env_no_index "stock_abc"
           (ProgrammingError "stock_abc") init_world).
  - cbn. set_solver.
  - reflexivity.
  - reflexivity.
  - reflexivity.
  - reflexivity.
Defined.

Lemma create_table_spec_true_cached (env : Env) (t : string) (w : World) :
  fst (create_table_spec env t w) = true ->
  t ∈ existing_tables_cache (snd (create_table_spec env t w)).
Proof.
  unfold create_table_spec.
  destruct (decide (t ∈ existing_tables_cache w)) as [Hc|Hc]; cbn [fst snd]; [auto|].
  destruct (tables w !! t); cbn [fst snd existing_tables_cache]; [set_solver|].
  destruct (create_error env t); cbn [fst snd existing_tables_cache];
    [discriminate | set_solver].
Qed.

Lemma create_table_spec_true_again (env : Env) (t : string) (w : World) :
  fst (create_table_spec env t w) = true ->
  create_table_spec env t (snd (create_table_spec env t w))
  = (true, snd (create_table_spec env t w)).
Proof.
  intros Hb. apply create_table_spec_true_cached in Hb.
  set (w1 := snd (create_table_spec env t w)) in *.
  unfold create_table_spec.
  destruct (decide (t ∈ existing_tables_cache w1)); [reflexivity | contradiction].
Qed.

(** X6. A successful [create_table] is remembered: once a call has
    answered True, in whatever state and for whatever reason, the same
    call again answers True and does nothing at all; the server is not
    asked, no DDL is sent and nothing is logged. *)
Theorem create_table_twice (env : Env) (t : string) (w : World)
  (Htrue : fst (create_table env t w) = Ok true) :
  create_table env t (snd (create_table env t w))
  = (Ok true, snd (create_table env t w)).
Proof.
  revert Htrue. rewrite (create_table_closed env t w). intros Hb.
  pose proof (guarded_returned _ _ _ _ _ Hb) as Hcheck.
  rewrite guarded_answers in Hb |- * by exact Hcheck. cbn [fst snd] in *.
  injection Hb as Hb.
  rewrite create_table_answers
    by (apply check_answers; left; apply create_table_spec_true_cached, Hb).
  rewrite (create_table_spec_true_again env t w Hb). reflexivity.
Qed.

Lemma create_table_twice_witness :
  fst (create_table Samples.env_ok "stock_abc" init_world) = Ok true /\
  create_table Samples.env_ok "stock_abc"
    (snd (create_table Samples.env_ok "stock_abc" init_world))
  = (Ok true, snd (create_table Samples.env_ok "stock_abc" init_world)).
Proof.
  assert (H : fst (create_table Samples.env_ok "stock_abc" init_world) = Ok true)
    by reflexivity.
  split; [exact H|].
  exact (create_table_twice Samples.env_ok "stock_abc" init_world H).
Defined.

(** X7. When the existence check answers, [insert_data] returns, and
    answers True exactly when its INSERT was executed: the group has a
    first row, its date converts, the table exists after
    [create_table] and the server accepts the statement.  True does not
    tell whether a row was added: the table afterwards is the table
    before with the record inserted unless its key was there.  False
    leaves every table as [create_table] left it and logs the cause
    with the symbol. *)
Theorem insert_data_true_iff_executed (env : Env) (symbol : string)
  (data : list EncodedRow) (w : World)
  (Hexact : forall row, iloc0 data = Ok row -> d_m_Y_exact (Date (bar row)) = true)
  (Hcheck : stock_table symbol ∈ existing_tables_cache w
            \/ has_table_error env (stock_table symbol) = None) :
  exists b w',
    insert_data env symbol data w = (Ok b, w') /\
    (b = true <->
     exists r rows,
       rbind (iloc0 data) (record_of symbol) = Ok r /\
       tables (snd (create_table env (stock_table symbol) w)) !! stock_table symbol
       = Some rows /\
       insert_error env (stock_table symbol) [r] = None /\
       tables w' !! stock_table symbol = Some (ins rows r)) /\
    (b = false ->
     tables w' = tables (snd (create_table env (stock_table symbol) w)) /\
     exists e, In (LogError (InsertFailed symbol e)) (trace w')).
Proof.
  apply check_answers in Hcheck.
  rewrite insert_data_answers, create_table_answers by exact Hcheck. cbn [snd].
  do 2 eexists. split; [reflexivity|].
  unfold insert_data_spec.
  set (w1 := snd (create_table_spec env (stock_table symbol) w)).
  destruct (rbind (iloc0 data) (record_of symbol)) as [r|e].
  - destruct (tables w1 !! stock_table symbol) as [rows|] eqn:Ht.
    + destruct (insert_error env (stock_table symbol) [r]) as [e|] eqn:Hins;
        cbn [fst snd tables add_events].
      * split.
        -- split; [discriminate|]. intros (r' & rows' & Hr & _ & H & _).
           inversion Hr; subst r'. congruence.
        -- intros _. split; [reflexivity|]. exists e. cbn [trace].
           apply in_or_app. right. right. left. reflexivity.
      * split; [|discriminate]. split; [|reflexivity]. intros _.
        exists r, rows. split; [reflexivity|]. split; [reflexivity|].
        split; [exact Hins | apply lookup_insert_eq].
    + cbn [fst snd tables add_events]. split.
      * split; [discriminate|]. intros (r' & rows & _ & H & _). discriminate.
      * intros _. split; [reflexivity|]. eexists. cbn [trace].
        apply in_or_app. right. right. left. reflexivity.
  - cbn [fst snd tables add_events]. split.
    + split; [discriminate|]. intros (r' & rows & H & _). discriminate.
    + intros _. split; [reflexivity|]. exists e. cbn [trace].
      apply in_or_app. right. left. reflexivity.
Qed.

(** ABC's row on a healthy server, and M&M's row on a server that
    cannot parse the unquoted table name. *)
Lemma insert_data_true_iff_executed_witness :
  (forall row, iloc0 [Samples.abc_row] = Ok row -> d_m_Y_exact (Date (bar row)) = true) /\
  (exists w', insert_data Samples.env_ok "ABC" [Samples.abc_row] init_world = (Ok true, w')) /\
  (exists w', insert_data Samples.env_raw_sql "M&M" [Samples.abc_row] init_world
              = (Ok false, w') /\
              tables w' !! stock_table "M&M" = Some []).
Proof.
  assert (H : forall row, iloc0 [Samples.abc_row] = Ok row ->
                          d_m_Y_exact (Date (bar row)) = true).
  { intros row Hrow. inversion Hrow; subst. reflexivity. }
  split; [exact H|]. split.
  - destruct (insert_data_true_iff_executed Samples.env_ok "ABC" [Samples.abc_row]
                init_world H (or_intror eq_refl)) as (b & w' & H1 & _).
    assert (Hb : b = true) by (vm_compute in H1; inversion H1; reflexivity).
    subst b. exists w'. exact H1.
  - destruct (insert_data_true_iff_executed Samples.env_raw_sql "M&M" [Samples.abc_row]
                init_world H (or_intror eq_refl)) as (b & w' & H1 & _ & H2).
    assert (Hb : b = false) by (vm_compute in H1; inversion H1; reflexivity).
    subst b. exists w'. split; [exact H1|].
    destruct (H2 eq_refl) as [-> _]. vm_compute. reflexivity.
Defined.

(** X8. When the existence check answers, an empty group or a first
    row whose date does not convert is answered False and logged, and
    no INSERT is sent; but [create_table] has already run, so the
    per-symbol table is there afterwards whenever the server lets it be
    created. *)
Theorem insert_data_bad_row (env : Env) (symbol : string) (data : list EncodedRow)
  (e : Exn) (w : World)
  (Hexact : forall row, iloc0 data = Ok row -> d_m_Y_exact (Date (bar row)) = true)
  (Hcheck : stock_table symbol ∈ existing_tables_cache w
            \/ has_table_error env (stock_table symbol) = None)
  (Hbad : rbind (iloc0 data) (record_of symbol) = Raise e) :
  insert_data env symbol data w
  = (Ok false, add_events (snd (create_table env (stock_table symbol) w))
                          [LogError (InsertFailed symbol e)]) /\
  (data = [] -> e = IndexError) /\
  (consistent w -> create_error env (stock_table symbol) = None ->
   is_Some (tables (snd (insert_data env symbol data w)) !! stock_table symbol)).
Proof.
  apply check_answers in Hcheck.
  rewrite insert_data_answers, create_table_answers by exact Hcheck.
  unfold insert_data_spec.
  rewrite Hbad. cbn [fst snd]. split; [reflexivity|]. split.
  - intros ->. cbn in Hbad. congruence.
  - intros Hc He. cbn [tables add_events].
    rewrite (create_table_tables env _ w Hc), He.
    destruct (tables w !! stock_table symbol) as [rows|] eqn:Ht.
    + rewrite Ht. eauto.
    + rewrite lookup_insert_eq. eauto.
Qed.

(** ABC's row dated "2025-01-01", which is not DD-MM-YYYY. *)
Lemma insert_data_bad_row_witness :
  (forall row, iloc0 [MoreSamples.abc_bad_date_row] = Ok row ->
               d_m_Y_exact (Date (bar row)) = true) /\
  rbind (iloc0 [MoreSamples.abc_bad_date_row]) (record_of "ABC")
  = Raise (Calendar.bad_format "2025-01-01") /\
  insert_data Samples.env_ok "ABC" [MoreSamples.abc_bad_date_row] init_world
  = (Ok false, add_events (snd (create_table Samples.env_ok (stock_table "ABC") init_world))
                 [LogError (InsertFailed "ABC" (Calendar.bad_format "2025-01-01"))]).
Proof.
  assert (H1 : forall row, iloc0 [MoreSamples.abc_bad_date_row] = Ok row ->
                           d_m_Y_exact (Date (bar row)) = true).
  { intros row Hrow. inversion Hrow; subst. reflexivity. }
  assert (H2 : rbind (iloc0 [MoreSamples.abc_bad_date_row]) (record_of "ABC")
               = Raise (Calendar.bad_format "2025-01-01")) by (vm_compute; reflexivity).
  split; [exact H1|]. split; [exact H2|].
  exact (proj1 (insert_data_bad_row Samples.env_ok "ABC" [MoreSamples.abc_bad_date_row]
                  _ init_world H1 (or_intror eq_refl) H2)).
Defined.

Lemma rmapM_raises {A B} (f : A -> Result B) (l : list A) (x : A) (e : Exn) :
  In x l -> f x = Raise e ->
  exists before x' after e',
    l = before ++ x' :: after /\
    Forall (fun y => exists b, f y = Ok b) before /\
    f x' = Raise e' /\ rmapM f l = Raise e'.
Proof.
  induction l as [|y l IH]; intros Hin Hx; [destruct Hin|]. cbn [rmapM].
  destruct (f y) as [b|e0] eqn:Hy.
  - destruct Hin as [->|Hin]; [congruence|].
    destruct (IH Hin Hx) as (before & x' & after & e' & Hl & Hb & Hx' & Hr).
    exists (y :: before), x', after, e'. split; [rewrite Hl; reflexivity|].
    split; [constructor; eauto|]. split; [exact Hx'|].
    cbn [rbind]. rewrite Hr. reflexivity.
  - exists [], y, l, e0. split; [reflexivity|]. split; [constructor|].
    split; [exact Hy | reflexivity].
Qed.

(** X9. One row with a matched pattern and a date that does not
    convert makes [bulk_insert_common] raise: the records are built
    outside its try block.  When the existence check answers, the
    exception is that of the first such row, in frame order; by then
    [create_table] has run, no INSERT is sent and nothing is logged
    about the batch. *)
Theorem bulk_insert_common_bad_date (env : Env) (df : list EncodedRow) (row : EncodedRow)
  (e : Exn) (w : World)
  (Hexact : Forall (fun row => d_m_Y_exact (Date (bar row)) = true)
                   (List.filter any_pattern df))
  (Hcheck : common_table ∈ existing_tables_cache w
            \/ has_table_error env common_table = None)
  (Hin : In row df)
  (Hpattern : any_pattern row = true)
  (Hbad : record_of (Symbol (bar row)) row = Raise e) :
  exists before row' after e',
    List.filter any_pattern df = before ++ row' :: after /\
    Forall (fun x => exists r, record_of (Symbol (bar x)) x = Ok r) before /\
    record_of (Symbol (bar row')) row' = Raise e' /\
    bulk_insert_common env df w = (Raise e', snd (create_table env common_table w)).
Proof.
  assert (Hf : In row (List.filter any_pattern df)) by (apply filter_In; auto).
  destruct (rmapM_raises (fun row => record_of (Symbol (bar row)) row) _ row e Hf Hbad)
    as (before & row' & after & e' & Hl & Hb & Hbad' & Hr).
  exists before, row', after, e'. split; [exact Hl|]. split; [exact Hb|].
  split; [exact Hbad'|].
  apply check_answers in Hcheck.
  rewrite bulk_insert_common_answers, create_table_answers by exact Hcheck.
  unfold bulk_insert_common_spec. cbv zeta. cbn [snd].
  destruct (List.filter any_pattern df) as [|r0 rs] eqn:Hfl; [destruct Hf|].
  rewrite Hr. reflexivity.
Qed.

Lemma bulk_insert_common_bad_date_witness :
  Forall (fun row => d_m_Y_exact (Date (bar row)) = true)
         (List.filter any_pattern [Samples.abc_row; MoreSamples.abc_bad_date_row]) /\
  bulk_insert_common Samples.env_ok [Samples.abc_row; MoreSamples.abc_bad_date_row]
    init_world
  = (Raise (Calendar.bad_format "2025-01-01"),
     snd (create_table Samples.env_ok common_table init_world)).
Proof.
  assert (H : Forall (fun row => d_m_Y_exact (Date (bar row)) = true)
                (List.filter any_pattern [Samples.abc_row; MoreSamples.abc_bad_date_row]))
    by (repeat constructor).
  split; [exact H|].
  destruct (bulk_insert_common_bad_date Samples.env_ok
              [Samples.abc_row; MoreSamples.abc_bad_date_row]
              MoreSamples.abc_bad_date_row
              (Calendar.bad_format "2025-01-01") init_world H (or_intror eq_refl)
              (or_intror (or_introl eq_refl)) eq_refl ltac:(vm_compute; reflexivity))
    as (before & row' & after & e' & _ & _ & _ & Hcall).
  rewrite Hcall. vm_compute in Hcall. inversion Hcall. reflexivity.
Defined.

Lemma filter_twice {A} (f : A -> bool) (l : list A) :
  List.filter f (List.filter f l) = List.filter f l.
Proof.
  induction l as [|x l IH]; [reflexivity|]. cbn [List.filter].
  destruct (f x) eqn:Hx; [cbn [List.filter]; rewrite Hx, IH; reflexivity | exact IH].
Qed.

(** X10. Rows without a matched pattern do not exist for
    [bulk_insert_common]: the call on a frame is the call on its rows
    with a pattern, in every world, result and effects alike. *)
Theorem bulk_insert_common_ignores_plain_rows (env : Env) (df : list EncodedRow) (w : World) :
  bulk_insert_common env df w = bulk_insert_common env (List.filter any_pattern df) w.
Proof.
  rewrite !bulk_insert_common_closed.
  unfold bulk_insert_common_answered, bulk_insert_common_spec.
  rewrite filter_twice. reflexivity.
Qed.

Lemma fold_ins_sublist (rs rows : list Rec.t) :
  exists added,
    fold_left ins rs rows = rows ++ added /\ sublist added rs /\
    forall r, In r added -> has_key rows (Rec.key r) = false.
Proof.
  revert rows. induction rs as [|r rs IH]; intros rows.
  - exists []. split; [symmetry; apply app_nil_r|]. split; [constructor | intros r []].
  - cbn [fold_left]. unfold ins at 2. fold (has_key rows (Rec.key r)).
    destruct (has_key rows (Rec.key r)) eqn:Hk.
    + destruct (IH rows) as (added & Hf & Hs & Ha). exists added.
      split; [exact Hf|]. split; [apply sublist_cons, Hs | exact Ha].
    + destruct (IH (rows ++ [r])) as (added & Hf & Hs & Ha). exists (r :: added).
      split; [rewrite Hf, <- app_assoc; reflexivity|].
      split; [apply sublist_skip, Hs|].
      intros r' [<-|Hr']; [exact Hk|].
      specialize (Ha r' Hr'). rewrite has_key_app in Ha.
      apply orb_false_iff in Ha. apply Ha.
Qed.

(** X11. The count [bulk_insert_common] logs is the size of the batch
    it sent, not the number of rows the table gained: when the
    existence check answers and the server accepts the INSERT, the rows
    added are a sub-sequence of the batch, those whose key was absent,
    and "Bulk inserted N records" is logged with N the batch size even
    when every row was skipped. *)
Theorem bulk_insert_common_logs_batch_size (env : Env) (df : list EncodedRow)
  (records rows : list Rec.t) (w : World)
  (Hrecords : rmapM (fun row => record_of (Symbol (bar row)) row)
                    (List.filter any_pattern df) = Ok records)
  (Hsome : records <> [])
  (Htable : tables w !! common_table = Some rows)
  (Hcheck : common_table ∈ existing_tables_cache w
            \/ has_table_error env common_table = None)
  (Hinsert : insert_error env common_table records = None) :
  exists w' added,
    bulk_insert_common env df w = (Ok tt, w') /\
    tables w' !! common_table = Some (rows ++ added) /\
    sublist added records /\
    (forall r, In r added -> has_key rows (Rec.key r) = false) /\
    ((forall r, In r records -> has_key rows (Rec.key r) = true) -> added = []) /\
    trace w' = trace (snd (create_table env common_table w))
               ++ [BulkInsert common_table records;
                   LogInfo (BulkInserted (length records) common_table)].
Proof.
  apply check_answers in Hcheck.
  rewrite bulk_insert_common_answers, create_table_answers by exact Hcheck.
  unfold bulk_insert_common_spec.
  cbv zeta. cbn [snd].
  pose proof (IdempotenceClaim.create_table_existing env _ rows w Htable) as Hc.
  set (w1 := snd (create_table_spec env common_table w)) in *.
  destruct (List.filter any_pattern df) as [|row rows'] eqn:Hf.
  { cbn [rmapM] in Hrecords. congruence. }
  rewrite Hrecords, Hc, Htable, Hinsert.
  destruct (fold_ins_sublist records rows) as (added & Hfold & Hsub & Hadded).
  eexists. exists added. split; [reflexivity|]. cbn [tables trace].
  split; [rewrite lookup_insert_eq, Hfold; reflexivity|].
  split; [exact Hsub|]. split; [exact Hadded|]. split; [|reflexivity].
  intros Hall. destruct added as [|r added]; [reflexivity|].
  specialize (Hadded r (or_introl eq_refl)).
  rewrite Hall in Hadded; [discriminate|].
  apply list_elem_of_In. apply (elem_of_sublist (r :: added)); [|exact Hsub].
  apply list_elem_of_In. left. reflexivity.
Qed.

(** The batch of one row sent again: nothing is added, one record is
    logged as inserted. *)
Lemma bulk_insert_common_logs_batch_size_witness :
  rmapM (fun row => record_of (Symbol (bar row)) row)
        (List.filter any_pattern [Samples.abc_row]) = Ok [Samples.abc_rec] /\
  [Samples.abc_rec] <> [] /\
  tables MoreSamples.world_common !! common_table = Some [Samples.abc_rec] /\
  exists w' added,
    bulk_insert_common Samples.env_ok [Samples.abc_row] MoreSamples.world_common
    = (Ok tt, w') /\
    tables w' !! common_table = Some ([Samples.abc_rec] ++ added) /\
    added = [] /\
    trace w' = trace (snd (create_table Samples.env_ok common_table MoreSamples.world_common))
               ++ [BulkInsert common_table [Samples.abc_rec];
                   LogInfo (BulkInserted 1 common_table)].
Proof.
  assert (H1 : rmapM (fun row => record_of (Symbol (bar row)) row)
                     (List.filter any_pattern [Samples.abc_row]) = Ok [Samples.abc_rec])
    by (vm_compute; reflexivity).
  assert (H2 : [Samples.abc_rec] <> []) by discriminate.
  assert (H3 : tables MoreSamples.world_common !! common_table = Some [Samples.abc_rec])
    by (vm_compute; reflexivity).
  split; [exact H1|]. split; [exact H2|]. split; [exact H3|].
  destruct (bulk_insert_common_logs_batch_size Samples.env_ok [Samples.abc_row]
              [Samples.abc_rec] [Samples.abc_rec] MoreSamples.world_common H1 H2 H3
              (or_intror eq_refl) eq_refl)
    as (w' & added & Hb & Ht & _ & _ & Hnone & Htr).
  exists w', added. split; [exact Hb|]. split; [exact Ht|]. split; [|exact Htr].
  apply Hnone. intros r [<-|[]]. vm_compute. reflexivity.
Defined.




(** Tables only grow. *)
Lemma grows_refl (w : World) : grows w w.
Proof. intros t rows H. exists []. rewrite app_nil_r. exact H. Qed.

Lemma grows_trans (w1 w2 w3 : World) : grows w1 w2 -> grows w2 w3 -> grows w1 w3.
Proof.
  intros H12 H23 t rows H. destruct (H12 t rows H) as (a1 & H1).
  destruct (H23 t _ H1) as (a2 & H2). exists (a1 ++ a2). rewrite H2, app_assoc. reflexivity.
Qed.

Lemma grows_same (w w' : World) : tables w' = tables w -> grows w w'.
Proof. intros HT t rows H. exists []. rewrite app_nil_r, HT. exact H. Qed.

Lemma create_table_grows (env : Env) (t : string) (w : World) :
  grows w (snd (create_table_spec env t w)).
Proof.
  unfold create_table_spec.
  destruct (decide (t ∈ existing_tables_cache w)); [apply grows_refl|].
  destruct (tables w !! t) eqn:Ht; [apply grows_same; reflexivity|].
  destruct (create_error env t); [apply grows_same; reflexivity|].
  intros t' rows H. exists []. rewrite app_nil_r. cbn [snd tables].
  rewrite lookup_insert_ne by congruence. exact H.
Qed.

Lemma writes_grows {A} (env : Env) (t : string) (rs : list Rec.t) (m : M A) :
  writes env t rs m -> forall w, grows w (snd (m w)).
Proof.
  intros Hm w. destruct (Hm w) as [HT _].
  eapply grows_trans; [apply (create_table_grows env t)|].
  intros t' rows H. rewrite HT. unfold write_rows.
  destruct (tables (snd (create_table_spec env t w)) !! t) as [rows0|] eqn:Ht0.
  - destruct (decide (t = t')) as [<-|Hne].
    + rewrite lookup_insert_eq.
      destruct (fold_ins_sublist rs rows0) as (added & Hf & _).
      exists added. rewrite Hf. congruence.
    + rewrite lookup_insert_ne by exact Hne. exists []. rewrite app_nil_r. exact H.
  - exists []. rewrite app_nil_r. exact H.
Qed.

Lemma seq_grows {A B} (m : M A) (k : M B) :
  (forall w, grows w (snd (m w))) -> (forall w, grows w (snd (k w))) ->
  forall w, grows w (snd ((m ;;; k) w)).
Proof.
  intros Hm Hk w. rewrite seq_world. destruct (raises m w); [apply Hm|].
  eapply grows_trans; [apply Hm | apply Hk].
Qed.

Lemma insert_data_grows (env : Env) (symbol : string) (data : list EncodedRow) (w : World) :
  grows w (snd (insert_data env symbol data w)).
Proof.
  rewrite insert_data_closed. apply guarded_world; [apply grows_same; reflexivity|].
  apply (writes_grows env _ _ _ (insert_data_answered_writes env symbol data)).
Qed.

Lemma bulk_insert_common_grows (env : Env) (df : list EncodedRow) (w : World) :
  grows w (snd (bulk_insert_common env df w)).
Proof.
  rewrite bulk_insert_common_closed. apply guarded_world; [apply grows_same; reflexivity|].
  apply (writes_grows env _ _ _ (bulk_insert_common_answered_writes env df)).
Qed.

Lemma persist_grows (env : Env) (df : list EncodedRow) (w : World) :
  grows w (snd (persist env df w)).
Proof.
  revert w. unfold persist.
  apply seq_grows; [apply bulk_insert_common_grows|].
  induction (StockDataDownloader.groupby_Symbol df) as [|sg l IH]; cbn [for_each].
  - intros w. apply grows_refl.
  - apply seq_grows; [|exact IH].
    apply seq_grows; [|intros w; apply grows_refl].
    apply insert_data_grows.
Qed.

End StoreProps.

(** ** More on the downloader *)

Module RangeProps.
Import Calendar StockDatabaseManager StockDataDownloader StoreFacts RerunFacts RerunProps
  DayFacts BlindFacts CalendarFacts DriverFacts StoreProps.

Lemma process_single_date_grows (env : Env) (date_str : string) (w : World) :
  grows w (snd (process_single_date env date_str w)).
Proof.
  rewrite process_single_date_closed. unfold process_single_date_spec.
  destruct (is_weekend date_str) as [[|]|e]; [apply grows_refl | | apply grows_refl].
  destruct (fetched env date_str) as [csv|]; [|apply grows_same; reflexivity].
  destruct (day_frame env csv) as [df|e]; [|apply grows_same; reflexivity].
  pose proof (persist_grows env df (add_events w [HttpGet (url_of date_str)])) as Hp.
  destruct (persist env df _) as [[[]|e] w']; cbn [snd] in *; exact Hp.
Qed.

Lemma date_loop_grows (env : Env) (fuel : nat) :
  forall (end_ current : datetime) (w : World) (r : Result unit) (w' : World),
    date_loop env fuel end_ current w = Some (r, w') -> grows w w'.
Proof.
  induction fuel as [|fuel IH]; intros end_ current w r w'; cbn [date_loop].
  - destruct (le current end_); [discriminate|]. intros H. inversion H. apply grows_refl.
  - destruct (le current end_); [|intros H; inversion H; apply grows_refl].
    unfold bind at 1. unfold emit at 1. fold (add_events w [Print current]).
    unfold bind at 1.
    pose proof (process_single_date_grows env (strftime_dmY current)
                  (add_events w [Print current])) as Hg.
    destruct (process_single_date env _ _) as [[[]|e] w1]; cbn [snd] in Hg.
    + unfold lift. destruct (add_days current 1) as [next|e].
      * intros H. eapply grows_trans; [exact Hg | eapply IH, H].
      * intros H. inversion H; subst. exact Hg.
    + intros H. inversion H; subst. exact Hg.
Qed.

(** X13. The program only ever appends: after [process_single_date],
    and after [process_date_range] however it ends, every table that
    existed is still there with the rows it had, in place and
    unchanged, possibly followed by new ones.  No row is updated or
    deleted and no table dropped. *)
Theorem tables_only_grow (env : Env) (w : World) :
  (forall date_str, grows w (snd (process_single_date env date_str w))) /\
  (forall fuel start_date end_date r w',
      process_date_range env fuel start_date end_date w = Some (r, w') -> grows w w').
Proof.
  split; [intros d; apply process_single_date_grows|].
  intros fuel start_date end_date r w'. unfold process_date_range.
  destruct (strptime_dmY start_date) as [s|e];
    [|intros H; inversion H; apply grows_refl].
  destruct (strptime_dmY end_date) as [e|e'];
    [|intros H; inversion H; apply grows_refl].
  apply date_loop_grows.
Qed.

(** X14. A date string that does not parse is not caught:
    [is_weekend] sits before the try block, so [process_single_date]
    raises the ValueError with nothing done, and [process_date_range]
    raises on a bad start or end date before any day is processed. *)
Theorem unparseable_date_propagates (env : Env) (w : World) :
  (forall date_str e,
      dmY_exact date_str = true ->
      strptime_dmY date_str = Raise e ->
      process_single_date env date_str w = (Raise e, w)) /\
  (forall fuel start_date end_date e,
      dmY_exact start_date = true ->
      strptime_dmY start_date = Raise e ->
      process_date_range env fuel start_date end_date w = Some (Raise e, w)) /\
  (forall fuel start_date end_date start e,
      dmY_exact end_date = true ->
      strptime_dmY start_date = Ok start ->
      strptime_dmY end_date = Raise e ->
      process_date_range env fuel start_date end_date w = Some (Raise e, w)).
Proof.
  split; [|split].
  - intros date_str e _ H. rewrite process_single_date_closed.
    unfold process_single_date_spec, is_weekend. rewrite H. reflexivity.
  - intros fuel s e0 e _ H. unfold process_date_range. rewrite H. reflexivity.
  - intros fuel s e0 start e _ Hs H. unfold process_date_range. rewrite Hs, H. reflexivity.
Qed.

(** 31 February, and a date written with dashes. *)
Lemma unparseable_date_propagates_witness :
  dmY_exact "31022025" = true /\
  dmY_exact "2025-01-03" = true /\
  (exists e, process_single_date Samples.env_ok "31022025" init_world = (Raise e, init_world)) /\
  (exists e, process_single_date Samples.env_ok "2025-01-03" init_world = (Raise e, init_world)).
Proof.
  split; [reflexivity|]. split; [reflexivity|]. split.
  - eexists. apply (proj1 (unparseable_date_propagates Samples.env_ok init_world));
      vm_compute; reflexivity.
  - eexists. apply (proj1 (unparseable_date_propagates Samples.env_ok init_world));
      vm_compute; reflexivity.
Defined.

(** X15. When no file comes back (the request raises, the status is
    not 200, or the body does not decode), a weekday leaves the request
    in the trace and nothing else: no table is looked up or created,
    nothing is logged, nothing is raised. *)
Theorem no_file_no_write (env : Env) (date_str : string) (w : World)
  (Hweekday : is_weekend date_str = Ok false)
  (Hnofile :
     (exists e, requests_get env (url_of date_str) = Raise e) \/
     (exists response, requests_get env (url_of date_str) = Ok response /\
                       (status_code response <> 200 \/
                        exists e, content response = Raise e))) :
  download_csv env date_str w = (Ok None, add_events w [HttpGet (url_of date_str)]) /\
  process_single_date env date_str w = (Ok tt, add_events w [HttpGet (url_of date_str)]).
Proof.
  assert (Hf : fetched env date_str = None).
  { unfold fetched. destruct Hnofile as [[e ->]|(resp & -> & H)]; [reflexivity|].
    destruct (Z.eqb_spec (status_code resp) 200) as [H200|H200]; [|reflexivity].
    destruct H as [H|[e ->]]; [contradiction | reflexivity]. }
  split; [rewrite download_csv_closed, Hf; reflexivity|].
  rewrite process_single_date_closed. unfold process_single_date_spec.
  rewrite Hweekday, Hf. reflexivity.
Qed.

Lemma no_file_no_write_witness :
  is_weekend "03012025" = Ok false /\
  process_single_date MoreSamples.env_not_found "03012025" init_world
  = (Ok tt, add_events init_world [HttpGet (url_of "03012025")]).
Proof.
  assert (H : is_weekend "03012025" = Ok false) by (vm_compute; reflexivity).
  split; [exact H|].
  apply (no_file_no_write MoreSamples.env_not_found "03012025" init_world H).
  right. eexists. split; [reflexivity|]. left. cbn. discriminate.
Defined.










(** Requests and prints. *)
Lemma create_table_quiet (env : Env) (t : string) (w : World) :
  exists evs, trace (snd (create_table_spec env t w)) = trace w ++ evs /\
              List.filter is_driver_event evs = [].
Proof.
  unfold create_table_spec.
  destruct (decide (t ∈ existing_tables_cache w)).
  { exists []. split; [symmetry; apply app_nil_r | reflexivity]. }
  destruct (tables w !! t); [eexists; split; reflexivity|].
  destruct (create_error env t); [eexists; split; reflexivity|].
  unfold index_events. destruct (index_error env t); eexists; split; reflexivity.
Qed.

Lemma quiet_after {A} (env : Env) (t : string) (m : M A) (tail : World -> list Event) :
  (forall w, trace (snd (m w)) = trace (snd (create_table_spec env t w)) ++ tail w) ->
  (forall w, List.filter is_driver_event (tail w) = []) ->
  quiet m.
Proof.
  intros Hm Ht w. destruct (create_table_quiet env t w) as (evs & He & Hf).
  exists (evs ++ tail w). split.
  - rewrite Hm, He, app_assoc. reflexivity.
  - rewrite List.filter_app, Hf, Ht. reflexivity.
Qed.

Lemma guarded_quiet {A} (env : Env) (t : string) (m k : M A) :
  (forall w, m w = guarded env t w (k w)) -> quiet k -> quiet m.
Proof.
  intros Hm Hk w. rewrite Hm. apply guarded_world; [|apply Hk].
  exists [HasTable t]. split; reflexivity.
Qed.

Lemma insert_data_quiet (env : Env) (symbol : string) (data : list EncodedRow) :
  quiet (insert_data env symbol data).
Proof.
  apply (guarded_quiet env (stock_table symbol) _ (insert_data_answered env symbol data));
    [intros w; apply insert_data_closed|].
  apply (quiet_after env (stock_table symbol) _
           (fun w =>
              let w1 := snd (create_table_spec env (stock_table symbol) w) in
              match rbind (iloc0 data) (record_of symbol) with
              | Raise e => [LogError (InsertFailed symbol e)]
              | Ok r =>
                  match tables w1 !! stock_table symbol with
                  | None => [Insert (stock_table symbol) r;
                             LogError (InsertFailed symbol
                                         (ProgrammingError (stock_table symbol)))]
                  | Some _ =>
                      match insert_error env (stock_table symbol) [r] with
                      | Some e => [Insert (stock_table symbol) r;
                                   LogError (InsertFailed symbol e)]
                      | None => [Insert (stock_table symbol) r]
                      end
                  end
              end)).
  - intros w. unfold insert_data_answered, insert_data_spec. cbv zeta. cbn [snd].
    destruct (rbind (iloc0 data) (record_of symbol)) as [r|e]; [|reflexivity].
    destruct (tables _ !! stock_table symbol); [|reflexivity].
    destruct (insert_error env (stock_table symbol) [r]); reflexivity.
  - intros w. cbv zeta.
    destruct (rbind (iloc0 data) (record_of symbol)) as [r|e]; [|reflexivity].
    destruct (tables _ !! stock_table symbol); [|reflexivity].
    destruct (insert_error env (stock_table symbol) [r]); reflexivity.
Qed.

Lemma bulk_insert_common_quiet (env : Env) (df : list EncodedRow) :
  quiet (bulk_insert_common env df).
Proof.
  apply (guarded_quiet env common_table _ (bulk_insert_common_answered env df));
    [intros w; apply bulk_insert_common_closed|].
  apply (quiet_after env common_table _
           (fun w =>
              let w1 := snd (create_table_spec env common_table w) in
              match List.filter any_pattern df with
              | [] => []
              | l =>
                  match rmapM (fun row => record_of (Symbol (bar row)) row) l with
                  | Raise _ => []
                  | Ok records =>
                      match tables w1 !! common_table with
                      | None => [BulkInsert common_table records;
                                 LogError (BulkFailed common_table
                                             (ProgrammingError common_table))]
                      | Some _ =>
                          match insert_error env common_table records with
                          | Some e => [BulkInsert common_table records;
                                       LogError (BulkFailed common_table e)]
                          | None => [BulkInsert common_table records;
                                     LogInfo (BulkInserted (length records) common_table)]
                          end
                      end
                  end
              end)).
  - intros w. unfold bulk_insert_common_answered, bulk_insert_common_spec. cbv zeta.
    destruct (List.filter any_pattern df); [symmetry; apply app_nil_r|].
    destruct (rmapM _ _) as [records|e0]; [|symmetry; apply app_nil_r].
    destruct (tables _ !! common_table); [|reflexivity].
    destruct (insert_error env common_table records); reflexivity.
  - intros w. cbv zeta. destruct (List.filter any_pattern df); [reflexivity|].
    destruct (rmapM _ _) as [records|e0]; [|reflexivity].
    destruct (tables _ !! common_table); [|reflexivity].
    destruct (insert_error env common_table records); reflexivity.
Qed.

Lemma ret_quiet {A} (a : A) : quiet (ret a).
Proof. intros w. exists []. split; [symmetry; apply app_nil_r | reflexivity]. Qed.

Lemma seq_quiet {A B} (m : M A) (k : M B) : quiet m -> quiet k -> quiet (m ;;; k).
Proof.
  intros Hm Hk w. rewrite seq_world. destruct (raises m w); [apply Hm|].
  destruct (Hm w) as (e1 & H1 & F1). destruct (Hk (snd (m w))) as (e2 & H2 & F2).
  exists (e1 ++ e2). split; [rewrite H2, H1, app_assoc; reflexivity|].
  rewrite List.filter_app, F1, F2. reflexivity.
Qed.

Lemma persist_quiet (env : Env) (df : list EncodedRow) : quiet (persist env df).
Proof.
  unfold persist. apply seq_quiet; [apply bulk_insert_common_quiet|].
  induction (groupby_Symbol df) as [|sg l IH]; cbn [for_each]; [apply ret_quiet|].
  apply seq_quiet; [|exact IH].
  apply seq_quiet; [apply insert_data_quiet | apply ret_quiet].
Qed.

Lemma process_single_date_requests (env : Env) (date_str : string) (b : bool) (w : World) :
  is_weekend date_str = Ok b ->
  exists evs,
    trace (snd (process_single_date env date_str w)) = trace w ++ evs /\
    List.filter is_driver_event evs = if b then [] else [HttpGet (url_of date_str)].
Proof.
  intros Hw. rewrite process_single_date_closed. unfold process_single_date_spec.
  rewrite Hw. destruct b.
  { exists []. split; [symmetry; apply app_nil_r | reflexivity]. }
  cbv zeta. destruct (fetched env date_str) as [csv|]; [|eexists; split; reflexivity].
  destruct (day_frame env csv) as [df|e].
  - destruct (persist_quiet env df (add_events w [HttpGet (url_of date_str)]))
      as (evs & He & Hf).
    destruct (persist env df _) as [[[]|e] w']; cbn [snd trace add_events] in *.
    + exists (HttpGet (url_of date_str) :: evs).
      split; [rewrite He, <- app_assoc; reflexivity|].
      cbn [List.filter is_driver_event]. rewrite Hf. reflexivity.
    + exists (HttpGet (url_of date_str) :: evs ++ [LogError (ProcessFailed date_str e)]).
      split; [rewrite He, <- !app_assoc; reflexivity|].
      cbn [List.filter is_driver_event]. rewrite List.filter_app, Hf. reflexivity.
  - eexists. cbn [snd trace add_events]. split; [rewrite <- app_assoc; reflexivity|].
    reflexivity.
Qed.

Lemma day_world_requests (env : Env) (n : Z) (w : World) :
  1 <= n <= MAXORD ->
  exists evs,
    trace (day_world env n w) = trace w ++ evs /\
    List.filter is_driver_event evs = day_driver_events n.
Proof.
  intros Hn. unfold day_world.
  destruct (process_single_date_requests env _ _ (add_events w [Print (mkDatetime n)])
              (is_weekend_strftime n Hn)) as (evs & He & Hf).
  exists (Print (mkDatetime n) :: evs). cbn [trace add_events] in He.
  split; [rewrite He, <- app_assoc; reflexivity|].
  cbn [List.filter is_driver_event]. rewrite Hf. unfold day_driver_events.
  destruct (5 <=? weekday (mkDatetime n)); reflexivity.
Qed.

Lemma run_days_requests (env : Env) (k : nat) :
  forall (n : Z) (w : World),
    1 <= n -> (k = 0%nat \/ n + Z.of_nat k - 1 <= MAXORD) ->
    exists evs,
      trace (run_days env k n w) = trace w ++ evs /\
      List.filter is_driver_event evs = flat_map day_driver_events (days_from k n).
Proof.
  induction k as [|k IH]; intros n w H1 Hk; cbn [run_days days_from flat_map].
  - exists []. split; [symmetry; apply app_nil_r | reflexivity].
  - destruct (day_world_requests env n w ltac:(lia)) as (e1 & H1' & F1).
    destruct (IH (n + 1) (day_world env n w) ltac:(lia) ltac:(lia)) as (e2 & H2 & F2).
    exists (e1 ++ e2). split; [rewrite H2, H1', app_assoc; reflexivity|].
    rewrite List.filter_app, F1, F2. reflexivity.
Qed.

(** X17. Over a date range the program prints every day once, in
    order, and sends exactly one request on each weekday, right after
    that day's print, and none on a Saturday or Sunday; nothing else it
    does is a request or a print. *)
Theorem one_request_per_weekday (env : Env) (fuel : nat) (start_date end_date : string)
  (start end_ : datetime) (w : World)
  (Hstart : strptime_dmY start_date = Ok start)
  (Hend : strptime_dmY end_date = Ok end_)
  (Hlow : ORD_Y1000 <= toordinal start)
  (Hhigh : toordinal end_ < MAXORD)
  (Hfuel : (Z.to_nat (toordinal end_ - toordinal start + 1) <= fuel)%nat) :
  exists w' evs,
    process_date_range env fuel start_date end_date w = Some (Ok tt, w') /\
    trace w' = trace w ++ evs /\
    List.filter is_driver_event evs
    = flat_map day_driver_events
        (days_from (Z.to_nat (toordinal end_ - toordinal start + 1)) (toordinal start)).
Proof.
  destruct start as [s], end_ as [e]. cbn [toordinal] in *. unfold ORD_Y1000 in Hlow.
  destruct (run_days_requests env (Z.to_nat (e - s + 1)) s w ltac:(lia) ltac:(lia))
    as (evs & He & Hf).
  exists (run_days env (Z.to_nat (e - s + 1)) s w), evs.
  split; [|split; [exact He | exact Hf]].
  unfold process_date_range. rewrite Hstart, Hend.
  apply date_loop_runs; [exact Hhigh | lia | reflexivity | exact Hfuel].
Qed.

(** Friday 3 to Monday 6 January 2025: four prints, two requests. *)
Lemma one_request_per_weekday_witness :
  exists w' evs,
    process_date_range Samples.env_offline 4 "03012025" "06012025" init_world
    = Some (Ok tt, w') /\
    trace w' = trace init_world ++ evs /\
    List.filter is_driver_event evs
    = [Print (mkDatetime 739254); HttpGet (url_of "03012025");
       Print (mkDatetime 739255); Print (mkDatetime 739256);
       Print (mkDatetime 739257); HttpGet (url_of "06012025")].
Proof.
  refine (one_request_per_weekday Samples.env_offline 4 "03012025" "06012025"
            (mkDatetime 739254) (mkDatetime 739257) init_world _ _ _ _ _).
  - vm_compute. reflexivity.
  - vm_compute. reflexivity.
  - vm_compute. discriminate.
  - reflexivity.
  - vm_compute. lia.
Defined.

Lemma date_loop_step_any (env : Env) (fuel : nat) (e n : Z) (w : World) :
  1 <= n <= MAXORD -> n <= e ->
  date_loop env (S fuel) (mkDatetime e) (mkDatetime n) w
  = if n + 1 <=? MAXORD
    then date_loop env fuel (mkDatetime e) (mkDatetime (n + 1)) (day_world env n w)
    else Some (Raise OverflowError, day_world env n w).
Proof.
  intros H1 Hle. cbn [date_loop]. unfold le. cbn [toordinal].
  rewrite (proj2 (Z.leb_le n e) Hle).
  unfold bind at 1. unfold emit at 1.
  fold (add_events w [Print (mkDatetime n)]).
  unfold bind at 1.
  pose proof (process_single_date_returns env (strftime_dmY (mkDatetime n))
                (5 <=? weekday (mkDatetime n)) (add_events w [Print (mkDatetime n)])
                (is_weekend_strftime n H1)) as Hr.
  unfold day_world.
  destruct (process_single_date env _ _) as [r w']. cbn [fst snd] in *. subst r.
  unfold lift, add_days. cbn [toordinal].
  rewrite (proj2 (Z.leb_le 1 (n + 1))) by lia. cbn [andb].
  destruct (n + 1 <=? MAXORD); reflexivity.
Qed.

Lemma date_loop_overflows (env : Env) (k : nat) :
  forall (fuel : nat) (n : Z) (w : World),
    1 <= n <= MAXORD -> k = Z.to_nat (MAXORD - n + 1) -> (k <= fuel)%nat ->
    date_loop env fuel (mkDatetime MAXORD) (mkDatetime n) w
    = Some (Raise OverflowError, run_days env k n w).
Proof.
  induction k as [|k IH]; intros fuel n w Hn Hk Hf; [lia|].
  destruct fuel as [|fuel]; [lia|].
  rewrite date_loop_step_any by lia. cbn [run_days].
  destruct (Z.leb_spec (n + 1) MAXORD) as [Hlt|Hge].
  - apply IH; lia.
  - assert (k = 0%nat) by lia. subst k. reflexivity.
Qed.

(** X18. Two ends of the range.  When the end date lies before the
    start date the loop body never runs: nothing is printed, requested
    or written.  When the end date is 31 December 9999 the loop
    processes every day up to it and then raises OverflowError, because
    the day after the last [datetime] does not exist. *)
Theorem date_range_edges (env : Env) (w : World) :
  (forall fuel start_date end_date start end_,
      strptime_dmY start_date = Ok start ->
      strptime_dmY end_date = Ok end_ ->
      toordinal end_ < toordinal start ->
      process_date_range env fuel start_date end_date w = Some (Ok tt, w)) /\
  (forall fuel start_date start,
      strptime_dmY start_date = Ok start ->
      ORD_Y1000 <= toordinal start <= MAXORD ->
      (Z.to_nat (MAXORD - toordinal start + 1) <= fuel)%nat ->
      process_date_range env fuel start_date "31129999" w
      = Some (Raise OverflowError,
              run_days env (Z.to_nat (MAXORD - toordinal start + 1)) (toordinal start) w)).
Proof.
  split.
  - intros fuel start_date end_date [s] [e] Hs He Hlt. cbn [toordinal] in Hlt.
    unfold process_date_range. rewrite Hs, He.
    destruct fuel; cbn [date_loop]; unfold le; cbn [toordinal];
      rewrite (proj2 (Z.leb_gt s e)) by lia; reflexivity.
  - intros fuel start_date [s] Hs Hrange Hfuel. cbn [toordinal] in *.
    unfold ORD_Y1000 in Hrange. unfold process_date_range. rewrite Hs.
    assert (Hmax : strptime_dmY "31129999" = Ok (mkDatetime MAXORD))
      by (vm_compute; reflexivity).
    rewrite Hmax. apply date_loop_overflows; [lia | reflexivity | exact Hfuel].
Qed.

(** From 30 December 9999: two days are processed, then the overflow. *)
Lemma date_range_edges_witness :
  strptime_dmY "30129999" = Ok (mkDatetime 3652058) /\
  process_date_range Samples.env_offline 2 "30129999" "31129999" init_world
  = Some (Raise OverflowError, run_days Samples.env_offline 2 3652058 init_world).
Proof.
  assert (H : strptime_dmY "30129999" = Ok (mkDatetime 3652058)) by (vm_compute; reflexivity).
  split; [exact H|].
  refine (proj2 (date_range_edges Samples.env_offline init_world) 2%nat "30129999"
            (mkDatetime 3652058) H _ _).
  - vm_compute. split; discriminate.
  - vm_compute. lia.
Defined.

End RangeProps.

(** ** get_engine *)

Module EngineProps.
Import GetEngine.

Lemma substring_all (s : string) : substring 0 (String.length s) s = s.
Proof. induction s as [|a s IH]; simpl; [reflexivity|]. rewrite IH. reflexivity. Qed.

Lemma replace_first_unfold (old new s : string) :
  replace_first old new s =
  if String.prefix old s
  then (new ++ substring (String.length old) (String.length s - String.length old) s)%string
  else match s with
       | EmptyString => EmptyString
       | String c s' => String c (replace_first old new s')
       end.
Proof. destruct s; reflexivity. Qed.

Lemma prefix_app (p rest : string) : String.prefix p (p ++ rest) = true.
Proof.
  induction p as [|a p IH]; simpl; [destruct rest; reflexivity|].
  destruct (ascii_dec a a); [exact IH | congruence].
Qed.

Lemma substring_after (p rest : string) :
  substring (String.length p) (String.length (p ++ rest) - String.length p) (p ++ rest) = rest.
Proof.
  induction p as [|a p IH]; simpl.
  - rewrite Nat.sub_0_r. apply substring_all.
  - exact IH.
Qed.

Lemma prefix_split (p s : string) :
  String.prefix p s = true -> exists rest, s = (p ++ rest)%string.
Proof.
  revert s. induction p as [|a p IH]; intros s H.
  - exists s. reflexivity.
  - destruct s as [|b s]; simpl in H; [discriminate|].
    destruct (ascii_dec a b) as [->|]; [|discriminate].
    destruct (IH s H) as [rest ->]. exists rest. reflexivity.
Qed.

Lemma append_inv_head (p a b : string) : (p ++ a)%string = (p ++ b)%string -> a = b.
Proof.
  induction p as [|c p IH]; simpl; intros H; [exact H|].
  injection H as H. exact (IH H).
Qed.

Lemma replace_first_prefix (old new rest : string) :
  replace_first old new (old ++ rest) = (new ++ rest)%string.
Proof.
  rewrite replace_first_unfold, prefix_app, substring_after. reflexivity.
Qed.

(** X19. [get_engine] hands SQLAlchemy a URL that never has the scheme
    [postgres://]: a URL that starts with it has that scheme replaced by
    [postgresql://] and everything after it kept, also when the text
    occurs again further on; any other URL is passed on unchanged;
    normalising twice changes nothing more.  When DATABASE_URL is not
    set, the call fails with AttributeError before any engine is made. *)
Theorem engine_url_scheme (u : string) :
  engine_url None = Raised (AttributeError "NoneType" "startswith") /\
  exists v,
    engine_url (Some u) = Returned v /\
    String.prefix "postgres://" v = false /\
    engine_url (Some v) = Returned v /\
    (forall rest, u = ("postgres://" ++ rest)%string -> v = ("postgresql://" ++ rest)%string) /\
    (String.prefix "postgres://" u = false -> v = u).
Proof.
  split; [reflexivity|].
  unfold engine_url.
  destruct (String.prefix "postgres://" u) eqn:Hp.
  - destruct (prefix_split _ _ Hp) as [rest ->].
    rewrite replace_first_prefix.
    exists ("postgresql://" ++ rest)%string.
    assert (Hq : String.prefix "postgres://" ("postgresql://" ++ rest) = false) by reflexivity.
    rewrite Hq.
    repeat split; try reflexivity; try discriminate.
    intros rest' Heq. apply append_inv_head in Heq. rewrite Heq. reflexivity.
  - exists u. rewrite Hp. repeat split; try reflexivity.
    intros rest ->. rewrite prefix_app in Hp. discriminate.
Qed.

End EngineProps.

(** ** PatternEngine *)

Module PatternEngineProps.
Import CandlePatternRecognizer PatternEngineDetect.

Lemma dict_get_raises {V} (d : list (string * V)) (k : string) (e : Exn) :
  dict_get d k = Raise e -> e = KeyError k.
Proof.
  induction d as [|[k' v] d IH]; simpl; [congruence|].
  destruct (String.eqb k' k); [discriminate | exact IH].
Qed.

Lemma land_hundreds (k : Z) (b : bool) : Z.land (100 * k) (PatternEngine.b2z b) = 0.
Proof.
  destruct b; simpl PatternEngine.b2z; [|apply Z.land_0_r].
  change 1 with (Z.ones 1). rewrite Z.land_ones by lia.
  change (2 ^ 1) with 2. replace (100 * k) with (50 * k * 2) by lia.
  apply Z.mod_mul. lia.
Qed.

(** X20. [detect_patterns] needs the four columns open, high, low and
    close: when one is missing it raises KeyError for the first one
    missing, in that order, and returns nothing; with all four it
    returns one output per pattern id, ids 1 to 7 in the order of the
    catalog, whatever else [ohlc_data] holds. *)
Theorem detect_patterns_first_missing (talib : Talib) (ohlc_data : list (string * list Q)) :
  match first_missing ohlc_data with
  | Some k => detect_patterns talib ohlc_data = Raise (KeyError k)
  | None => exists results,
      detect_patterns talib ohlc_data = Ok results /\
      map fst results = [1; 2; 3; 4; 5; 6; 7]
  end.
Proof.
  unfold first_missing, detect_patterns, PatternEngine.patterns. cbn [List.find].
  destruct (dict_get ohlc_data "open") as [o|e] eqn:Ho;
    [|rewrite (dict_get_raises _ _ _ Ho); reflexivity].
  destruct (dict_get ohlc_data "high") as [h|e] eqn:Hh;
    [|rewrite (dict_get_raises _ _ _ Hh); reflexivity].
  destruct (dict_get ohlc_data "low") as [l|e] eqn:Hl;
    [|rewrite (dict_get_raises _ _ _ Hl); reflexivity].
  destruct (dict_get ohlc_data "close") as [c|e] eqn:Hc;
    [|rewrite (dict_get_raises _ _ _ Hc); reflexivity].
  eexists. split; reflexivity.
Qed.

(** X21. The Bullish and Bearish Marubozu entries of [PatternEngine]
    never report anything: TA-Lib answers in hundreds (-100, 0, 100),
    and the elementwise [&] of an even number with a comparison (0 or 1)
    is 0.  So on every row the outputs of ids 6 and 7 are 0, whatever
    the candle looks like. *)
Theorem marubozu_never_fires (talib : Talib) (ohlc_data : list (string * list Q))
  (o h l c : list Q)
  (Ho : dict_get ohlc_data "open" = Ok o) (Hh : dict_get ohlc_data "high" = Ok h)
  (Hl : dict_get ohlc_data "low" = Ok l) (Hc : dict_get ohlc_data "close" = Ok c)
  (Hundreds : forall i, exists k, talib CDLMARUBOZU o h l c i = 100 * k) :
  exists results,
    detect_patterns talib ohlc_data = Ok results /\
    forall id out, In (id, out) results -> id = 6 \/ id = 7 -> forall i, out i = 0.
Proof.
  unfold detect_patterns, PatternEngine.patterns. cbn [rmapM].
  rewrite Ho, Hh, Hl, Hc. cbn [rbind fst snd].
  eexists. split; [reflexivity|].
  intros id out Hin Hid i.
  assert (Hout : out = PatternEngine.BullishMarubozu talib o h l c \/
                 out = PatternEngine.BearishMarubozu talib o h l c).
  { simpl in Hin.
    repeat (destruct Hin as [Hin|Hin];
            [inversion Hin; subst; try (destruct Hid; discriminate); auto|]).
    contradiction. }
  destruct (Hundreds i) as [k Hk].
  destruct Hout as [-> | ->];
    unfold PatternEngine.BullishMarubozu, PatternEngine.BearishMarubozu;
    rewrite Hk; apply land_hundreds.
Qed.

Lemma marubozu_never_fires_witness :
  exists results,
    detect_patterns ApiSamples.talib_marubozu ApiSamples.ohlc_rising = Ok results /\
    forall id out, In (id, out) results -> id = 6 \/ id = 7 -> forall i, out i = 0.
Proof.
  apply (marubozu_never_fires ApiSamples.talib_marubozu ApiSamples.ohlc_rising
           [10%Q] [12%Q] [10%Q] [12%Q]); try reflexivity.
  intros i. exists 1. reflexivity.
Defined.

End PatternEngineProps.

(** ** database.py *)

Module PoolProps.
Import Database.

Section WithPool.
Variable connect_error : Z -> Z -> option PyError.
Variable getconn : list PoolEvent -> Outcome Conn.
Variable putconn_error : list PoolEvent -> Conn -> option PyError.

(** What every call keeps: without an instance no pool was built; with
    one, exactly that one was. *)
Definition singleton (w : DbWorld) : Prop :=
  match instance w with
  | None => pools_built (pool_trace w) = []
  | Some p => pools_built (pool_trace w) = [PoolCreated (minconn p) (maxconn p)]
  end.

Lemma DBPool_init_singleton (min_conn max_conn : Z) (w : DbWorld) :
  singleton w -> singleton (snd (DBPool_init connect_error min_conn max_conn w)).
Proof.
  destruct w as [[p|] tr]; unfold singleton, DBPool_init; cbn; intros H; [exact H|].
  destruct (connect_error min_conn max_conn); cbn; [exact H|].
  unfold pools_built in *. rewrite List.filter_app, H. reflexivity.
Qed.

Lemma get_connection_singleton (w : DbWorld) :
  singleton w -> singleton (snd (get_connection connect_error getconn w)).
Proof.
  destruct w as [[p|] tr]; unfold singleton, get_connection, dbind, DBPool_init; cbn; intros H.
  - destruct (getconn tr); cbn; [|exact H].
    unfold pools_built in *. rewrite List.filter_app, H. reflexivity.
  - destruct (connect_error 2 10); cbn; [exact H|].
    destruct (getconn _); cbn.
    + unfold pools_built in *. rewrite !List.filter_app, H. reflexivity.
    + unfold pools_built in *. rewrite List.filter_app, H. reflexivity.
Qed.

Lemma return_connection_singleton (c : Conn) (w : DbWorld) :
  singleton w -> singleton (snd (return_connection putconn_error c w)).
Proof.
  destruct w as [[p|] tr]; unfold singleton, return_connection; cbn; intros H; [|exact H].
  destruct (putconn_error tr c); cbn; [exact H|].
  unfold pools_built in *. rewrite List.filter_app, H. reflexivity.
Qed.

Lemma pool_calls_singleton (ops : list PoolCall) (w : DbWorld) :
  singleton w ->
  singleton (pool_calls connect_error getconn putconn_error ops w).
Proof.
  revert w. induction ops as [|op ops IH]; intros w H; [exact H|].
  simpl. apply IH. destruct op; simpl.
  - apply DBPool_init_singleton, H.
  - apply get_connection_singleton, H.
  - apply return_connection_singleton, H.
Qed.

Lemma pool_call_keeps_instance (op : PoolCall) (w : DbWorld) (p : Pool) :
  instance w = Some p ->
  instance (pool_call connect_error getconn putconn_error op w) = Some p.
Proof.
  destruct w as [inst tr]. cbn. intros ->.
  destruct op; cbn; [reflexivity| |].
  - unfold get_connection, dbind. cbn. destruct (getconn tr); reflexivity.
  - unfold return_connection. cbn. destruct (putconn_error tr c); reflexivity.
Qed.

(** X22. [DBPool] is a singleton whatever its clients do: over any
    sequence of [DBPool(...)], [get_connection] and [return_connection]
    calls, failed ones included, at most one pool is ever built, and the
    instance is that pool, with the sizes of the call that built it. *)
Theorem pool_built_at_most_once (ops : list PoolCall) :
  let w := pool_calls connect_error getconn putconn_error ops fresh_pool in
  match instance w with
  | None => pools_built (pool_trace w) = []
  | Some p => pools_built (pool_trace w) = [PoolCreated (minconn p) (maxconn p)]
  end.
Proof. apply (pool_calls_singleton ops fresh_pool). reflexivity. Qed.

(** X23. Once the pool exists, nothing replaces it: later calls of
    [DBPool(min_conn, max_conn)] ignore their sizes, and no sequence of
    calls changes the instance or builds another pool. *)
Theorem pool_never_replaced (ops : list PoolCall) (w : DbWorld) (p : Pool)
  (Hinstance : instance w = Some p) :
  let w' := pool_calls connect_error getconn putconn_error ops w in
  instance w' = Some p /\
  pools_built (pool_trace w') = pools_built (pool_trace w) /\
  forall min_conn max_conn,
    DBPool_init connect_error min_conn max_conn w' = (Returned tt, w').
Proof.
  cbv zeta. revert w Hinstance.
  induction ops as [|op ops IH]; intros w Hi.
  - simpl. repeat split; [exact Hi|].
    intros mn mx. unfold DBPool_init. rewrite Hi. reflexivity.
  - simpl.
    destruct (IH _ (pool_call_keeps_instance op w p Hi)) as (H1 & H2 & H3).
    repeat split; [exact H1| |exact H3].
    rewrite H2. clear - Hi. destruct w as [inst tr]. cbn in Hi. subst inst.
    destruct op; cbn; [reflexivity| |].
    + unfold get_connection, dbind. cbn. destruct (getconn tr); cbn; [|reflexivity].
      unfold pools_built. rewrite List.filter_app. apply app_nil_r.
    + unfold return_connection. cbn. destruct (putconn_error tr c); cbn; [reflexivity|].
      unfold pools_built. rewrite List.filter_app. apply app_nil_r.
Qed.

(** X24. [with get_db_connection() as conn] hands the connection back
    on every path: whether the block returns or raises, [putconn] is
    called with the very connection that was taken, after the block,
    and the block's own outcome (its value or its exception) is what
    leaves the statement. *)
Theorem connection_returned_on_every_path {A} (body : Conn -> D A)
  (w w1 w2 : DbWorld) (c : Conn) (r : Outcome A)
  (Htaken : get_connection connect_error getconn w = (Returned c, w1))
  (Hbody : body c w1 = (r, w2))
  (Hinstance : instance w2 <> None)
  (Hput : putconn_error (pool_trace w2) c = None) :
  with_db_connection connect_error getconn putconn_error body w =
    (r, {| instance := instance w2; pool_trace := pool_trace w2 ++ [PutConn c] |}).
Proof.
  unfold with_db_connection, dbind. rewrite Htaken.
  unfold try_finally. rewrite Hbody.
  destruct w2 as [[p|] tr]; cbn in *; [|congruence].
  unfold return_connection. cbn. rewrite Hput. reflexivity.
Qed.

(** X25. [load_companies], [load_prices] and [save_patterns_to_db] bind
    [conn] to the context manager itself, not to a connection: the
    first use, [conn.cursor()], raises AttributeError, the [finally]
    clause raises it again for [conn.close()], and that is what leaves
    the call.  No statement is executed, nothing is committed, and the
    pool is never asked for a connection. *)
Theorem loaders_never_reach_database (cursor_block commit close : Conn -> D unit)
  (w : DbWorld) :
  use_connection cursor_block commit close w =
    (Raised (AttributeError "_GeneratorContextManager" "close"), w).
Proof. reflexivity. Qed.

End WithPool.

Lemma pool_never_replaced_witness :
  let w := pool_calls ApiSamples.connect_ok ApiSamples.getconn_ok ApiSamples.putconn_ok
             [CallGetConnection] fresh_pool in
  let w' := pool_calls ApiSamples.connect_ok ApiSamples.getconn_ok ApiSamples.putconn_ok
              [CallDBPool 5 20; CallGetConnection; CallReturnConnection 1%nat] w in
  instance w' = Some (mkPool 2 10) /\
  pools_built (pool_trace w') = pools_built (pool_trace w) /\
  forall min_conn max_conn,
    DBPool_init ApiSamples.connect_ok min_conn max_conn w' = (Returned tt, w').
Proof.
  exact (pool_never_replaced ApiSamples.connect_ok ApiSamples.getconn_ok ApiSamples.putconn_ok
           [CallDBPool 5 20; CallGetConnection; CallReturnConnection 1%nat]
           (pool_calls ApiSamples.connect_ok ApiSamples.getconn_ok ApiSamples.putconn_ok
              [CallGetConnection] fresh_pool)
           (mkPool 2 10) eq_refl).
Defined.

Lemma connection_returned_on_every_path_witness :
  with_db_connection ApiSamples.connect_ok ApiSamples.getconn_ok ApiSamples.putconn_ok
    ApiSamples.body_fails fresh_pool =
    (Raised (OperationalError "server closed the connection"),
     {| instance := Some (mkPool 2 10);
        pool_trace := [PoolCreated 2 10; GetConn 1%nat; PutConn 1%nat] |}).
Proof.
  apply (connection_returned_on_every_path ApiSamples.connect_ok ApiSamples.getconn_ok
           ApiSamples.putconn_ok ApiSamples.body_fails fresh_pool
           {| instance := Some (mkPool 2 10); pool_trace := [PoolCreated 2 10; GetConn 1%nat] |}
           {| instance := Some (mkPool 2 10); pool_trace := [PoolCreated 2 10; GetConn 1%nat] |}
           1%nat (Raised (OperationalError "server closed the connection")));
    [reflexivity | reflexivity | discriminate | reflexivity].
Defined.

End PoolProps.
